(** * Procurement / R&D notice search pipeline: a shallow embedding of app.py

    The development follows the layout of the program:
    - [Py]: the Python primitives the program relies on (exceptions, [str]
      methods, [int()], [float()], binary64 arithmetic);
    - [Fetcher]: [fetch_data_from_api], the paginated fetch loop;
    - [WindowSplitter]: [fetch_bid_data_split];
    - [Frame]: the part of pandas' DataFrame behaviour the processors use;
    - [Normalizer]: [get_val], [apply_exclusion_filter], the per-source
      processors, [parse_money] and [calc_min_bid];
    - [Renderer]: the urgency test of [apply_styles];
    - [FetchRun], [SplitterLog]: what whole runs of the fetch loop and of the
      window splitter send, gather and log;
    - [Processors]: [process_prior_for_excel] and [process_bid_for_excel];
      [Rowwise]: the tables of the four processors row by row;
    - [Session], [History]: the key of the session, the keyword fields, the
      search history file;
    - [Sheet]: the deadline column of a sheet.

    Conventions.  A Python [str] is a [string]: a sequence of 8-bit characters
    holding the UTF-8 encoding of the text.  Substring search on the encoding
    agrees with substring search on code points.  Case folding and whitespace
    are the ASCII ones; digits are the ASCII digits.  [lower], [float()] and
    [int()] are therefore those of Python on ASCII text ([isascii]; for
    [int()] a text within the number of digits Python converts), and [strip]
    is [str.strip] on a text whose blanks are ASCII ones ([ascii_blanks]); a
    property that would not hold of the program outside that range is stated
    with these conditions. *)

From Stdlib Require Import ZArith QArith Qround List String Ascii Bool Lia.
From Stdlib Require Import Floats.SpecFloat.
From Stdlib Require Import Numbers.DecimalString.
Import ListNotations.

Open Scope string_scope.
Open Scope list_scope.
Open Scope Z_scope.

(** ** Python primitives *)
Module Py.

(** Exceptions the modelled code can raise. *)
Inductive exn : Type :=
| ValueError
| TypeError
| OverflowError
| KeyError.

(** A computation that returns or raises. *)
Inductive result (A : Type) : Type :=
| Ok (a : A)
| Raise (e : exn).
Arguments Ok {A} a.
Arguments Raise {A} e.

Definition bind {A B : Type} (m : result A) (k : A -> result B) : result B :=
  match m with
  | Ok a => k a
  | Raise e => Raise e
  end.

(** [try: m except: d] with a bare [except]. *)
Definition try_except {A : Type} (m : result A) (d : A) : A :=
  match m with
  | Ok a => a
  | Raise _ => d
  end.

Fixpoint mapM {A B : Type} (f : A -> result B) (l : list A) : result (list B) :=
  match l with
  | [] => Ok []
  | a :: l' =>
      bind (f a) (fun b => bind (mapM f l') (fun bs => Ok (b :: bs)))
  end.

(** *** Characters and strings *)

Definition code (c : ascii) : Z := Z.of_nat (nat_of_ascii c).

(** [str.isspace] on the ASCII range: TAB..CR, FS..US and SPACE. *)
Definition is_space (c : ascii) : bool :=
  let n := code c in
  ((9 <=? n) && (n <=? 13)) || ((28 <=? n) && (n <=? 32)).

(** C's [isspace], used by [float()] and [int()] on their argument. *)
Definition is_c_space (c : ascii) : bool :=
  let n := code c in
  ((9 <=? n) && (n <=? 13)) || (n =? 32).

Definition is_digit (c : ascii) : bool :=
  let n := code c in (48 <=? n) && (n <=? 57).

Definition digit_val (c : ascii) : Z := code c - 48.

Definition lower_char (c : ascii) : ascii :=
  let n := code c in
  if (65 <=? n) && (n <=? 90) then ascii_of_nat (Z.to_nat (n + 32)) else c.

(** [s.lower()]; the letters folded are A to Z. *)
Fixpoint lower (s : string) : string :=
  match s with
  | EmptyString => EmptyString
  | String c s' => String (lower_char c) (lower s')
  end.

Fixpoint lstrip_by (sp : ascii -> bool) (s : string) : string :=
  match s with
  | EmptyString => EmptyString
  | String c s' => if sp c then lstrip_by sp s' else s
  end.

Fixpoint rstrip_by (sp : ascii -> bool) (s : string) : string :=
  match s with
  | EmptyString => EmptyString
  | String c s' =>
      match rstrip_by sp s' with
      | EmptyString => if sp c then EmptyString else String c EmptyString
      | r => String c r
      end
  end.

Definition strip_by (sp : ascii -> bool) (s : string) : string :=
  rstrip_by sp (lstrip_by sp s).

(** [s.strip()]; the blanks removed are those of [is_space]. *)
Definition strip (s : string) : string := strip_by is_space s.

(** [s.replace(c, '')] for a one-character [c]. *)
Fixpoint remove_char (c : ascii) (s : string) : string :=
  match s with
  | EmptyString => EmptyString
  | String d s' => if Ascii.eqb c d then remove_char c s' else String d (remove_char c s')
  end.

(** [needle in haystack] *)
Fixpoint contains (needle haystack : string) : bool :=
  prefix needle haystack ||
  match haystack with
  | EmptyString => false
  | String _ h' => contains needle h'
  end.

(** What [needle in haystack] decides. *)
Definition Substring (needle haystack : string) : Prop :=
  exists pre post, haystack = (pre ++ needle ++ post)%string.

(** [s.isascii()] *)
Fixpoint isascii (s : string) : bool :=
  match s with
  | EmptyString => true
  | String c s' => (code c <? 128) && isascii s'
  end.

(** The text made of the given bytes. *)
Definition utf8 (bytes : list nat) : string :=
  string_of_list_ascii (List.map ascii_of_nat bytes).

(** The characters [str.isspace] holds of beyond the ASCII range, in UTF-8:
    U+0085, U+00A0, U+1680, U+2000 .. U+200A, U+2028, U+2029, U+202F, U+205F
    and U+3000. *)
Definition wide_blanks : list string :=
  List.map utf8
    [[194; 133]; [194; 160]; [225; 154; 128];
     [226; 128; 128]; [226; 128; 129]; [226; 128; 130]; [226; 128; 131];
     [226; 128; 132]; [226; 128; 133]; [226; 128; 134]; [226; 128; 135];
     [226; 128; 136]; [226; 128; 137]; [226; 128; 138];
     [226; 128; 168]; [226; 128; 169]; [226; 128; 175]; [226; 129; 159];
     [227; 128; 128]]%nat.

(** A text whose only blanks are ASCII ones.  [str.strip] removes from such
    a text what [strip] removes; on a text with a blank of [wide_blanks] at
    one of its ends [str.strip] removes more. *)
Definition ascii_blanks (s : string) : bool :=
  forallb (fun b => negb (contains b s)) wide_blanks.

Fixpoint repeat_char (c : ascii) (n : nat) : string :=
  match n with
  | O => EmptyString
  | S n' => String c (repeat_char c n')
  end.

(** [s.zfill(width)]: zeros go after a leading sign.  The length counted
    is that of the encoding, which is the number of characters of ASCII
    text. *)
Definition zfill (width : nat) (s : string) : string :=
  let pad := repeat_char "0"%char (width - String.length s) in
  match s with
  | String c s' =>
      if Ascii.eqb c "+"%char || Ascii.eqb c "-"%char
      then String c (pad ++ s')%string
      else (pad ++ s)%string
  | EmptyString => pad
  end.

(** [str(n)] for an [int]. *)
Definition str_of_int (z : Z) : string := NilEmpty.string_of_int (Z.to_int z).

(** *** binary64 *)

Definition prec : Z := 53.
Definition emax : Z := 1024.

Definition float : Type := spec_float.

(** Conversion of an [int] to a [float]: correctly rounded; an [int] beyond
    the range raises OverflowError. *)
Definition float_of_int (z : Z) : result float :=
  match binary_normalize prec emax z 0 false with
  | S754_infinity _ => Raise OverflowError
  | f => Ok f
  end.

Definition fmul (x y : float) : float := SFmul prec emax x y.

(** The record [shr] reaches after [k] halvings of an exact mantissa [m]:
    the quotient, the last bit shifted out, and whether a lower bit is set. *)
Definition shifted (m : Z) (k : positive) : shr_record :=
  {| shr_m := m / 2 ^ Zpos k;
     shr_r := Z.odd (m / 2 ^ (Zpos k - 1));
     shr_s := negb (m mod 2 ^ (Zpos k - 1) =? 0) |}.

(** [m / 2^n] rounded to nearest, ties to even. *)
Definition round_shift (m : Z) (n : positive) : Z :=
  round_nearest_even (shr_m (shifted m n)) (loc_of_shr_record (shifted m n)).

(** [int(f)]: truncation toward zero; raises on infinities and NaN. *)
Definition int_of_float (f : float) : result Z :=
  match f with
  | S754_zero _ => Ok 0
  | S754_infinity _ => Raise OverflowError
  | S754_nan => Raise ValueError
  | S754_finite s m e =>
      let a := match e with
               | Zneg p => Z.shiftr (Zpos m) (Zpos p)
               | _ => Z.shiftl (Zpos m) e
               end in
      Ok (if s then - a else a)
  end.

(** The real number a finite [float] stands for. *)
Definition float_value (f : float) : Q :=
  match f with
  | S754_finite s m e =>
      let z := if s then Zneg m else Zpos m in
      match e with
      | Zneg k => Qmake z (2 ^ k)%positive
      | _ => inject_Z (z * 2 ^ e)
      end
  | _ => inject_Z 0
  end.

Definition is_finite (f : float) : bool :=
  match f with
  | S754_finite _ _ _ | S754_zero _ => true
  | _ => false
  end.

(** Truncation of a real number toward zero. *)
Definition Qtrunc (q : Q) : Z :=
  if Qle_bool (inject_Z 0) q then Qfloor q else Qceiling q.

(** The correctly rounded binary64 value of [(-1)^s * m * 10^dexp]. *)
Definition float_of_decimal (s : bool) (m : Z) (dexp : Z) : float :=
  match m with
  | Zpos p =>
      match dexp with
      | Zneg k =>
          SFdiv prec emax (S754_finite s p 0)
                (S754_finite false (Z.to_pos (10 ^ Zpos k)) 0)
      | _ => binary_normalize prec emax (if s then - (m * 10 ^ dexp) else m * 10 ^ dexp) 0 s
      end
  | _ => S754_zero s
  end.

(** *** [float(str)] *)

(** Removal of the underscores of a numeric literal: each underscore must sit
    between two digits. *)
Fixpoint strip_underscores (prev : option ascii) (s : string) : option string :=
  match s with
  | EmptyString =>
      match prev with
      | Some "_"%char => None
      | _ => Some EmptyString
      end
  | String c s' =>
      if Ascii.eqb c "_"%char then
        match prev with
        | Some p => if is_digit p then strip_underscores (Some c) s' else None
        | None => None
        end
      else
        let ok := match prev with
                  | Some "_"%char => is_digit c
                  | _ => true
                  end in
        if ok then option_map (String c) (strip_underscores (Some c) s') else None
  end.

(** Longest prefix of digits and the rest. *)
Fixpoint span_digits (s : string) : string * string :=
  match s with
  | String c s' =>
      if is_digit c then let '(d, r) := span_digits s' in (String c d, r)
      else (EmptyString, s)
  | EmptyString => (EmptyString, EmptyString)
  end.

Fixpoint digits_value (acc : Z) (s : string) : Z :=
  match s with
  | EmptyString => acc
  | String c s' => digits_value (10 * acc + digit_val c) s'
  end.

(** An optional sign: [true] for minus. *)
Definition split_sign (s : string) : bool * string :=
  match s with
  | String "-"%char s' => (true, s')
  | String "+"%char s' => (false, s')
  | _ => (false, s)
  end.

(** The exponent part: empty, or [e] / [E], an optional sign and digits. *)
Definition parse_exponent (s : string) : option Z :=
  match s with
  | EmptyString => Some 0
  | String c s' =>
      if Ascii.eqb (lower_char c) "e"%char then
        let '(neg, s1) := split_sign s' in
        let '(ds, rest) := span_digits s1 in
        match ds, rest with
        | String _ _, EmptyString =>
            Some (if neg then - digits_value 0 ds else digits_value 0 ds)
        | _, _ => None
        end
      else None
  end.

(** A decimal literal without its sign. *)
Definition parse_decimal (neg : bool) (s : string) : option float :=
  let '(ip, r1) := span_digits s in
  let '(fp, r2) :=
    match r1 with
    | String "."%char r => span_digits r
    | _ => (EmptyString, r1)
    end in
  match (ip ++ fp)%string with
  | EmptyString => None
  | ds =>
      match parse_exponent r2 with
      | Some ex =>
          Some (float_of_decimal neg (digits_value 0 ds) (ex - Z.of_nat (String.length fp)))
      | None => None
      end
  end.

Definition parse_inf_nan (neg : bool) (s : string) : option float :=
  let l := lower s in
  if String.eqb l "inf" || String.eqb l "infinity" then Some (S754_infinity neg)
  else if String.eqb l "nan" then Some S754_nan
  else None.

(** [float(s)] for a [str] of ASCII characters. *)
Definition float_of_str (s : string) : result float :=
  match strip_underscores None s with
  | None => Raise ValueError
  | Some s1 =>
      let '(neg, body) := split_sign (strip_by is_c_space s1) in
      match parse_decimal neg body with
      | Some f => Ok f
      | None =>
          match parse_inf_nan neg body with
          | Some f => Ok f
          | None => Raise ValueError
          end
      end
  end.

(** *** [int(str)] in base 10, for a [str] of ASCII characters *)

Fixpoint all_digits (s : string) : bool :=
  match s with
  | EmptyString => true
  | String c s' => is_digit c && all_digits s'
  end.

Definition int_of_str (s : string) : result Z :=
  let '(neg, body) := split_sign (strip_by is_c_space s) in
  match strip_underscores None body with
  | Some (String c ds) =>
      if all_digits (String c ds)
      then Ok (if neg then - digits_value 0 (String c ds) else digits_value 0 (String c ds))
      else Raise ValueError
  | _ => Raise ValueError
  end.

(** *** Dictionaries with string keys, in insertion order *)

Definition dict (V : Type) : Type := list (string * V).

Fixpoint dict_get {V : Type} (d : dict V) (k : string) : option V :=
  match d with
  | [] => None
  | (k', v) :: d' => if String.eqb k k' then Some v else dict_get d' k
  end.

(** [d[k] = v]: an existing key keeps its place. *)
Fixpoint dict_set {V : Type} (d : dict V) (k : string) (v : V) : dict V :=
  match d with
  | [] => [(k, v)]
  | (k', v') :: d' =>
      if String.eqb k k' then (k', v) :: d' else (k', v') :: dict_set d' k v
  end.

(** [range(n)] *)
Definition range (n : Z) : list Z := List.map Z.of_nat (List.seq 0 (Z.to_nat n)).

Definition len {A : Type} (l : list A) : Z := Z.of_nat (List.length l).

End Py.

(** ** Fetcher: [fetch_data_from_api] *)
Module Fetcher.
Import Py.

Definition ORDER_PLAN_URL : string :=
  "https://apis.data.go.kr/1230000/ao/OrderPlanSttusService/getOrderPlanSttusListServcPPSSrch".
Definition PRIOR_SPEC_URL : string :=
  "https://apis.data.go.kr/1230000/ao/HrcspSsstndrdInfoService/getPublicPrcureThngInfoServcPPSSrch".
Definition BID_NOTICE_URL : string :=
  "https://apis.data.go.kr/1230000/ad/BidPublicInfoService/getBidPblancListInfoServcPPSSrch".
Definition RD_NOTICE_URL : string :=
  "http://apis.data.go.kr/1721000/msitBusinessNotice/getMsitBusinessNoticeList".

(** One parsed XML item: tag -> stripped text. *)
Definition RawRecord : Type := dict string.

(** Request parameters. *)
Definition params : Type := dict string.

(** What the parsed response body offers to the loop:
    [root.findall(".//items/item")] and [root.find(".//body/totalCount")];
    the text of a [totalCount] element may be missing ([None]). *)
Record xml_body : Type := {
  items : list RawRecord;
  totalCount : option (option string)
}.

(** The answer to one [requests.get]: the call raises, or returns a status
    and a text that parses as XML ([Some]) or makes [ET.fromstring] raise
    ([None]). *)
Inductive response : Type :=
| TransportError
| Http (status_code : Z) (parsed : option xml_body).

(** The remote service. *)
Definition server : Type := string -> params -> response.

(** ["msitBusinessNotice" in url] *)
Definition is_rd (url : string) : bool := contains "msitBusinessNotice" url.

(** The parameters of the request for [page]. *)
Definition page_params (url : string) (p : params) (page : Z) : params :=
  let p1 := dict_set p "pageNo" (str_of_int page) in
  if is_rd url
  then dict_set (dict_set p1 "numOfRows" "10") "type" "xml"
  else dict_set p1 "numOfRows" "500".

(** What one turn of the loop decides. *)
Inductive outcome : Type :=
| Break (all_items : list RawRecord) (warned : bool)
| Continue (all_items : list RawRecord).

(** [int(total_count_elem.text)] *)
Definition total_count_value (t : option string) : result Z :=
  match t with
  | Some s => int_of_str s
  | None => Raise TypeError
  end.

(** The body of [while True] after the request: [p] are the parameters sent,
    [r] the answer.  Any exception leaves the loop with what was gathered;
    [warned] records the call of [st.error]. *)
Definition fetch_page (url : string) (p : params) (page : Z)
    (all_items : list RawRecord) (r : response) : outcome :=
  match r with
  | TransportError => Break all_items false
  | Http status_code parsed =>
      if status_code =? 500 then Break all_items (page =? 1)
      else if negb (status_code =? 200) then Break all_items false
      else
        match parsed with
        | None => Break all_items false
        | Some root =>
            match items root with
            | [] => Break all_items false
            | its =>
                let all_items' := all_items ++ its in
                if is_rd url then
                  match dict_get p "numOfRows" with
                  | Some rows =>
                      match int_of_str rows with
                      | Ok n =>
                          if (len its <? n) || (page >=? 30)
                          then Break all_items' false
                          else Continue all_items'
                      | Raise _ => Break all_items' false
                      end
                  | None => Break all_items' false
                  end
                else
                  match totalCount root with
                  | Some t =>
                      match total_count_value t with
                      | Ok n =>
                          if len all_items' >=? n
                          then Break all_items' false
                          else Continue all_items'
                      | Raise _ => Break all_items' false
                      end
                  | None => Continue all_items'
                  end
            end
        end
  end.

(** What a finished call leaves behind: the returned list, the number of the
    last page requested, and whether the warning was shown. *)
Record fetched : Type := {
  all_items : list RawRecord;
  last_page : Z;
  warned : bool
}.

(** The loop from [page] on; [None] when [fuel] turns do not finish it. *)
Fixpoint fetch_loop (fuel : nat) (srv : server) (url : string) (p : params)
    (page : Z) (acc : list RawRecord) : option fetched :=
  match fuel with
  | O => None
  | S fuel' =>
      let p' := page_params url p page in
      match fetch_page url p' page acc (srv url p') with
      | Break l w => Some {| all_items := l; last_page := page; warned := w |}
      | Continue l => fetch_loop fuel' srv url p' (page + 1) l
      end
  end.

Definition fetch_data_from_api (fuel : nat) (srv : server) (url : string)
    (p : params) : option fetched :=
  fetch_loop fuel srv url p 1 [].

(** A bid-notice service with five records: three on the first page, two on
    the second. *)
Definition five_records (url : string) (p : params) : response :=
  match dict_get p "pageNo" with
  | Some "1" =>
      Http 200 (Some {| items := [[("bidNtceNo", "1")]; [("bidNtceNo", "2")]; [("bidNtceNo", "3")]];
                        totalCount := Some (Some "5") |})
  | _ =>
      Http 200 (Some {| items := [[("bidNtceNo", "4")]; [("bidNtceNo", "5")]];
                        totalCount := Some (Some "5") |})
  end.

(** An R&D service that fills every page with ten notices. *)
Definition full_pages (url : string) (p : params) : response :=
  Http 200 (Some {| items := repeat [("subject", "call")] 10; totalCount := None |}).

End Fetcher.

(** ** WindowSplitter: [fetch_bid_data_split] *)
Module WindowSplitter.
Import Py.

(** A [datetime] is a number of microseconds on an unbounded time line; a
    [timedelta] is a difference of two. *)
Definition datetime : Type := Z.
Definition timedelta_days (d : Z) : Z := d * 86400000000.

(** What the function does to the outside, in order. *)
Inductive event : Type :=
| Fetch (url : string) (p : Fetcher.params)
| Progress (current total : Z)
| Sleep.

Section Split.
(** [datetime.now()], [strftime("%Y%m%d%H%M")] and the fetcher. *)
Variable now : datetime.
Variable strftime : datetime -> string.
Variable fetch_data_from_api : string -> Fetcher.params -> list Fetcher.RawRecord.

Definition start_date (i : Z) : datetime := now - timedelta_days ((i + 1) * 30).
Definition end_date (i : Z) : datetime := now - timedelta_days (i * 30).

Definition request (service_key : string) (i : Z) (kw : string) : Fetcher.params :=
  [("serviceKey", service_key); ("type", "xml"); ("inqryDiv", "1");
   ("inqryBgnDt", strftime (start_date i)); ("inqryEndDt", strftime (end_date i));
   ("bidNtceNm", kw)].

(** The inner [for kw in keywords]. *)
Fixpoint fetch_keywords (service_key : string) (i : Z) (keywords : list string)
    (all_results : list Fetcher.RawRecord) (log : list event)
  : list Fetcher.RawRecord * list event :=
  match keywords with
  | [] => (all_results, log)
  | kw :: kws =>
      let p := request service_key i kw in
      fetch_keywords service_key i kws
        (all_results ++ fetch_data_from_api Fetcher.BID_NOTICE_URL p)
        (log ++ [Fetch Fetcher.BID_NOTICE_URL p])
  end.

(** The outer [for i in range(months)]. *)
Fixpoint fetch_windows (service_key : string) (keywords : list string) (months : Z)
    (progress_callback : bool) (windows : list Z)
    (all_results : list Fetcher.RawRecord) (log : list event)
  : list Fetcher.RawRecord * list event :=
  match windows with
  | [] => (all_results, log)
  | i :: rest =>
      let '(res, log1) := fetch_keywords service_key i keywords all_results log in
      let log2 := if progress_callback then log1 ++ [Progress (i + 1) months] else log1 in
      fetch_windows service_key keywords months progress_callback rest res (log2 ++ [Sleep])
  end.

Definition fetch_bid_data_split (service_key : string) (keywords : list string)
    (months : Z) (progress_callback : bool)
  : list Fetcher.RawRecord * list event :=
  fetch_windows service_key keywords months progress_callback (range months) [] [].

End Split.

(** What one window adds to the result and to the log. *)
Definition window_items (now : datetime) (strftime : datetime -> string)
    (fetch : string -> Fetcher.params -> list Fetcher.RawRecord)
    (service_key : string) (keywords : list string) (i : Z) : list Fetcher.RawRecord :=
  flat_map (fun kw => fetch Fetcher.BID_NOTICE_URL (request now strftime service_key i kw))
           keywords.

Definition window_fetches (now : datetime) (strftime : datetime -> string)
    (service_key : string) (keywords : list string) (i : Z) : list event :=
  List.map (fun kw => Fetch Fetcher.BID_NOTICE_URL (request now strftime service_key i kw))
           keywords.

End WindowSplitter.

(** ** The part of pandas the processors use *)
Module Frame.
Import Py.

(** A cell of a table: a [str], an [int], or NaN (a missing value). *)
Inductive cell : Type :=
| CStr (s : string)
| CInt (z : Z)
| CNaN.

Definition cell_eqb (x y : cell) : bool :=
  match x, y with
  | CStr a, CStr b => String.eqb a b
  | CInt a, CInt b => a =? b
  | CNaN, CNaN => true
  | _, _ => false
  end.

(** [str(x)] *)
Definition str_of_cell (x : cell) : string :=
  match x with
  | CStr s => s
  | CInt z => str_of_int z
  | CNaN => "nan"
  end.

(** [pd.notna(x)] *)
Definition notna (x : cell) : bool :=
  match x with
  | CNaN => false
  | _ => true
  end.

(** [bool(x)] *)
Definition truthy (x : cell) : bool :=
  match x with
  | CStr s => negb (String.eqb s "")
  | CInt z => negb (z =? 0)
  | CNaN => true
  end.

(** A table, row by row; every row has one cell per column.  Rows are
    identified by position: the processors only combine columns that share
    the index of the input table. *)
Record DataFrame : Type := {
  columns : list string;
  rows : list (list cell)
}.

(** [pd.DataFrame()] *)
Definition new_frame : DataFrame := {| columns := []; rows := [] |}.

(** [df.empty]: no rows or no columns. *)
Definition is_empty (df : DataFrame) : bool :=
  match columns df, rows df with
  | _ :: _, _ :: _ => false
  | _, _ => true
  end.

Fixpoint index_of (c : string) (cols : list string) : option nat :=
  match cols with
  | [] => None
  | c' :: cols' =>
      if String.eqb c c' then Some O else option_map S (index_of c cols')
  end.

(** [c in df.columns] *)
Definition has_column (df : DataFrame) (c : string) : bool :=
  match index_of c (columns df) with
  | Some _ => true
  | None => false
  end.

(** [df[c]]: KeyError when there is no such column. *)
Definition column (df : DataFrame) (c : string) : result (list cell) :=
  match index_of c (columns df) with
  | Some i => Ok (List.map (fun r => nth i r CNaN) (rows df))
  | None => Raise KeyError
  end.

(** [df[c] = v] for a scalar [v] and a new column [c]: one cell per row of
    the index, so no cell at all while the frame has no rows. *)
Definition set_scalar (df : DataFrame) (c : string) (v : cell) : DataFrame :=
  {| columns := columns df ++ [c];
     rows := List.map (fun r => r ++ [v]) (rows df) |}.

(** [df[c] = series] for a new column [c].  A frame without rows takes the
    index of the series, and the columns it has are filled with NaN;
    otherwise the series shares the index of the frame. *)
Definition set_series (df : DataFrame) (c : string) (vals : list cell) : DataFrame :=
  {| columns := columns df ++ [c];
     rows :=
       match rows df with
       | [] => List.map (fun v => repeat CNaN (List.length (columns df)) ++ [v]) vals
       | rs => List.map (fun rv => fst rv ++ [snd rv]) (combine rs vals)
       end |}.

(** [df[mask]] for a boolean series on the index of [df]. *)
Fixpoint select_rows (rs : list (list cell)) (mask : list bool) : list (list cell) :=
  match rs, mask with
  | r :: rs', b :: mask' =>
      if b then r :: select_rows rs' mask' else select_rows rs' mask'
  | _, _ => []
  end.

Definition select (df : DataFrame) (mask : list bool) : DataFrame :=
  {| columns := columns df; rows := select_rows (rows df) mask |}.

(** Order of the keys of [sort_values]: strings by code points, NaN last. *)
Definition key_le (ascending : bool) (x y : cell) : bool :=
  match x, y with
  | _, CNaN => true
  | CNaN, _ => false
  | CStr a, CStr b => if ascending then String.leb a b else String.leb b a
  | CInt a, CInt b => if ascending then a <=? b else b <=? a
  | CStr _, CInt _ => true
  | CInt _, CStr _ => false
  end.

Fixpoint insert_sorted (le : cell -> cell -> bool) (kr : cell * list cell)
    (l : list (cell * list cell)) : list (cell * list cell) :=
  match l with
  | [] => [kr]
  | kr' :: l' =>
      if le (fst kr) (fst kr') then kr :: l else kr' :: insert_sorted le kr l'
  end.

Fixpoint sort_keyed (le : cell -> cell -> bool) (l : list (cell * list cell))
  : list (cell * list cell) :=
  match l with
  | [] => []
  | kr :: l' => insert_sorted le kr (sort_keyed le l')
  end.

Definition is_str (x : cell) : bool := match x with CStr _ => true | _ => false end.
Definition is_int (x : cell) : bool := match x with CInt _ => true | _ => false end.

(** [df.sort_values(by=c, ascending=..., inplace=True)].  Rows with equal
    keys keep their order here; the sort of pandas promises no order among
    them.  Comparing a [str] with an [int] raises. *)
Definition sort_values (df : DataFrame) (c : string) (ascending : bool) : result DataFrame :=
  bind (column df c) (fun keys =>
    if existsb is_str keys && existsb is_int keys then Raise TypeError
    else Ok {| columns := columns df;
               rows := List.map snd (sort_keyed (key_le ascending) (combine keys (rows df))) |}).

(** [df.insert(0, c, range(1, len(df) + 1))] *)
Definition insert_numbering (df : DataFrame) (c : string) : DataFrame :=
  {| columns := c :: columns df;
     rows := List.map (fun ir => CInt (fst ir + 1) :: snd ir)
               (combine (range (len (rows df))) (rows df)) |}.

(** [pd.DataFrame(records)]: the columns are the keys in order of first
    appearance; a record without a key has NaN there. *)
Definition add_keys (cols : list string) (r : dict string) : list string :=
  fold_left (fun cs kv => if existsb (String.eqb (fst kv)) cs then cs else cs ++ [fst kv]) r cols.

Definition from_records (records : list (dict string)) : DataFrame :=
  let cols := fold_left add_keys records [] in
  {| columns := cols;
     rows := List.map (fun r => List.map (fun c =>
               match dict_get r c with
               | Some v => CStr v
               | None => CNaN
               end) cols) records |}.

Fixpoint row_eqb (r1 r2 : list cell) : bool :=
  match r1, r2 with
  | [], [] => true
  | x :: r1', y :: r2' => cell_eqb x y && row_eqb r1' r2'
  | _, _ => false
  end.

(** [df.drop_duplicates()]: the first of equal rows stays. *)
Fixpoint drop_duplicate_rows (seen rs : list (list cell)) : list (list cell) :=
  match rs with
  | [] => []
  | r :: rs' =>
      if existsb (row_eqb r) seen then drop_duplicate_rows seen rs'
      else r :: drop_duplicate_rows (r :: seen) rs'
  end.

Definition drop_duplicates (df : DataFrame) : DataFrame :=
  {| columns := columns df; rows := drop_duplicate_rows [] (rows df) |}.

(** [pd.DataFrame(all_raw).drop_duplicates()]: the table the main script
    hands to a processor. *)
Definition frame_of_raw (all_raw : list (dict string)) : DataFrame :=
  drop_duplicates (from_records all_raw).

End Frame.

(** ** Normalizer *)
Module Normalizer.
Import Py Frame.

Notation "x <- m ;; k" := (bind m (fun x => k))
  (at level 61, m at next level, right associativity).

(** A row as [df.apply(..., axis=1)] hands it over: column -> cell. *)
Definition row_items (cols : list string) (r : list cell) : dict cell := combine cols r.

(** [{k.lower(): v for k, v in row.items()}] *)
Definition lower_keys (row : dict cell) : dict cell :=
  fold_left (fun d kv => dict_set d (lower (fst kv)) (snd kv)) row [].

(** The test [k in row and pd.notna(row[k]) and str(row[k]).strip() != '']
    and the value returned when it holds. *)
Definition usable (row : dict cell) (k : string) : option string :=
  match dict_get row k with
  | Some v =>
      if notna v && negb (String.eqb (strip (str_of_cell v)) "")
      then Some (strip (str_of_cell v))
      else None
  | None => None
  end.

Fixpoint get_val_keys (row row_lower : dict cell) (possible_keys : list string)
    (default : string) : string :=
  match possible_keys with
  | [] => default
  | k :: ks =>
      match usable row k with
      | Some v => v
      | None =>
          match usable row_lower (lower k) with
          | Some v => v
          | None => get_val_keys row row_lower ks default
          end
      end
  end.

Definition get_val (row : dict cell) (possible_keys : list string) (default : string) : string :=
  get_val_keys row (lower_keys row) possible_keys default.

Definition get_clean_val (row : dict cell) (possible_keys : list string) : string :=
  let val := get_val row possible_keys "" in
  if String.eqb val "" then "" else val.

(** The mask of [apply_exclusion_filter]:
    [not any(exc in str(x) for exc in exclude_keywords)]. *)
Definition keep_cell (exclude_keywords : list string) (x : cell) : bool :=
  negb (existsb (fun exc => contains exc (str_of_cell x)) exclude_keywords).

Definition apply_exclusion_filter (df : DataFrame) (target_col : string)
    (exclude_keywords : list string) : result DataFrame :=
  if is_empty df || match exclude_keywords with [] => true | _ => false end
  then Ok df
  else
    col <- column df target_col ;;
    Ok (select df (List.map (keep_cell exclude_keywords) col)).

(** [new_df[c].str.strip() != '']: a cell that is not a [str] gives NaN,
    which differs from the empty string. *)
Definition str_strip_nonempty (x : cell) : bool :=
  match x with
  | CStr s => negb (String.eqb (strip s) "")
  | _ => true
  end.

(** The tail shared by the processors: sort when the column is there,
    renumber. *)
Definition sort_and_number (df : DataFrame) (by_col : string) (ascending : bool)
  : result DataFrame :=
  sorted <- (if has_column df by_col then sort_values df by_col ascending else Ok df) ;;
  Ok (insert_numbering sorted "No.").

(** *** R&D notices *)

Definition rd_col_map : list (string * string) :=
  [("subject", "과제공고명"); ("deptName", "공고기관");
   ("regDate", "공고일자"); ("viewUrl", "공고링크(URL)")].

(** [new_df[kr_col] = df[tag] if tag in df.columns else ""] *)
Definition rd_copy_column (df new_df : DataFrame) (tag_col : string * string) : DataFrame :=
  match column df (fst tag_col) with
  | Ok vals => set_series new_df (snd tag_col) vals
  | Raise _ => set_scalar new_df (snd tag_col) (CStr "")
  end.

(** The keyword mask is that of a table with rows, which [new_df] is when
    [df] holds one of the four tags; on a table without rows pandas reads
    the empty mask as a list of column names and keeps no column. *)
Definition process_rd_for_excel (df : DataFrame) (keywords exclude_keywords : list string)
  : result DataFrame :=
  if is_empty df then Ok new_frame
  else
    let new_df := fold_left (rd_copy_column df) rd_col_map new_frame in
    new_df <-
      match keywords with
      | [] => Ok new_df
      | _ =>
          col <- column new_df "과제공고명" ;;
          Ok (select new_df
                (List.map (fun x => existsb (fun k => contains k (str_of_cell x)) keywords) col))
      end ;;
    new_df <-
      match exclude_keywords with
      | [] => Ok new_df
      | _ => apply_exclusion_filter new_df "과제공고명" exclude_keywords
      end ;;
    sort_and_number new_df "공고일자" false.

(** *** Order plans *)

Definition order_division (r : dict cell) : cell :=
  CStr (if String.eqb (get_val r ["bsnsDivCd"] "") "03" then "일반용역"
        else if String.eqb (get_val r ["bsnsDivCd"] "") "05" then "기술용역"
        else "").

Definition order_period (r : dict cell) : cell :=
  CStr (if String.eqb (get_val r ["orderYear"] "") "" then ""
        else (get_val r ["orderYear"] "" ++ "/" ++ zfill 2 (get_val r ["orderMnth"] ""))%string).

(** [int(float(get_val(r, ['sumOrderAmt', 'totlAmt'], '0').replace(',', '')))] *)
Definition order_amount (r : dict cell) : result cell :=
  f <- float_of_str (remove_char ","%char (get_val r ["sumOrderAmt"; "totlAmt"] "0")) ;;
  n <- int_of_float f ;;
  Ok (CInt n).

Definition process_order_for_excel (df : DataFrame) (exclude_keywords : list string)
  : result DataFrame :=
  if is_empty df then Ok new_frame
  else
    let rs := List.map (row_items (columns df)) (rows df) in
    let new_df := set_series new_frame "용역구분" (List.map order_division rs) in
    let new_df := set_series new_df "업무구분"
                    (List.map (fun r => CStr (get_val r ["bsnsTyNm"; "bztyNm"] "")) rs) in
    let new_df := set_series new_df "발주시기" (List.map order_period rs) in
    let new_df := set_series new_df "사업명"
                    (List.map (fun r => CStr (get_clean_val r
                       ["bizNm"; "prdctClsfNoNm"; "prdctClsfcNoNm"; "cntrctNm"])) rs) in
    amounts <- mapM order_amount rs ;;
    let new_df := set_series new_df "총발주금액(원)" amounts in
    let new_df := set_series new_df "발주기관명"
                    (List.map (fun r => CStr (get_clean_val r
                       ["orderInsttNm"; "dmndInsttNm"; "realOrgNm"])) rs) in
    let new_df := set_series new_df "게시일자"
                    (List.map (fun r => CStr (get_val r ["nticeDt"; "opengDt"] "")) rs) in
    titles <- column new_df "사업명" ;;
    let new_df := select new_df (List.map str_strip_nonempty titles) in
    new_df <-
      match exclude_keywords with
      | [] => Ok new_df
      | _ => apply_exclusion_filter new_df "사업명" exclude_keywords
      end ;;
    sort_and_number new_df "발주시기" true.

(** *** Money columns of the prior-specification and bid-notice processors *)

(** [try: return int(float(str(x).replace(',', '').strip()))
     except: return 0] *)
Definition parse_money (x : cell) : Z :=
  try_except
    (f <- float_of_str (strip (remove_char ","%char (str_of_cell x))) ;;
     int_of_float f)
    0.

(** The literal [0.87745]. *)
Definition min_bid_rate : float :=
  Eval vm_compute in float_of_decimal false 87745 (-5).

(** [calc_min_bid] on the two money cells of a bid-notice row. *)
Definition calc_min_bid (budget estim : Z) : result Z :=
  let base_price := if budget >? 0 then budget else estim in
  if base_price >? 0
  then f <- float_of_int base_price ;; int_of_float (fmul f min_bid_rate)
  else Ok 0.

(** Whether [int(base * 0.87745)] is the integer part of the exact
    base * 87745 / 100000. *)
Definition product_is_floor (base : Z) : bool :=
  match f <- float_of_int base ;; int_of_float (fmul f min_bid_rate) with
  | Ok n => n =? base * 87745 / 100000
  | Raise _ => false
  end.

(** *** Row validity *)

(** The row has a cell at position [i], and the cell satisfies [Q]. *)
Definition has_cell (i : nat) (Q : cell -> Prop) (r : list cell) : Prop :=
  exists x, nth_error r i = Some x /\ Q x.

Definition is_str_cell (x : cell) : Prop := exists s, x = CStr s.

(** A [str] that is not empty after trimming. *)
Definition nonblank (x : cell) : Prop :=
  exists s, x = CStr s /\ strip s <> "".

End Normalizer.

(** ** Renderer: the urgency test of [apply_styles] *)
Module Renderer.
Import Py Frame.

(** Instants and differences of instants count nanoseconds. *)
Definition second : Z := 1000000000.
Definition day : Z := 86400 * second.

(** [delta.days]: whole days, rounded down. *)
Definition days (delta : Z) : Z := delta / day.

(** [(deadline - now).days <= 7 and (deadline > now)] *)
Definition deadline_is_urgent (now deadline : Z) : bool :=
  (days (deadline - now) <=? 7) && (deadline >? now).

Section Row.
Variable now : Z.
(** [pd.to_datetime(s)]: raises, or gives an instant, or NaT ([None]). *)
Variable to_datetime : string -> result (option Z).

(** [is_urgent] for a row of the sheet; [deadline_col_idx] is [None] when
    the header has no deadline column (the index -1 of the source). *)
Definition is_urgent (deadline_col_idx : option nat) (row : list cell) : bool :=
  match deadline_col_idx with
  | None => false
  | Some idx =>
      match nth_error row idx with
      | Some cell_val =>
          if truthy cell_val then
            match to_datetime (str_of_cell cell_val) with
            | Ok (Some deadline) => deadline_is_urgent now deadline
            | _ => false
            end
          else false
      | None => false
      end
  end.
End Row.

End Renderer.

(** ** What a run of the fetch loop sends and gathers *)
Module FetchRun.
Import Py Fetcher.

(** The parameters of [n] successive requests from [page] on: the dictionary
    is the caller's, updated in place before every request. *)
Fixpoint requests (url : string) (p : params) (page : Z) (n : nat) : list params :=
  match n with
  | O => []
  | S n' =>
      let p' := page_params url p page in
      p' :: requests url p' (page + 1) n'
  end.

(** The items a response adds to [all_items]: those of a parsed body
    answered with status 200. *)
Definition page_items (r : response) : list RawRecord :=
  match r with
  | Http status_code (Some root) => if status_code =? 200 then items root else []
  | _ => []
  end.

(** A response that ends the loop without adding anything. *)
Definition fruitless (r : response) : Prop :=
  match r with
  | TransportError => True
  | Http status_code parsed =>
      status_code <> 200 \/ parsed = None \/
      exists root, parsed = Some root /\ items root = []
  end.

(** The answer with status 200 whose text parses to [root]. *)
Definition answered (root : xml_body) : response := Http 200 (Some root).

(** The stop condition of the endpoint on an answered page, [gathered] being
    the number of items held once those of the page are added: for the R&D
    endpoint [len(items) < int(params["numOfRows"]) or page >= 30], with the
    10 rows every R&D request asks for; for the others a [totalCount] element
    whose number [len(all_items)] has reached. *)
Definition stop_condition (url : string) (page gathered : Z) (root : xml_body) : Prop :=
  if is_rd url
  then len (items root) < 10 \/ 30 <= page
  else exists t n, totalCount root = Some (Some t) /\ int_of_str t = Ok n /\ n <= gathered.

(** A page whose total, where the endpoint looks at it, is absent or a
    number: [int(total_count_elem.text)] does not raise.  The text has at
    most 640 characters, which [int()] reads under every limit that can be
    set on the digits of the numbers it converts. *)
Definition countable (url : string) (root : xml_body) : Prop :=
  is_rd url = true \/ totalCount root = None \/
  exists t n, totalCount root = Some (Some t) /\ (String.length t <= 640)%nat /\
              int_of_str t = Ok n.

End FetchRun.

(** ** What [get_val] accepts *)
Module Lookup.
Import Py Frame.

(** A cell the lookup accepts, and the text it then returns. *)
Definition accepted (v : cell) (s : string) : Prop :=
  notna v = true /\ strip (str_of_cell v) <> "" /\ s = strip (str_of_cell v).

End Lookup.

(** ** Counting the calls of the window splitter *)
Module SplitterLog.
Import WindowSplitter.

Definition is_fetch (e : event) : bool :=
  match e with Fetch _ _ => true | _ => false end.
Definition is_progress (e : event) : bool :=
  match e with Progress _ _ => true | _ => false end.
Definition is_sleep (e : event) : bool :=
  match e with Sleep => true | _ => false end.

Definition count (f : event -> bool) (log : list event) : nat :=
  List.length (filter f log).

End SplitterLog.

(** ** The prior-specification and bid-notice processors *)
Module Processors.
Import Py Frame Normalizer.

(** The loop over [df.columns] that looks for [tag] whatever the case; the
    first match wins. *)
Fixpoint find_col (cols : list string) (tag : string) : option string :=
  match cols with
  | [] => None
  | col :: cols' =>
      if String.eqb (lower col) (lower tag) then Some col else find_col cols' tag
  end.

(** A cell under [fillna("")]. *)
Definition fillna (x : cell) : cell :=
  match x with
  | CNaN => CStr ""
  | _ => x
  end.

(** One turn of [for tag, kr_col in col_map.items()]; [money] lists the
    tags whose column goes through [parse_money]. *)
Definition copy_column (money : list string) (df new_df : DataFrame)
    (tag_col : string * string) : result DataFrame :=
  let is_money := existsb (String.eqb (fst tag_col)) money in
  match find_col (columns df) (fst tag_col) with
  | Some found_col =>
      vals <- column df found_col ;;
      Ok (set_series new_df (snd tag_col)
            (List.map (fun x => if is_money then CInt (parse_money x) else fillna x) vals))
  | None =>
      Ok (set_scalar new_df (snd tag_col) (if is_money then CInt 0 else CStr ""))
  end.

Fixpoint copy_columns (money : list string) (df new_df : DataFrame)
    (col_map : list (string * string)) : result DataFrame :=
  match col_map with
  | [] => Ok new_df
  | tag_col :: rest =>
      new_df' <- copy_column money df new_df tag_col ;;
      copy_columns money df new_df' rest
  end.

(** *** Prior specifications *)

Definition prior_col_map : list (string * string) :=
  [("bsnsDivNm", "업무구분"); ("refNo", "참조번호"); ("prdctClsfcNoNm", "사업명(품명)");
   ("orderInsttNm", "공고기관"); ("rlDminsttNm", "실수요기관"); ("asignBdgtAmt", "배정예산액(원)");
   ("rcptDt", "공개일시"); ("opninRgstClseDt", "의견등록마감일시"); ("ofclNm", "담당자명");
   ("ofclTelNo", "담당자전화번호"); ("swBizObjYn", "SW사업여부"); ("dlvrTmlmtDt", "납품기한");
   ("dlvrDaynum", "납품일수"); ("bfSpecRgstNo", "사전규격등록번호"); ("specDocFileUrl1", "규격서URL");
   ("rgstDt", "등록일시"); ("chgDt", "변경일시"); ("bidNtceNoList", "본공고번호(연계)")].

Definition prior_money : list string := ["asignBdgtAmt"].

(** The part the two processors share after their columns are built: the
    row-validity filter on the title, the exclusion filter, the sort and
    the numbering. *)
Definition finish (new_df : DataFrame) (title by_col : string)
    (exclude_keywords : list string) : result DataFrame :=
  titles <- column new_df title ;;
  let new_df := select new_df (List.map str_strip_nonempty titles) in
  new_df <-
    match exclude_keywords with
    | [] => Ok new_df
    | _ => apply_exclusion_filter new_df title exclude_keywords
    end ;;
  sort_and_number new_df by_col true.

Definition process_prior_for_excel (df : DataFrame) (exclude_keywords : list string)
  : result DataFrame :=
  if is_empty df then Ok new_frame
  else
    new_df <- copy_columns prior_money df new_frame prior_col_map ;;
    finish new_df "사업명(품명)" "공개일시" exclude_keywords.

(** *** Bid notices *)

Definition bid_col_map : list (string * string) :=
  [("bidNtceNo", "공고번호"); ("bidNtceOrd", "차수"); ("reNtceYn", "재공고여부");
   ("bidNtceNm", "공고명"); ("ntceKindNm", "공고종류"); ("bidMethdNm", "입찰방식");
   ("cntrctCnclsMthdNm", "계약방법"); ("sucsfbidMthdNm", "낙찰자결정방법");
   ("ntceInsttNm", "공고기관"); ("dminsttNm", "수요기관"); ("ntceInsttOfclNm", "담당자명");
   ("ntceInsttOfclTelNo", "담당자전화번호"); ("bidNtceDt", "게시일시");
   ("bidBeginDt", "입찰개시일시"); ("bidClseDt", "입찰마감일시"); ("opengDt", "개찰일시");
   ("bidQlfctRgstDt", "입찰참가자격등록마감일시"); ("asignBdgtAmt", "배정예산(원)");
   ("presmptPrce", "추정가격(원)"); ("bidPrtcptFee", "입찰참가수수료");
   ("bidNtceUrl", "공고링크(URL)"); ("bfSpecRgstNo", "사전규격등록번호"); ("refNo", "참조번호");
   ("cmmnSpldmdMethdNm", "공동수급여부"); ("prearngPrceDcsnMthdNm", "예가방식");
   ("opengPlce", "개찰장소"); ("brffcBidprcPermsnYn", "지사투찰허용여부")].

Definition bid_money : list string := ["asignBdgtAmt"; "presmptPrce"; "bidPrtcptFee"].

(** A cell of a money column as [calc_min_bid] compares it with 0: a
    missing value fails every comparison, as 0 does; a [str] cannot be
    compared with an [int]. *)
Definition money_of (x : cell) : result Z :=
  match x with
  | CInt z => Ok z
  | CNaN => Ok 0
  | CStr _ => Raise TypeError
  end.

(** [calc_min_bid(row)] on the budget and the estimated price of a row; the
    estimated price is looked at only when the budget is not positive. *)
Definition calc_min_bid_row (budget_estim : cell * cell) : result cell :=
  budget <- money_of (fst budget_estim) ;;
  estim <- (if budget >? 0 then Ok 0 else money_of (snd budget_estim)) ;;
  n <- calc_min_bid budget estim ;;
  Ok (CInt n).

(** The processor on a table in which a tag of [bid_col_map] is found, so
    that [new_df] has rows when [calc_min_bid] is applied to them. *)
Definition process_bid_for_excel (df : DataFrame) (exclude_keywords : list string)
  : result DataFrame :=
  if is_empty df then Ok new_frame
  else
    new_df <- copy_columns bid_money df new_frame bid_col_map ;;
    budgets <- column new_df "배정예산(원)" ;;
    estims <- column new_df "추정가격(원)" ;;
    mins <- mapM calc_min_bid_row (combine budgets estims) ;;
    let new_df := set_series new_df "예상 투찰하한가(원)" mins in
    finish new_df "공고명" "게시일시" exclude_keywords.

End Processors.

(** ** The tables row by row *)
Module Rowwise.
Import Py Frame Normalizer Processors.

(** Whether a tag of [col_map] is found among the columns. *)
Definition any_found (cols : list string) (col_map : list (string * string)) : bool :=
  existsb (fun tc => match find_col cols (fst tc) with Some _ => true | None => false end)
          col_map.

(** What a found column gives to a cell, and what a missing one gives. *)
Definition convert (money : list string) (tag : string) (x : cell) : cell :=
  if existsb (String.eqb tag) money then CInt (parse_money x) else fillna x.

Definition default_cell (money : list string) (tag : string) : cell :=
  if existsb (String.eqb tag) money then CInt 0 else CStr "".

(** The cell of the row [r] of the input in the column [c]. *)
Definition cell_at (cols : list string) (c : string) (r : list cell) : cell :=
  match index_of c cols with
  | Some i => nth i r CNaN
  | None => CNaN
  end.

(** The cells [col_map] gives to the row [r] of the input.  [seen] tells
    whether an earlier tag was found: a tag that is missing gives its
    default from then on, and a missing value before. *)
Fixpoint build (money cols : list string) (r : list cell) (seen : bool)
    (col_map : list (string * string)) : list cell :=
  match col_map with
  | [] => []
  | tc :: rest =>
      match find_col cols (fst tc) with
      | Some c => convert money (fst tc) (cell_at cols c r) :: build money cols r true rest
      | None =>
          (if seen then default_cell money (fst tc) else CNaN) :: build money cols r seen rest
      end
  end.

(** The row the order-plan processor builds for a record [r] whose amount
    is a number. *)
Definition order_amount_cell (r : dict cell) : cell :=
  match order_amount r with
  | Ok c => c
  | Raise _ => CNaN
  end.

Definition order_row (r : dict cell) : list cell :=
  [order_division r;
   CStr (get_val r ["bsnsTyNm"; "bztyNm"] "");
   order_period r;
   CStr (get_clean_val r ["bizNm"; "prdctClsfNoNm"; "prdctClsfcNoNm"; "cntrctNm"]);
   order_amount_cell r;
   CStr (get_clean_val r ["orderInsttNm"; "dmndInsttNm"; "realOrgNm"]);
   CStr (get_val r ["nticeDt"; "opengDt"] "")].

(** Keys in the order of [sort_values]. *)
Fixpoint sorted_by (le : cell -> cell -> bool) (keys : list cell) : bool :=
  match keys with
  | x :: (y :: _) as rest => le x y && sorted_by le rest
  | _ => true
  end.

(** The four sources, the processor of each as the main script calls it,
    and the place and direction of its sort key in the table returned. *)
Inductive source : Type :=
| OrderPlan
| PriorSpec
| BidNotice
| RdNotice.

Definition process (s : source) (df : DataFrame) (keywords exclude_keywords : list string)
  : result DataFrame :=
  match s with
  | OrderPlan => process_order_for_excel df exclude_keywords
  | PriorSpec => process_prior_for_excel df exclude_keywords
  | BidNotice => process_bid_for_excel df exclude_keywords
  | RdNotice => process_rd_for_excel df keywords exclude_keywords
  end.

(** The columns of the table of a source before the numbering, and the
    column it is sorted by. *)
Definition headers (s : source) : list string :=
  match s with
  | OrderPlan => ["용역구분"; "업무구분"; "발주시기"; "사업명"; "총발주금액(원)"; "발주기관명"; "게시일자"]
  | PriorSpec => List.map snd prior_col_map
  | BidNotice => List.map snd bid_col_map ++ ["예상 투찰하한가(원)"]
  | RdNotice => List.map snd rd_col_map
  end.

Definition sort_column (s : source) : string :=
  match s with
  | OrderPlan => "발주시기"
  | PriorSpec => "공개일시"
  | BidNotice => "게시일시"
  | RdNotice => "공고일자"
  end.

(** The rows of [new_df] once the loop over [col_map] is through. *)
Definition built_rows (money : list string) (col_map : list (string * string))
    (df : DataFrame) : list (list cell) :=
  if any_found (columns df) col_map
  then List.map (fun r => build money (columns df) r false col_map) (rows df)
  else [].

Definition sort_key (s : source) : nat :=
  match s with
  | OrderPlan => 3
  | PriorSpec => 7
  | BidNotice => 13
  | RdNotice => 3
  end.

Definition sort_ascending (s : source) : bool :=
  match s with
  | RdNotice => false
  | _ => true
  end.

Definition title_column (s : source) : nat :=
  match s with
  | OrderPlan => 4
  | PriorSpec => 3
  | BidNotice => 4
  | RdNotice => 1
  end.

(** The tag of the title of a source (the first alias for the order
    plans). *)
Definition title_tag (s : source) : string :=
  match s with
  | OrderPlan => "bizNm"
  | PriorSpec => "prdctClsfcNoNm"
  | BidNotice => "bidNtceNm"
  | RdNotice => "subject"
  end.

(** A table as pandas keeps it: the names of the columns differ and every
    row has one cell per column. *)
Definition well_formed (df : DataFrame) : Prop :=
  NoDup (columns df) /\
  Forall (fun r => List.length r = List.length (columns df)) (rows df).

(** A table as parsed records give it: well formed, with texts and missing
    values as its cells. *)
Definition raw_frame (df : DataFrame) : Prop :=
  well_formed df /\ Forall (Forall (fun x => is_int x = false)) (rows df).

End Rowwise.

(** ** The key of the session, the keyword fields, the search history *)
Module Session.
Import Py.

(** The text entries of [st.session_state]. *)
Definition session_state : Type := dict string.

Definition load_api_key (st : session_state) : string :=
  match dict_get st "user_api_key" with
  | Some key => key
  | None => ""
  end.

Definition save_api_key (st : session_state) (key : string) : session_state :=
  dict_set st "user_api_key" (strip key).

(** [s.split(sep)] for a one-character [sep]: the first piece and the
    others. *)
Fixpoint split_char (sep : ascii) (s : string) : string * list string :=
  match s with
  | EmptyString => (EmptyString, [])
  | String c s' =>
      let '(w, ws) := split_char sep s' in
      if Ascii.eqb c sep then (EmptyString, w :: ws) else (String c w, ws)
  end.

Definition split (sep : ascii) (s : string) : list string :=
  fst (split_char sep s) :: snd (split_char sep s).

(** [[k.strip() for k in input.split(",") if k.strip()]] *)
Definition parse_keywords (input : string) : list string :=
  List.map strip (filter (fun k => negb (String.eqb (strip k) "")) (split ","%char input)).

(** [", ".join(ks)] *)
Fixpoint join_comma (ks : list string) : string :=
  match ks with
  | [] => ""
  | [k] => k
  | k :: ks' => (k ++ ", " ++ join_comma ks')%string
  end.

(** Whether a character occurs in a text. *)
Fixpoint occurs (c : ascii) (s : string) : bool :=
  match s with
  | EmptyString => false
  | String d s' => Ascii.eqb c d || occurs c s'
  end.

(** Whether a text is made of blanks only. *)
Fixpoint all_blank (sp : ascii -> bool) (s : string) : bool :=
  match s with
  | EmptyString => true
  | String c s' => sp c && all_blank sp s'
  end.

(** The pieces after the first one, each behind its separator. *)
Fixpoint rejoin (sep : ascii) (ws : list string) : string :=
  match ws with
  | [] => ""
  | w :: ws' => String sep (w ++ rejoin sep ws')
  end.

(** A keyword as the parser gives it: trimmed, not empty, without comma. *)
Definition keyword (k : string) : Prop :=
  k <> "" /\ strip k = k /\ occurs ","%char k = false.

End Session.

Module History.
Import Py.














End History.

(** ** The sheet: which column holds the deadline, which rows are urgent *)
Module Sheet.
Import Py Frame Renderer.

(** [for idx, cell in enumerate(ws[1])]: the last header that names a
    deadline; [None] is the index -1 of the source. *)
Fixpoint deadline_scan (idx : nat) (header : list string) (found : option nat) : option nat :=
  match header with
  | [] => found
  | h :: hs =>
      deadline_scan (S idx) hs
        (if String.eqb h "입찰마감일시" || String.eqb h "공고종료일" then Some idx else found)
  end.

Definition deadline_col_idx (header : list string) : option nat :=
  deadline_scan 0 header None.

End Sheet.

(** ** The range of the values of the money columns *)
Module RangeDefs.
Import Py.
(** A float that is not finite, or finite with a mantissa of at most 53 bits
    and an exponent of at most 971. *)
Definition in_range (f : float) : Prop :=
  match f with
  | S754_finite _ m e => Zpos m < 2 ^ 53 /\ e <= 971
  | _ => True
  end.

(** An integer that is 0 or has at most 53 significant bits and lies below
    2^1024 in absolute value. *)
Definition representable (v : Z) : Prop :=
  v = 0 \/ exists m e, Z.abs v = Zpos m * 2 ^ e /\ Zpos m < 2 ^ 53 /\ 0 <= e <= 971.
End RangeDefs.

(** * Properties *)

(** ** Facts about the Python primitives *)
Module PyFacts.
Import Py.

Lemma prefix_iff (a b : string) :
  prefix a b = true <-> exists post, b = (a ++ post)%string.
Proof.
  revert b; induction a as [|c a IH]; intros b; simpl.
  - split; [intros _; now exists b | intros _; now destruct b].
  - destruct b as [|d b]; simpl.
    + split; [discriminate | intros [post H]; discriminate].
    + destruct (Ascii.ascii_dec c d) as [->|Hne].
      * rewrite IH. split; intros [post H]; exists post.
        -- now rewrite H.
        -- now injection H.
      * split; [discriminate | intros [post H]; injection H; congruence].
Qed.

Lemma contains_iff (needle haystack : string) :
  contains needle haystack = true <-> Substring needle haystack.
Proof.
  unfold Substring.
  induction haystack as [|c h IH].
  - cbn [contains]. rewrite orb_false_r, prefix_iff. split.
    + intros [post H]. now exists EmptyString, post.
    + intros [pre [post H]]. destruct pre; [now exists post | discriminate].
  - cbn [contains]. rewrite orb_true_iff, prefix_iff, IH. split.
    + intros [[post H] | [pre [post H]]].
      * now exists EmptyString, post.
      * exists (String c pre), post. simpl. now rewrite H.
    + intros [pre [post H]]. destruct pre as [|d pre].
      * left. now exists post.
      * right. exists pre, post. simpl in H. now injection H.
Qed.

Lemma remove_char_idem (c : ascii) (s : string) :
  remove_char c (remove_char c s) = remove_char c s.
Proof.
  induction s as [|d s IH]; simpl; [reflexivity|].
  destruct (Ascii.eqb c d) eqn:E; simpl; [assumption|].
  now rewrite E, IH.
Qed.

Lemma dict_get_set_same {V : Type} (d : dict V) (k : string) (v : V) :
  dict_get (dict_set d k v) k = Some v.
Proof.
  induction d as [|[k' v'] d IH]; simpl.
  - now rewrite String.eqb_refl.
  - destruct (String.eqb k k') eqn:E; simpl; rewrite E; [reflexivity | assumption].
Qed.

Lemma dict_get_set_other {V : Type} (d : dict V) (k k' : string) (v : V) :
  k <> k' -> dict_get (dict_set d k v) k' = dict_get d k'.
Proof.
  intros Hne. induction d as [|[k0 v0] d IH]; simpl.
  - destruct (String.eqb k' k) eqn:E; [|reflexivity].
    apply String.eqb_eq in E. congruence.
  - destruct (String.eqb k k0) eqn:E; simpl.
    + apply String.eqb_eq in E. subst k0.
      destruct (String.eqb k' k) eqn:E'; [|reflexivity].
      apply String.eqb_eq in E'. congruence.
    + now rewrite IH.
Qed.

Lemma range_length (n : Z) : List.length (range n) = Z.to_nat n.
Proof. unfold range. now rewrite length_map, length_seq. Qed.

Lemma range_In (n i : Z) : In i (range n) <-> 0 <= i < n.
Proof.
  unfold range. rewrite in_map_iff. split.
  - intros [k [<- Hk]]. apply in_seq in Hk. lia.
  - intros H. exists (Z.to_nat i). split; [lia|]. apply in_seq. lia.
Qed.

Lemma range_nth (n : Z) (k : nat) :
  (k < Z.to_nat n)%nat -> nth k (range n) 0 = Z.of_nat k.
Proof.
  intros H. unfold range.
  change 0 with (Z.of_nat 0). rewrite map_nth, seq_nth by assumption. reflexivity.
Qed.

End PyFacts.

(** ** The paginated fetch loop *)
Module FetcherSpec.
Import Py PyFacts Fetcher.

Lemma url_kinds :
  is_rd RD_NOTICE_URL = true /\ is_rd ORDER_PLAN_URL = false /\
  is_rd PRIOR_SPEC_URL = false /\ is_rd BID_NOTICE_URL = false.
Proof. repeat split; vm_compute; reflexivity. Qed.

(** The R&D endpoint is always asked for 10 rows. *)
Lemma rd_num_of_rows (url : string) (p : params) (page : Z) :
  is_rd url = true ->
  dict_get (page_params url p page) "numOfRows" = Some "10".
Proof.
  intros H. unfold page_params. rewrite H.
  rewrite dict_get_set_other by discriminate.
  apply dict_get_set_same.
Qed.

(** One turn of the loop. *)
Lemma fetch_loop_step (fuel : nat) (srv : server) (url : string) (p : params)
    (page : Z) (acc : list RawRecord) :
  fetch_loop (S fuel) srv url p page acc =
    match fetch_page url (page_params url p page) page acc
            (srv url (page_params url p page)) with
    | Break l w => Some {| all_items := l; last_page := page; warned := w |}
    | Continue l => fetch_loop fuel srv url (page_params url p page) (page + 1) l
    end.
Proof. reflexivity. Qed.

(** An answered page that does not meet the stop condition leads to the
    request of the next page. *)
Lemma pagination_continues
    (srv : server) (url : string) (p : params) (page : Z)
    (acc : list RawRecord) (fuel : nat) (root : xml_body) :
  srv url (page_params url p page) = Http 200 (Some root) ->
  items root <> [] ->
  (if is_rd url
   then 10 <= len (items root) /\ page < 30
   else totalCount root = None \/
        exists t n, totalCount root = Some (Some t) /\ int_of_str t = Ok n /\
                    len (acc ++ items root) < n) ->
  fetch_loop (S fuel) srv url p page acc =
    fetch_loop fuel srv url (page_params url p page) (page + 1) (acc ++ items root).
Proof.
  intros Hresp Hne Hcond.
  rewrite fetch_loop_step, Hresp. unfold fetch_page.
  change (200 =? 500) with false. change (negb (200 =? 200)) with false. cbv iota.
  destruct (items root) as [|it its] eqn:Hits; [congruence|].
  destruct (is_rd url) eqn:Hrd.
  - rewrite (rd_num_of_rows url p page Hrd).
    change (int_of_str "10") with (@Ok Z 10). cbv beta iota.
    destruct Hcond as [H1 H2].
    apply Z.ltb_ge in H1. apply Z.leb_gt in H2. rewrite <- Z.geb_leb in H2.
    rewrite H1, H2. reflexivity.
  - destruct Hcond as [Hnone | [t [n [Ht [Hn Hlt]]]]].
    + now rewrite Hnone.
    + rewrite Ht. simpl total_count_value. rewrite Hn. cbv beta iota.
      apply Z.leb_gt in Hlt. rewrite <- Z.geb_leb in Hlt.
      rewrite Hlt. reflexivity.
Qed.

(** The R&D loop never asks for more than 30 pages. *)
Lemma rd_loop_terminates (srv : server) (url : string) (fuel : nat) :
  is_rd url = true ->
  forall (p : params) (page : Z) (acc : list RawRecord),
    (0 < fuel)%nat -> 30 - page < Z.of_nat fuel ->
    exists r, fetch_loop fuel srv url p page acc = Some r /\
              page <= last_page r <= Z.max page 30.
Proof.
  intros Hrd. induction fuel as [|fuel IH]; intros p page acc Hpos Hfuel; [lia|].
  rewrite fetch_loop_step.
  destruct (fetch_page url (page_params url p page) page acc
              (srv url (page_params url p page))) as [l w|l] eqn:Hpage.
  - eexists. split; [reflexivity|]. cbn [last_page]. lia.
  - assert (Hlt : page < 30).
    { unfold fetch_page in Hpage.
      destruct (srv url (page_params url p page)) as [|st [root|]]; try discriminate;
        destruct (st =? 500); try discriminate;
        destruct (negb (st =? 200)); try discriminate.
      destruct (items root); [discriminate|].
      rewrite Hrd, (rd_num_of_rows url p page Hrd) in Hpage.
      change (int_of_str "10") with (@Ok Z 10) in Hpage.
      destruct (page >=? 30) eqn:Hge.
      - rewrite orb_true_r in Hpage. discriminate.
      - rewrite Z.geb_leb in Hge. apply Z.leb_gt in Hge. exact Hge. }
    destruct (IH (page_params url p page) (page + 1) l) as [r [Hr Hb]]; [lia|lia|].
    exists r. split; [exact Hr | lia].
Qed.

(** Two whole runs: the bid-notice loop ends on its second page, which is
    not full; the R&D loop ends on page 30 although every page is full. *)
Example five_records_run :
  fetch_data_from_api 10 five_records BID_NOTICE_URL [("bidNtceNm", "survey")] =
    Some {| all_items := [[("bidNtceNo", "1")]; [("bidNtceNo", "2")]; [("bidNtceNo", "3")];
                          [("bidNtceNo", "4")]; [("bidNtceNo", "5")]];
            last_page := 2; warned := false |}.
Proof. vm_compute. reflexivity. Qed.

Example full_pages_run :
  option_map (fun r => (len (all_items r), last_page r))
             (fetch_data_from_api 40 full_pages RD_NOTICE_URL [("serviceKey", "k")]) =
    Some (300, 30).
Proof. vm_compute. reflexivity. Qed.

End FetcherSpec.

Module PaginationSpec.
Import Py PyFacts Fetcher FetcherSpec FetchRun.

(** An answered page that meets the stop condition of its endpoint ends
    the loop at that page, with everything gathered so far. *)
Lemma stop_page_ends_loop
    (srv : server) (url : string) (p : params) (page : Z)
    (acc : list RawRecord) (fuel : nat) (root : xml_body) :
  srv url (page_params url p page) = Http 200 (Some root) ->
  stop_condition url page (len (acc ++ items root)) root ->
  fetch_loop (S fuel) srv url p page acc =
    Some {| all_items := acc ++ items root; last_page := page; warned := false |}.
Proof.
  intros Hresp Hcond. unfold stop_condition in Hcond.
  rewrite fetch_loop_step, Hresp. unfold fetch_page.
  change (200 =? 500) with false. change (negb (200 =? 200)) with false. cbv iota.
  destruct (items root) as [|it its] eqn:Hits; [now rewrite app_nil_r|].
  destruct (is_rd url) eqn:Hrd.
  - rewrite (rd_num_of_rows url p page Hrd).
    change (int_of_str "10") with (@Ok Z 10). cbv beta iota.
    assert (E : ((len (it :: its) <? 10) || (page >=? 30)) = true).
    { apply orb_true_iff. rewrite Z.geb_leb.
      destruct Hcond as [H|H]; [left; apply Z.ltb_lt | right; apply Z.leb_le]; exact H. }
    rewrite E. reflexivity.
  - destruct Hcond as [t [n [Ht [Hn Hle]]]].
    rewrite Ht. simpl total_count_value. rewrite Hn. cbv beta iota.
    assert (E : (len (acc ++ it :: its) >=? n) = true)
      by (rewrite Z.geb_leb; apply Z.leb_le; exact Hle).
    rewrite E. reflexivity.
Qed.

Lemma requests_step (url : string) (p : params) (page : Z) (n : nat) :
  requests url p page (S n) =
    page_params url p page :: requests url (page_params url p page) (page + 1) n.
Proof. reflexivity. Qed.

(** A run over answered pages of which the last is the first to meet the
    stop condition, from any page and with any items already held. *)
Lemma run_to_first_stop (srv : server) (url : string)
    (before : list xml_body) (last : xml_body) :
  forall (p : params) (page : Z) (acc : list RawRecord) (fuel : nat),
    List.map (srv url) (requests url p page (S (List.length before))) =
      List.map answered (before ++ [last]) ->
    (forall i root, nth_error before i = Some root ->
        items root <> [] /\ countable url root /\
        ~ stop_condition url (page + Z.of_nat i)
            (len (acc ++ List.concat (List.map items (firstn (S i) before)))) root) ->
    stop_condition url (page + Z.of_nat (List.length before))
      (len (acc ++ List.concat (List.map items (before ++ [last])))) last ->
    fetch_loop fuel srv url p page acc =
      if (List.length before <? fuel)%nat
      then Some {| all_items := acc ++ List.concat (List.map items (before ++ [last]));
                   last_page := page + Z.of_nat (List.length before);
                   warned := false |}
      else None.
Proof.
  induction before as [|b rest IH]; intros p page acc fuel Hans Hgo Hstop.
  - destruct fuel as [|fuel]; [reflexivity|].
    cbn [List.length requests List.map app] in Hans. injection Hans as Hans.
    cbn [List.length app List.map List.concat Z.of_nat] in *.
    rewrite app_nil_r, Z.add_0_r in *.
    change (0 <? S fuel)%nat with true. cbv iota.
    now apply stop_page_ends_loop.
  - cbn [List.length] in Hans. rewrite requests_step in Hans.
    cbn [List.map app] in Hans. injection Hans as Hb Hrest.
    destruct fuel as [|fuel]; [reflexivity|].
    destruct (Hgo 0%nat b eq_refl) as [Hne [Hcnt Hns]].
    cbn [firstn List.map List.concat Z.of_nat] in Hns. rewrite app_nil_r, Z.add_0_r in Hns.
    rewrite (pagination_continues srv url p page acc fuel b Hb Hne).
    2:{ unfold stop_condition, countable in Hns, Hcnt. destruct (is_rd url).
        - lia.
        - destruct Hcnt as [H|[H|[t [n [Ht [_ Hn]]]]]]; [discriminate | now left |].
          right. exists t, n. split; [exact Ht|]. split; [exact Hn|].
          destruct (Z.lt_ge_cases (len (acc ++ items b)) n) as [H|H]; [exact H|].
          exfalso. apply Hns. exists t, n. now repeat split. }
    rewrite (IH (page_params url p page) (page + 1) (acc ++ items b) fuel Hrest).
    + cbn [List.length].
      change (S (List.length rest) <? S fuel)%nat with (List.length rest <? fuel)%nat.
      destruct (List.length rest <? fuel)%nat; [|reflexivity].
      cbn [List.map List.concat app]. rewrite <- app_assoc.
      replace (page + 1 + Z.of_nat (List.length rest))
        with (page + Z.of_nat (S (List.length rest))) by lia.
      reflexivity.
    + intros i root Hi. destruct (Hgo (S i) root Hi) as [H1 [H2 H3]].
      split; [exact H1|]. split; [exact H2|].
      cbn [firstn List.map List.concat] in H3. cbn [firstn].
      rewrite <- app_assoc.
      replace (page + 1 + Z.of_nat i) with (page + Z.of_nat (S i)) by lia.
      exact H3.
    + cbn [List.length List.map List.concat app] in Hstop. rewrite <- app_assoc.
      replace (page + 1 + Z.of_nat (List.length rest))
        with (page + Z.of_nat (S (List.length rest))) by lia.
      exact Hstop.
Qed.

(** C2.  For every sequence of answered pages, a call stops at the first
    page that meets the stop condition of its endpoint, neither sooner nor
    later: when the pages [before] have items and do not meet the condition
    and the page [last] meets it, every one of these pages is asked for, the
    call ends at [last] with the items of all of them, and no further page is
    asked for.  The condition is, for the R&D endpoint, fewer than 10 items
    on the page or a page index of 30 or more, and for the other endpoints a
    number of gathered items that has reached the [totalCount] of the body,
    however few items the page has. *)
Theorem pagination_stops_at_first
    (srv : server) (url : string) (p : params)
    (before : list xml_body) (last : xml_body) (fuel : nat) :
  List.map (srv url) (requests url p 1 (S (List.length before))) =
    List.map answered (before ++ [last]) ->
  (forall i root, nth_error before i = Some root ->
      items root <> [] /\ countable url root /\
      ~ stop_condition url (1 + Z.of_nat i)
          (len (List.concat (List.map items (firstn (S i) before)))) root) ->
  stop_condition url (1 + Z.of_nat (List.length before))
    (len (List.concat (List.map items (before ++ [last])))) last ->
  fetch_data_from_api fuel srv url p =
    if (List.length before <? fuel)%nat
    then Some {| all_items := List.concat (List.map items (before ++ [last]));
                 last_page := 1 + Z.of_nat (List.length before);
                 warned := false |}
    else None.
Proof.
  intros Hans Hgo Hstop. unfold fetch_data_from_api.
  exact (run_to_first_stop srv url before last p 1 [] fuel Hans Hgo Hstop).
Qed.

Lemma pagination_stops_at_first_witness :
  fetch_data_from_api 10 five_records BID_NOTICE_URL [("bidNtceNm", "survey")] =
    Some {| all_items := [[("bidNtceNo", "1")]; [("bidNtceNo", "2")]; [("bidNtceNo", "3")];
                          [("bidNtceNo", "4")]; [("bidNtceNo", "5")]];
            last_page := 2; warned := false |}.
Proof.
  refine (pagination_stops_at_first five_records BID_NOTICE_URL [("bidNtceNm", "survey")]
            [{| items := [[("bidNtceNo", "1")]; [("bidNtceNo", "2")]; [("bidNtceNo", "3")]];
                totalCount := Some (Some "5") |}]
            {| items := [[("bidNtceNo", "4")]; [("bidNtceNo", "5")]];
               totalCount := Some (Some "5") |} 10 _ _ _).
  - vm_compute. reflexivity.
  - intros [|[|i]] root H; try discriminate. injection H as <-.
    split; [discriminate|]. split.
    + right. right. exists "5", 5. split; [reflexivity|].
      split; [cbn [String.length]; lia | reflexivity].
    + unfold stop_condition.
      replace (is_rd BID_NOTICE_URL) with false by (vm_compute; reflexivity).
      intros [t [n [Ht [Hn Hle]]]]. injection Ht as <-.
      vm_compute in Hn. injection Hn as <-. vm_compute in Hle. now apply Hle.
  - unfold stop_condition.
    replace (is_rd BID_NOTICE_URL) with false by (vm_compute; reflexivity).
    exists "5", 5. split; [reflexivity|]. split; [reflexivity|].
    vm_compute. discriminate.
Defined.

End PaginationSpec.

(** ** The window splitter *)
Module WindowSplitterSpec.
Import Py PyFacts WindowSplitter.

Section Schedule.
Variable now : datetime.
Variable strftime : datetime -> string.
Variable fetch : string -> Fetcher.params -> list Fetcher.RawRecord.
Variable service_key : string.
Variable keywords : list string.

Lemma fetch_keywords_spec (i : Z) (kws : list string) :
  forall res log,
    fetch_keywords now strftime fetch service_key i kws res log =
      (res ++ flat_map (fun kw => fetch Fetcher.BID_NOTICE_URL
                                    (request now strftime service_key i kw)) kws,
       log ++ List.map (fun kw => Fetch Fetcher.BID_NOTICE_URL
                                    (request now strftime service_key i kw)) kws).
Proof.
  induction kws as [|kw kws IH]; intros res log; simpl.
  - now rewrite !app_nil_r.
  - rewrite IH, <- !app_assoc. reflexivity.
Qed.

Lemma fetch_windows_spec (months : Z) (cb : bool) (ws : list Z) :
  forall res log,
    fetch_windows now strftime fetch service_key keywords months cb ws res log =
      (res ++ flat_map (window_items now strftime fetch service_key keywords) ws,
       log ++ flat_map (fun i => window_fetches now strftime service_key keywords i ++
                                 (if cb then [Progress (i + 1) months] else []) ++ [Sleep]) ws).
Proof.
  induction ws as [|i ws IH]; intros res log; simpl.
  - now rewrite !app_nil_r.
  - rewrite fetch_keywords_spec.
    rewrite IH. unfold window_items, window_fetches.
    destruct cb; rewrite <- !app_assoc; reflexivity.
Qed.
End Schedule.

(** C8.  Over [months] = N >= 0 the splitter visits the windows 0 .. N-1 in
    this order; in window i it calls the fetcher once per keyword, with
    begin and end stamps of now - (i+1)*30 days and now - i*30 days, then
    reports progress (i+1, N) and pauses.  Every window spans 30 days;
    window 0 ends at now and window 2 starts 90 days before now. *)
Theorem window_splitter_schedule
    (now : datetime) (strftime : datetime -> string)
    (fetch : string -> Fetcher.params -> list Fetcher.RawRecord)
    (service_key : string) (keywords : list string) (months : Z) :
  0 <= months ->
  fetch_bid_data_split now strftime fetch service_key keywords months true =
    (flat_map (window_items now strftime fetch service_key keywords) (range months),
     flat_map (fun i => window_fetches now strftime service_key keywords i ++
                        [Progress (i + 1) months; Sleep]) (range months))
  /\ len (range months) = months
  /\ (forall k, (k < Z.to_nat months)%nat -> nth k (range months) 0 = Z.of_nat k)
  /\ (forall i kw,
        let p := request now strftime service_key i kw in
        dict_get p "inqryBgnDt" = Some (strftime (now - timedelta_days ((i + 1) * 30))) /\
        dict_get p "inqryEndDt" = Some (strftime (now - timedelta_days (i * 30))) /\
        dict_get p "bidNtceNm" = Some kw)
  /\ (forall i, end_date now i - start_date now i = timedelta_days 30)
  /\ end_date now 0 = now
  /\ start_date now 2 = now - timedelta_days 90.
Proof.
  intros Hm. split; [|split; [|split; [|split; [|split; [|split]]]]].
  - unfold fetch_bid_data_split. rewrite fetch_windows_spec. reflexivity.
  - unfold len. rewrite range_length. lia.
  - intros k Hk. now apply range_nth.
  - intros i kw. repeat split.
  - intros i. unfold end_date, start_date, timedelta_days. lia.
  - unfold end_date, timedelta_days. lia.
  - unfold start_date, timedelta_days. lia.
Qed.

Lemma window_splitter_schedule_witness :
  snd (fetch_bid_data_split 1000000000000000 str_of_int (fun _ _ => [])
         "key" ["a"; "b"] 3 true) =
    flat_map (fun i => window_fetches 1000000000000000 str_of_int "key" ["a"; "b"] i ++
                       [Progress (i + 1) 3; Sleep]) [0; 1; 2].
Proof.
  rewrite (proj1 (window_splitter_schedule 1000000000000000 str_of_int (fun _ _ => [])
                    "key" ["a"; "b"] 3 ltac:(lia))).
  reflexivity.
Defined.

End WindowSplitterSpec.

(** ** Urgency highlighting *)
Module RendererSpec.
Import Py Frame Renderer.

(** The test on the two instants. *)
Lemma deadline_is_urgent_iff (now deadline : Z) :
  deadline_is_urgent now deadline = true <-> now < deadline < now + 8 * day.
Proof.
  unfold deadline_is_urgent, days.
  rewrite andb_true_iff, Z.leb_le, Z.gtb_ltb, Z.ltb_lt.
  assert (Hday : 0 < day) by (vm_compute; reflexivity).
  split.
  - intros [Hd Hn]. split; [exact Hn|].
    destruct (Z.lt_ge_cases deadline (now + 8 * day)) as [Hlt|Hge]; [exact Hlt|].
    assert (8 <= (deadline - now) / day) by (apply Z.div_le_lower_bound; lia).
    lia.
  - intros [Hn Hd]. split; [|exact Hn].
    assert ((deadline - now) / day < 8); [|lia].
    apply Z.div_lt_upper_bound; lia.
Qed.

(** C5, as the code has it.  A row whose deadline cell parses to an instant
    is urgent exactly when the deadline is strictly after now and less than
    8 days ahead: the whole-day part of the difference is at most 7. *)
Theorem urgent_iff_within_whole_days
    (now : Z) (to_datetime : string -> result (option Z))
    (idx : nat) (row : list cell) (cell_val : cell) (deadline : Z) :
  nth_error row idx = Some cell_val ->
  truthy cell_val = true ->
  to_datetime (str_of_cell cell_val) = Ok (Some deadline) ->
  (is_urgent now to_datetime (Some idx) row = true <->
   now < deadline < now + 8 * day).
Proof.
  intros Hnth Htruthy Hparse.
  unfold is_urgent. rewrite Hnth, Htruthy, Hparse.
  apply deadline_is_urgent_iff.
Qed.

(** C5 does not hold as stated: one second past seven days is still urgent. *)
Lemma urgent_one_second_past_seven_days :
  deadline_is_urgent 0 (7 * day + second) = true /\
  ~ (7 * day + second <= 0 + 7 * day).
Proof. split; [vm_compute; reflexivity | vm_compute; intros H; apply H; reflexivity]. Qed.

Lemma urgent_iff_within_whole_days_witness :
  is_urgent 0 (fun _ => Ok (Some (7 * day))) (Some 1%nat)
    [CStr "20260101"; CStr "2026-01-08 00:00"] = true.
Proof.
  apply (urgent_iff_within_whole_days 0 (fun _ => Ok (Some (7 * day))) 1
           [CStr "20260101"; CStr "2026-01-08 00:00"] (CStr "2026-01-08 00:00") (7 * day)).
  - reflexivity.
  - reflexivity.
  - reflexivity.
  - vm_compute. split; reflexivity.
Defined.

End RendererSpec.

(** ** The normalizer *)
Module NormalizerSpec.
Import Py PyFacts Frame Normalizer.

(** A mask computed row by row selects like [filter]. *)
Lemma select_rows_map (f : list cell -> bool) (rs : list (list cell)) :
  select_rows rs (List.map f rs) = filter f rs.
Proof.
  induction rs as [|r rs IH]; simpl; [reflexivity|].
  destruct (f r); now rewrite IH.
Qed.

Lemma column_at (df : DataFrame) (c : string) (i : nat) :
  index_of c (columns df) = Some i ->
  column df c = Ok (List.map (fun r => nth i r CNaN) (rows df)).
Proof. intros H. unfold column. now rewrite H. Qed.

(** The mask drops exactly the cells whose text holds a keyword. *)
Lemma keep_cell_false_iff (exclude_keywords : list string) (x : cell) :
  keep_cell exclude_keywords x = false <->
  exists exc, In exc exclude_keywords /\ Substring exc (str_of_cell x).
Proof.
  unfold keep_cell. rewrite negb_false_iff, existsb_exists.
  split; intros [exc [Hin H]]; exists exc; (split; [exact Hin|]);
    now apply contains_iff.
Qed.

(** C7.  With some exclusion keyword given, the filter keeps the rows of the
    table in order and drops a row exactly when the text of its cell in the
    target column contains one of the keywords as a substring, compared
    character by character: "x-ray" does not match the keyword "X-ray". *)
Theorem exclusion_filter_drops_iff
    (df : DataFrame) (target_col : string) (exclude_keywords : list string) (i : nat) :
  exclude_keywords <> [] ->
  index_of target_col (columns df) = Some i ->
  apply_exclusion_filter df target_col exclude_keywords =
    Ok {| columns := columns df;
          rows := filter (fun r => keep_cell exclude_keywords (nth i r CNaN)) (rows df) |}
  /\ (forall r, keep_cell exclude_keywords (nth i r CNaN) = false <->
                exists exc, In exc exclude_keywords /\
                            Substring exc (str_of_cell (nth i r CNaN)))
  /\ keep_cell ["X-ray"] (CStr "x-ray equipment") = true
  /\ keep_cell ["X-ray"] (CStr "X-ray equipment") = false.
Proof.
  intros Hkw Hcol. split; [|split; [|split]].
  - unfold apply_exclusion_filter.
    destruct exclude_keywords as [|kw kws]; [congruence|].
    destruct (is_empty df) eqn:Hempty; cbn [orb].
    + destruct df as [cols rs]. unfold is_empty in Hempty. simpl in *.
      destruct cols as [|c cols]; [discriminate|].
      destruct rs; [reflexivity | discriminate].
    + rewrite (column_at df target_col i Hcol). simpl bind.
      unfold select. rewrite map_map.
      now rewrite (select_rows_map (fun r => keep_cell (kw :: kws) (nth i r CNaN))).
  - intros r. apply keep_cell_false_iff.
  - reflexivity.
  - reflexivity.
Qed.

Lemma exclusion_filter_drops_iff_witness :
  apply_exclusion_filter
    {| columns := ["No."; "title"];
       rows := [[CInt 1; CStr "X-ray equipment"]; [CInt 2; CStr "x-ray equipment"]] |}
    "title" ["maintenance"; "X-ray"] =
  Ok {| columns := ["No."; "title"]; rows := [[CInt 2; CStr "x-ray equipment"]] |}.
Proof.
  refine (proj1 (exclusion_filter_drops_iff
            {| columns := ["No."; "title"];
               rows := [[CInt 1; CStr "X-ray equipment"]; [CInt 2; CStr "x-ray equipment"]] |}
            "title" ["maintenance"; "X-ray"] 1 _ _)).
  - discriminate.
  - reflexivity.
Defined.

End NormalizerSpec.

(** ** Row validity in the order-plan processor *)
Module OrderPlanSpec.
Import Py PyFacts Frame Normalizer NormalizerSpec.

(** Appending one cell to every row keeps the cells already there. *)
Lemma append_cells (k : nat) (rs : list (list cell)) :
  forall vals,
    Forall (fun r => List.length r = k) rs ->
    List.length vals = List.length rs ->
    let rs' := List.map (fun rv => fst rv ++ [snd rv]) (combine rs vals) in
    List.length rs' = List.length rs /\
    Forall (fun r => List.length r = S k) rs' /\
    (forall P, Forall P vals -> Forall (has_cell k P) rs') /\
    (forall i Q, Forall (has_cell i Q) rs -> Forall (has_cell i Q) rs').
Proof.
  induction rs as [|r rs IH]; intros vals Hlen Hvals; simpl.
  - repeat split; auto.
  - destruct vals as [|v vals]; [discriminate|]. simpl.
    inversion Hlen as [|? ? Hr Hrs]; subst.
    destruct (IH vals Hrs ltac:(simpl in Hvals; lia)) as [H1 [H2 [H3 H4]]].
    repeat split.
    + simpl in *. now rewrite H1.
    + constructor; [rewrite length_app; simpl; lia | exact H2].
    + intros P HP. inversion HP; subst. constructor; [|now apply H3].
      exists v. split; [|assumption].
      rewrite nth_error_app2 by lia. now rewrite Nat.sub_diag.
    + intros i Q HQ. inversion HQ as [|? ? [x [Hx Qx]] HQs]; subst.
      constructor; [|now apply H4].
      exists x. split; [|assumption].
      rewrite nth_error_app1; [assumption|]. apply nth_error_Some. congruence.
Qed.

Lemma set_series_nonempty (F : DataFrame) (c : string) (vals : list cell) :
  rows F <> [] ->
  rows (set_series F c vals) =
    List.map (fun rv => fst rv ++ [snd rv]) (combine (rows F) vals).
Proof. unfold set_series. simpl. destruct (rows F); [congruence | reflexivity]. Qed.

(** Sorting only rearranges the rows. *)
Lemma In_insert_sorted (le : cell -> cell -> bool) (kr x : cell * list cell)
    (l : list (cell * list cell)) :
  In x (insert_sorted le kr l) -> x = kr \/ In x l.
Proof.
  induction l as [|kr' l IH]; simpl.
  - intros [H|H]; [left; now symmetry | destruct H].
  - destruct (le (fst kr) (fst kr')); simpl.
    + intros [H|H]; [left; now symmetry | right; exact H].
    + intros [H|H]; [right; left; exact H|].
      destruct (IH H) as [H'|H']; [left; exact H' | right; right; exact H'].
Qed.

Lemma In_sort_keyed (le : cell -> cell -> bool) (l : list (cell * list cell))
    (x : cell * list cell) :
  In x (sort_keyed le l) -> In x l.
Proof.
  induction l as [|kr l IH]; simpl; [auto|].
  intros H. destruct (In_insert_sorted le kr x _ H) as [->|H']; auto.
Qed.

Lemma In_snd_combine {A B : Type} (ks : list A) (rs : list B) (r : B) :
  In r (List.map snd (combine ks rs)) -> In r rs.
Proof.
  intros H. apply in_map_iff in H as [[k r'] [<- Hin]].
  now apply in_combine_r in Hin.
Qed.

(** A row of the numbered table is a number followed by a row of the table. *)
Lemma sort_and_number_rows (df out : DataFrame) (by_col : string) (asc : bool) (r : list cell) :
  sort_and_number df by_col asc = Ok out ->
  In r (rows out) -> exists n r0, r = CInt n :: r0 /\ In r0 (rows df).
Proof.
  unfold sort_and_number. intros H Hin.
  assert (Hs : exists sorted,
             (if has_column df by_col then sort_values df by_col asc else Ok df) = Ok sorted /\
             out = insert_numbering sorted "No." /\
             forall r0, In r0 (rows sorted) -> In r0 (rows df)).
  { destruct (has_column df by_col).
    - unfold sort_values in *. destruct (column df by_col) as [keys|e]; [|discriminate].
      simpl in *.
      destruct (existsb is_str keys && existsb is_int keys); [discriminate|].
      injection H as <-. eexists. split; [reflexivity|]. split; [reflexivity|].
      simpl. intros r0 Hr0.
      apply in_map_iff in Hr0 as [[k r1] [<- Hr1]].
      apply In_sort_keyed in Hr1. simpl. now apply in_combine_r in Hr1.
    - simpl in H. injection H as <-. eexists. split; [reflexivity|]. split; auto. }
  destruct Hs as [sorted [_ [-> Hsub]]].
  unfold insert_numbering in Hin. simpl in Hin.
  apply in_map_iff in Hin as [[n r0] [<- Hr0]].
  exists (n + 1), r0. split; [reflexivity|].
  apply Hsub. now apply in_combine_r in Hr0.
Qed.

Lemma select_rows_incl (rs : list (list cell)) (mask : list bool) (r : list cell) :
  In r (select_rows rs mask) -> In r rs.
Proof.
  revert mask. induction rs as [|r0 rs IH]; intros [|b mask]; simpl; try easy.
  destruct b; simpl; intros H.
  - destruct H; eauto.
  - eauto.
Qed.

(** The exclusion filter only removes rows. *)
Lemma exclusion_filter_incl (df out : DataFrame) (c : string) (kws : list string) (r : list cell) :
  apply_exclusion_filter df c kws = Ok out -> In r (rows out) -> In r (rows df).
Proof.
  unfold apply_exclusion_filter.
  destruct (is_empty df || match kws with [] => true | _ => false end).
  - intros H. now injection H as <-.
  - destruct (column df c) as [col|e]; [|discriminate]. simpl.
    intros H. injection H as <-. simpl. apply select_rows_incl.
Qed.

Lemma mapM_length {A B : Type} (f : A -> result B) (l : list A) (bs : list B) :
  mapM f l = Ok bs -> List.length bs = List.length l.
Proof.
  revert bs. induction l as [|a l IH]; intros bs; simpl.
  - intros H. now injection H as <-.
  - destruct (f a) as [b|e]; [|discriminate]. simpl.
    destruct (mapM f l) as [bs'|e]; [|discriminate]. simpl.
    intros H. injection H as <-. simpl. f_equal. now apply IH.
Qed.

(** The frame of the order-plan processor after one more column. *)
Lemma set_series_step (k : nat) (F : DataFrame) (c : string) (vals : list cell) :
  rows F <> [] ->
  Forall (fun r => List.length r = k) (rows F) ->
  List.length vals = List.length (rows F) ->
  rows (set_series F c vals) <> [] /\
  List.length (rows (set_series F c vals)) = List.length (rows F) /\
  Forall (fun r => List.length r = S k) (rows (set_series F c vals)) /\
  (forall P, Forall P vals -> Forall (has_cell k P) (rows (set_series F c vals))) /\
  (forall i Q, Forall (has_cell i Q) (rows F) ->
               Forall (has_cell i Q) (rows (set_series F c vals))).
Proof.
  intros Hne Hlen Hvals. rewrite set_series_nonempty by exact Hne.
  destruct (append_cells k (rows F) vals Hlen Hvals) as [H1 [H2 [H3 H4]]].
  repeat split; try assumption.
  intros E. apply (f_equal (@List.length _)) in E. rewrite H1 in E.
  destruct (rows F); [congruence | discriminate].
Qed.

Lemma Forall_map_intro {A B : Type} (P : B -> Prop) (f : A -> B) (l : list A) :
  (forall a, P (f a)) -> Forall P (List.map f l).
Proof. intros H. apply Forall_forall. intros b Hb. apply in_map_iff in Hb as [a [<- _]]. apply H. Qed.

(** Every row of the table the order-plan processor returns has its title,
    a non-blank [str], in the column after the numbering. *)
Lemma order_rows_have_title (df out : DataFrame) (exclude_keywords : list string) :
  process_order_for_excel df exclude_keywords = Ok out ->
  Forall (has_cell 4 nonblank) (rows out).
Proof.
  unfold process_order_for_excel.
  destruct (is_empty df) eqn:Hempty.
  { intros H. injection H as <-. constructor. }
  set (rs := List.map (row_items (columns df)) (rows df)).
  assert (Hn : rs <> []).
  { unfold rs. destruct df as [cols [|r rws]]; simpl.
    - unfold is_empty in Hempty. simpl in Hempty. destruct cols; discriminate.
    - discriminate. }
  destruct (mapM order_amount rs) as [amounts|e] eqn:Ham; [|discriminate].
  cbn [bind].
  set (F1 := set_series new_frame _ (List.map order_division rs)).
  assert (I1 : rows F1 <> [] /\ List.length (rows F1) = List.length rs /\
               Forall (fun r => List.length r = 1%nat) (rows F1)).
  { unfold F1, set_series, new_frame. cbn [rows columns List.length repeat app].
    rewrite map_map, length_map. repeat split.
    - destruct rs; [congruence | discriminate].
    - apply Forall_map_intro. reflexivity. }
  destruct I1 as [N1 [L1 W1]].
  set (F2 := set_series F1 _ _).
  destruct (set_series_step 1 F1 "업무구분"
              (List.map (fun r => CStr (get_val r ["bsnsTyNm"; "bztyNm"] "")) rs) N1 W1
              ltac:(now rewrite length_map)) as [N2 [L2 [W2 _]]].
  fold F2 in N2, L2, W2.
  set (F3 := set_series F2 _ _).
  destruct (set_series_step 2 F2 "발주시기" (List.map order_period rs) N2 W2
              ltac:(rewrite length_map; congruence)) as [N3 [L3 [W3 _]]].
  fold F3 in N3, L3, W3.
  set (titles := List.map (fun r => CStr (get_clean_val r
                   ["bizNm"; "prdctClsfNoNm"; "prdctClsfcNoNm"; "cntrctNm"])) rs).
  set (F4 := set_series F3 _ titles).
  destruct (set_series_step 3 F3 "사업명" titles N3 W3
              ltac:(unfold titles; rewrite length_map; congruence)) as [N4 [L4 [W4 [T4 _]]]].
  fold F4 in N4, L4, W4, T4.
  specialize (T4 is_str_cell).
  assert (S4 : Forall (has_cell 3 is_str_cell) (rows F4)).
  { apply T4. unfold titles. apply Forall_map_intro. intros a. eexists. reflexivity. }
  clear T4.
  set (F5 := set_series F4 _ amounts).
  destruct (set_series_step 4 F4 "총발주금액(원)" amounts N4 W4
              ltac:(rewrite (mapM_length _ _ _ Ham); congruence)) as [N5 [L5 [W5 [_ K5]]]].
  fold F5 in N5, L5, W5, K5. specialize (K5 _ _ S4).
  set (F6 := set_series F5 _ _).
  destruct (set_series_step 5 F5 "발주기관명"
              (List.map (fun r => CStr (get_clean_val r
                 ["orderInsttNm"; "dmndInsttNm"; "realOrgNm"])) rs) N5 W5
              ltac:(rewrite length_map; congruence)) as [N6 [L6 [W6 [_ K6]]]].
  fold F6 in N6, L6, W6, K6. specialize (K6 _ _ K5).
  set (F7 := set_series F6 _ _).
  destruct (set_series_step 6 F6 "게시일자"
              (List.map (fun r => CStr (get_val r ["nticeDt"; "opengDt"] "")) rs) N6 W6
              ltac:(rewrite length_map; congruence)) as [_ [_ [_ [_ K7]]]].
  fold F7 in K7. specialize (K7 _ _ K6).
  rewrite (column_at F7 "사업명" 3) by reflexivity.
  cbn [bind]. rewrite map_map.
  set (F8 := select F7 _).
  assert (V8 : Forall (has_cell 3 nonblank) (rows F8)).
  { unfold F8, select. cbn [rows].
    rewrite (select_rows_map (fun r => str_strip_nonempty (nth 3 r CNaN))).
    apply Forall_forall. intros r Hr. apply filter_In in Hr as [Hin Hkeep].
    rewrite Forall_forall in K7. destruct (K7 r Hin) as [x [Hx [s ->]]].
    exists (CStr s). split; [exact Hx|]. exists s. split; [reflexivity|].
    rewrite (nth_error_nth _ _ _ Hx) in Hkeep. simpl in Hkeep.
    apply negb_true_iff in Hkeep. now apply String.eqb_neq in Hkeep. }
  intros H.
  destruct (match exclude_keywords with
            | [] => Ok F8
            | _ :: _ => apply_exclusion_filter F8 "사업명" exclude_keywords
            end) as [F9|e] eqn:H9; [|discriminate].
  cbn [bind] in H.
  assert (V9 : forall r, In r (rows F9) -> In r (rows F8)).
  { destruct exclude_keywords as [|kw kws].
    - injection H9 as <-. auto.
    - intros r. exact (exclusion_filter_incl F8 F9 _ (kw :: kws) r H9). }
  apply Forall_forall. intros r Hr.
  destruct (sort_and_number_rows _ _ _ _ r H Hr) as [n [r0 [-> Hr0]]].
  rewrite Forall_forall in V8.
  destruct (V8 r0 (V9 r0 Hr0)) as [x [Hx Hnb]].
  exists x. split; assumption.
Qed.

End OrderPlanSpec.

(** ** The processors on single records *)
Module ProcessorSpec.
Import Py PyFacts Frame Normalizer OrderPlanSpec.

(** C3.  An order-plan record whose amount is not a number makes
    [process_order_for_excel] raise; the money columns of the other
    processors turn the same text into 0. *)
Theorem order_plan_raises_on_malformed_amount :
  process_order_for_excel
    (frame_of_raw [[("bsnsDivCd", "03"); ("bizNm", "Radiation survey service");
                    ("orderYear", "2026"); ("orderMnth", "3"); ("sumOrderAmt", "abc")]])
    [] = Raise ValueError
  /\ parse_money (CStr "abc") = 0.
Proof. split; vm_compute; reflexivity. Qed.

(** C4.  An R&D record that carries its title under SUBJECT loses it: the
    processor looks for the tag [subject] as written.  [get_val], which the
    order-plan processor uses, finds a key that differs in case only. *)
Theorem rd_title_lookup_is_case_sensitive :
  process_rd_for_excel
    (frame_of_raw [[("SUBJECT", "AI research call"); ("deptName", "MSIT");
                    ("regDate", "2026-01-02"); ("viewUrl", "http://example.org/1")]])
    [] [] =
    Ok {| columns := ["No."; "과제공고명"; "공고기관"; "공고일자"; "공고링크(URL)"];
          rows := [[CInt 1; CNaN; CStr "MSIT"; CStr "2026-01-02";
                    CStr "http://example.org/1"]] |}
  /\ get_val [("BIZNM", CStr "Radiation survey service")] ["bizNm"] "" =
       "Radiation survey service".
Proof. split; vm_compute; reflexivity. Qed.

(** C6.  An R&D record with an empty title reaches the final table when no
    inclusion keyword is given; the order-plan processor drops such a
    record. *)
Theorem rd_keeps_row_with_empty_title :
  process_rd_for_excel
    (frame_of_raw [[("subject", ""); ("deptName", "MSIT");
                    ("regDate", "2026-01-02"); ("viewUrl", "http://example.org/1")]])
    [] [] =
    Ok {| columns := ["No."; "과제공고명"; "공고기관"; "공고일자"; "공고링크(URL)"];
          rows := [[CInt 1; CStr ""; CStr "MSIT"; CStr "2026-01-02";
                    CStr "http://example.org/1"]] |}
  /\ process_order_for_excel
       (frame_of_raw [[("bizNm", ""); ("orderInsttNm", "MSIT"); ("sumOrderAmt", "1,000")]])
       [] =
     Ok {| columns := ["No."; "용역구분"; "업무구분"; "발주시기"; "사업명"; "총발주금액(원)";
                       "발주기관명"; "게시일자"];
           rows := [] |}.
Proof. split; vm_compute; reflexivity. Qed.

End ProcessorSpec.


(** ** Facts about binary64 rounding *)
Module Binary64Facts.
Import Py.

(** The iteration of [SpecFloat] is the one of [Pos]. *)
Lemma iter_pos_iter {A : Type} (f : A -> A) (n : positive) :
  forall x, iter_pos f n x = Pos.iter f x n.
Proof.
  induction n as [n IH|n IH|]; intros x; simpl.
  - now rewrite !IH, !Pos.iter_swap.
  - now rewrite !IH.
  - reflexivity.
Qed.

(** One halving of a non-negative mantissa. *)
Lemma shr_1_nonneg (m : Z) (r s : bool) :
  0 <= m ->
  shr_1 {| shr_m := m; shr_r := r; shr_s := s |} =
    {| shr_m := m / 2; shr_r := Z.odd m; shr_s := r || s |}.
Proof.
  intros Hm. rewrite <- Z.div2_div.
  destruct m as [|[p|p|]|]; try reflexivity. lia.
Qed.

(** The sticky bit after one more halving. *)
Lemma low_bits_step (m k : Z) :
  0 <= m -> 0 <= k ->
  Z.odd (m / 2 ^ k) || negb (m mod 2 ^ k =? 0) = negb (m mod 2 ^ (k + 1) =? 0).
Proof.
  intros Hm Hk.
  assert (Hp : 0 < 2 ^ k) by (apply Z.pow_pos_nonneg; lia).
  rewrite Z.pow_add_r, Z.pow_1_r by lia.
  rewrite Z.rem_mul_r by lia.
  pose proof (Z.mod_pos_bound m (2 ^ k) Hp) as Hb.
  rewrite Zmod_odd.
  destruct (Z.odd (m / 2 ^ k)); simpl.
  - symmetry. apply negb_true_iff, Z.eqb_neq. lia.
  - f_equal. f_equal. lia.
Qed.

(** [k] halvings of an exact mantissa. *)
Lemma iter_shr_1 (m : Z) (k : positive) :
  0 <= m ->
  iter_pos shr_1 k {| shr_m := m; shr_r := false; shr_s := false |} = shifted m k.
Proof.
  intros Hm. rewrite iter_pos_iter.
  induction k as [|k IH] using Pos.peano_ind.
  - cbn [Pos.iter]. rewrite shr_1_nonneg by exact Hm. unfold shifted.
    change (Zpos 1 - 1) with 0. rewrite Z.pow_0_r, Z.pow_1_r, Z.div_1_r, Z.mod_1_r.
    reflexivity.
  - rewrite Pos.iter_succ, IH. unfold shifted.
    assert (Hp : 0 < 2 ^ Zpos k) by (apply Z.pow_pos_nonneg; lia).
    rewrite shr_1_nonneg by (apply Z.div_pos; lia).
    rewrite Pos2Z.inj_succ.
    replace (Z.succ (Zpos k) - 1) with (Zpos k) by lia.
    f_equal.
    + rewrite Z.pow_succ_r by lia. rewrite Z.div_div by lia. f_equal. lia.
    + pose proof (low_bits_step m (Zpos k - 1) Hm ltac:(lia)) as H.
      replace (Zpos k - 1 + 1) with (Zpos k) in H by lia. exact H.
Qed.

(** The number of binary digits of a positive number. *)
Lemma digits2_pos_bounds (p : positive) :
  2 ^ (Zpos (digits2_pos p) - 1) <= Zpos p < 2 ^ Zpos (digits2_pos p).
Proof.
  induction p as [p IH|p IH|]; cbn [digits2_pos].
  - rewrite Pos2Z.inj_succ. change (Zpos p~1) with (2 * Zpos p + 1).
    replace (Z.succ (Zpos (digits2_pos p)) - 1) with (Z.succ (Zpos (digits2_pos p) - 1)) by lia.
    rewrite !Z.pow_succ_r by lia.
    generalize dependent (2 ^ (Zpos (digits2_pos p) - 1)).
    generalize (2 ^ Zpos (digits2_pos p)). intros; lia.
  - rewrite Pos2Z.inj_succ. change (Zpos p~0) with (2 * Zpos p).
    replace (Z.succ (Zpos (digits2_pos p)) - 1) with (Z.succ (Zpos (digits2_pos p) - 1)) by lia.
    rewrite !Z.pow_succ_r by lia.
    generalize dependent (2 ^ (Zpos (digits2_pos p) - 1)).
    generalize (2 ^ Zpos (digits2_pos p)). intros; lia.
  - simpl. lia.
Qed.

Lemma digits2_pos_unique (p : positive) (k : Z) :
  2 ^ (k - 1) <= Zpos p < 2 ^ k -> Zpos (digits2_pos p) = k.
Proof.
  intros [Hlo Hhi].
  pose proof (digits2_pos_bounds p) as [Dlo Dhi].
  set (d := Zpos (digits2_pos p)) in *.
  assert (Hd : 0 < d) by (unfold d; lia).
  assert (Hk : 0 < k).
  { destruct (Z.lt_ge_cases 0 k) as [H|H]; [exact H|].
    assert (2 ^ k <= 2 ^ 0) by (apply Z.pow_le_mono_r; lia). simpl in *. lia. }
  destruct (Z.lt_trichotomy d k) as [H|[H|H]]; [|exact H|].
  - assert (2 ^ d <= 2 ^ (k - 1)) by (apply Z.pow_le_mono_r; lia). lia.
  - assert (2 ^ k <= 2 ^ (d - 1)) by (apply Z.pow_le_mono_r; lia). lia.
Qed.

(** Rounding to nearest moves by at most half a unit of the last place. *)
Lemma round_shift_error (m : Z) (n : positive) :
  0 <= m ->
  m / 2 ^ Zpos n <= round_shift m n <= m / 2 ^ Zpos n + 1 /\
  2 * Z.abs (round_shift m n * 2 ^ Zpos n - m) <= 2 ^ Zpos n.
Proof.
  intros Hm. unfold round_shift, shifted. cbn [shr_m loc_of_shr_record].
  set (A := 2 ^ (Zpos n - 1)).
  assert (HA : 0 < A) by (apply Z.pow_pos_nonneg; lia).
  assert (HN : 2 ^ Zpos n = 2 * A).
  { unfold A. rewrite <- Z.pow_succ_r by lia. f_equal. lia. }
  rewrite HN.
  assert (Hq : m / (2 * A) = m / A / 2) by (rewrite Z.mul_comm, Z.div_div; lia).
  rewrite Hq.
  pose proof (Z.div_mod m A ltac:(lia)) as Hdm.
  pose proof (Z.mod_pos_bound m A HA) as Hlow.
  pose proof (Z.div_mod (m / A) 2 ltac:(lia)) as Hdh.
  rewrite Zmod_odd in Hdh.
  set (h := m / A) in *. set (low := m mod A) in *. set (q := h / 2) in *.
  destruct (Z.odd h); cbn [loc_of_shr_record];
    destruct (Z.eqb_spec low 0) as [E|E]; cbn [negb round_nearest_even].
  - destruct (Z.even q); split; nia.
  - split; nia.
  - split; nia.
  - split; nia.
Qed.

(** Rounding a mantissa of [53 + n] bits in the normal range: the result is
    the rounded quotient, renormalised when rounding carries into bit 54. *)
Lemma binary_round_aux_normal (P n : positive) (e : Z) :
  Zpos (digits2_pos P) = 53 + Zpos n ->
  -1074 <= e + Zpos n -> e + Zpos n + 1 <= 971 ->
  exists m2 d,
    binary_round_aux prec emax false (Zpos P) e loc_Exact =
      S754_finite false m2 (e + Zpos n + d) /\
    0 <= d <= 1 /\
    Zpos m2 * 2 ^ d = round_shift (Zpos P) n.
Proof.
  intros Hd Hlo Hhi.
  assert (H1 : shr_fexp prec emax (Zpos P) e loc_Exact = (shifted (Zpos P) n, e + Zpos n)).
  { unfold shr_fexp, shr_record_of_loc, fexp, emin, Zdigits2, prec, emax.
    rewrite Hd.
    replace (Z.max (53 + Zpos n + e - 53) (3 - 1024 - 53) - e) with (Zpos n) by lia.
    unfold shr. rewrite iter_shr_1 by lia. reflexivity. }
  unfold binary_round_aux. rewrite H1. fold (round_shift (Zpos P) n).
  pose proof (round_shift_error (Zpos P) n ltac:(lia)) as [[Rlo Rhi] _].
  pose proof (digits2_pos_bounds P) as [Plo Phi]. rewrite Hd in Plo, Phi.
  assert (Hn : 0 < 2 ^ Zpos n) by (apply Z.pow_pos_nonneg; lia).
  assert (Qlo : 2 ^ 52 <= Zpos P / 2 ^ Zpos n).
  { apply Z.div_le_lower_bound; [lia|].
    replace (53 + Zpos n - 1) with (Zpos n + 52) in Plo by lia.
    rewrite Z.pow_add_r in Plo by lia. lia. }
  assert (Qhi : Zpos P / 2 ^ Zpos n < 2 ^ 53).
  { apply Z.div_lt_upper_bound; [lia|].
    replace (53 + Zpos n) with (Zpos n + 53) in Phi by lia.
    rewrite Z.pow_add_r in Phi by lia. lia. }
  destruct (round_shift (Zpos P) n) as [|r|r] eqn:HR; [lia| |lia].
  destruct (Z.eq_dec (Zpos r) (2 ^ 53)) as [Etop|Ntop].
  - exists (2 ^ 52)%positive, 1. split; [|split; [lia|]].
    + injection Etop as ->.
      unfold shr_fexp, shr_record_of_loc, fexp, emin, prec, emax.
      change (Zdigits2 9007199254740992) with 54.
      replace (Z.max (54 + (e + Zpos n) - 53) (3 - 1024 - 53) - (e + Zpos n)) with 1 by lia.
      cbn [shr iter_pos]. cbn [shr_1 shr_m].
      replace (e + Zpos n + 1 <=? 1024 - 53) with true by (symmetry; apply Z.leb_le; lia).
      reflexivity.
    + rewrite Etop. reflexivity.
  - exists r, 0. split; [|split; [lia|]].
    + assert (Hdr : Zpos (digits2_pos r) = 53).
      { apply digits2_pos_unique. change (53 - 1) with 52. lia. }
      unfold shr_fexp, shr_record_of_loc, fexp, emin, Zdigits2, prec, emax.
      rewrite Hdr.
      replace (Z.max (53 + (e + Zpos n) - 53) (3 - 1024 - 53) - (e + Zpos n)) with 0 by lia.
      cbn [shr shr_m].
      replace (e + Zpos n <=? 1024 - 53) with true by (symmetry; apply Z.leb_le; lia).
      now rewrite Z.add_0_r.
    + rewrite Z.pow_0_r. lia.
Qed.

(** A mantissa of 53 bits is kept as it is. *)
Lemma binary_round_aux_exact (P : positive) (e : Z) :
  Zpos (digits2_pos P) = 53 -> -1074 <= e <= 971 ->
  binary_round_aux prec emax false (Zpos P) e loc_Exact = S754_finite false P e.
Proof.
  intros Hd He.
  assert (H1 : shr_fexp prec emax (Zpos P) e loc_Exact =
               ({| shr_m := Zpos P; shr_r := false; shr_s := false |}, e)).
  { unfold shr_fexp, shr_record_of_loc, fexp, emin, Zdigits2, prec, emax.
    rewrite Hd.
    replace (Z.max (53 + e - 53) (3 - 1024 - 53) - e) with 0 by lia.
    reflexivity. }
  unfold binary_round_aux. rewrite H1.
  cbn [shr_m loc_of_shr_record round_nearest_even]. rewrite H1.
  cbn [shr_m].
  replace (e <=? emax - prec) with true by (symmetry; apply Z.leb_le; unfold emax, prec; lia).
  reflexivity.
Qed.

Lemma pos_iter_xO (p k : positive) :
  Zpos (Pos.iter xO p k) = Zpos p * 2 ^ Zpos k.
Proof.
  induction k as [|k IH] using Pos.peano_ind.
  - simpl. lia.
  - rewrite Pos.iter_succ, Pos2Z.inj_succ, Z.pow_succ_r by lia.
    change (Zpos (Pos.iter xO p k)~0) with (2 * Zpos (Pos.iter xO p k)).
    rewrite IH. lia.
Qed.

(** An [int] of fewer than 53 bits converts without rounding. *)
Lemma float_of_int_exact (b : positive) :
  Zpos (digits2_pos b) < 53 ->
  exists mb,
    float_of_int (Zpos b) = Ok (S754_finite false mb (Zpos (digits2_pos b) - 53)) /\
    Zpos mb = Zpos b * 2 ^ (53 - Zpos (digits2_pos b)) /\
    Zpos (digits2_pos mb) = 53.
Proof.
  intros Hd.
  pose proof (digits2_pos_bounds b) as [Blo Bhi].
  set (d := Zpos (digits2_pos b)) in *.
  assert (Hd0 : 0 < d) by (unfold d; lia).
  assert (Hf : fexp prec emax (d + 0) = d - 53)
    by (unfold fexp, emin, prec, emax; lia).
  destruct (d - 53) as [|k|k] eqn:Hk; [lia|lia|].
  assert (Hmb : Zpos (Pos.iter xO b k) = Zpos b * 2 ^ (53 - d)).
  { rewrite pos_iter_xO. f_equal. f_equal. lia. }
  assert (Hdig : Zpos (digits2_pos (Pos.iter xO b k)) = 53).
  { apply digits2_pos_unique. rewrite Hmb.
    assert (H52 : 2 ^ (53 - 1) = 2 ^ (d - 1) * 2 ^ (53 - d))
      by (rewrite <- Z.pow_add_r by lia; f_equal; lia).
    assert (H53 : 2 ^ 53 = 2 ^ d * 2 ^ (53 - d))
      by (rewrite <- Z.pow_add_r by lia; f_equal; lia).
    assert (0 < 2 ^ (53 - d)) by (apply Z.pow_pos_nonneg; lia).
    rewrite H52, H53. split; nia. }
  exists (Pos.iter xO b k). split; [|split; assumption].
  unfold float_of_int, binary_normalize, binary_round, shl_align.
  fold d. rewrite Hf. rewrite Z.sub_0_r.
  change (PosDef.Pos.iter xO b k) with (Pos.iter xO b k).
  rewrite binary_round_aux_exact by (assumption || lia).
  reflexivity.
Qed.

End Binary64Facts.

(** ** Money coercion *)
Module MoneySpec.
Import Py PyFacts Binary64Facts Frame Normalizer.

Lemma Qtrunc_inject_Z (z : Z) : Qtrunc (inject_Z z) = z.
Proof.
  unfold Qtrunc. destruct (Qle_bool (inject_Z 0) (inject_Z z)).
  - apply Qfloor_Z.
  - apply Qceiling_Z.
Qed.

(** [int(f)] is the truncation toward zero of the number [f] stands for. *)
Lemma int_of_float_trunc (f : float) :
  is_finite f = true -> int_of_float f = Ok (Qtrunc (float_value f)).
Proof.
  destruct f as [s|s| |s m e]; try discriminate; intros _.
  - reflexivity.
  - unfold int_of_float, float_value. f_equal.
    destruct e as [|p|p].
    + rewrite Qtrunc_inject_Z, Z.shiftl_0_r. destruct s; lia.
    + rewrite Qtrunc_inject_Z, Z.shiftl_mul_pow2 by lia. destruct s; lia.
    + rewrite Z.shiftr_div_pow2 by lia.
      unfold Qtrunc. destruct s.
      * replace (Qle_bool (inject_Z 0) (Zneg m # 2 ^ p)) with false by reflexivity.
        unfold Qceiling, Qfloor, Qopp. cbn [Qnum Qden].
        now rewrite Pos2Z.inj_pow.
      * replace (Qle_bool (inject_Z 0) (Zpos m # 2 ^ p)) with true by reflexivity.
        unfold Qfloor. now rewrite Pos2Z.inj_pow.
Qed.

Lemma int_of_float_not_finite (f : float) :
  is_finite f = false -> exists e, int_of_float f = Raise e.
Proof.
  destruct f; try discriminate; intros _; eexists; reflexivity.
Qed.

(** Digits are neither whitespace nor marks of a number. *)
Lemma digit_not_space (c : ascii) :
  is_digit c = true -> is_space c = false /\ is_c_space c = false.
Proof.
  unfold is_digit, is_space, is_c_space. intros H.
  apply andb_true_iff in H as [H1 H2]. apply Z.leb_le in H1. apply Z.leb_le in H2.
  split.
  - destruct (Z.leb_spec 9 (code c)), (Z.leb_spec (code c) 13),
      (Z.leb_spec 28 (code c)), (Z.leb_spec (code c) 32); simpl; try reflexivity; lia.
  - destruct (Z.leb_spec 9 (code c)), (Z.leb_spec (code c) 13),
      (Z.eqb_spec (code c) 32); simpl; try reflexivity; lia.
Qed.

Lemma digit_not_mark (c : ascii) :
  is_digit c = true ->
  c <> ","%char /\ c <> "_"%char /\ c <> "-"%char /\ c <> "+"%char.
Proof.
  intros H. repeat split; intros ->; discriminate H.
Qed.

(** Stripping, comma removal and the underscore pass leave a digit string
    as it is. *)
Lemma rstrip_digits (sp : ascii -> bool) (s : string) :
  (forall c, is_digit c = true -> sp c = false) ->
  all_digits s = true -> rstrip_by sp s = s.
Proof.
  intros Hsp. induction s as [|c s IH]; cbn [rstrip_by all_digits]; [reflexivity|].
  intros H. apply andb_true_iff in H as [Hc Hs].
  rewrite (IH Hs). destruct s; [now rewrite (Hsp c Hc) | reflexivity].
Qed.

Lemma strip_digits (sp : ascii -> bool) (s : string) :
  (forall c, is_digit c = true -> sp c = false) ->
  all_digits s = true -> strip_by sp s = s.
Proof.
  intros Hsp H. unfold strip_by.
  assert (Hl : lstrip_by sp s = s).
  { destruct s as [|c s]; [reflexivity|]. cbn [lstrip_by all_digits] in *.
    apply andb_true_iff in H as [Hc _]. now rewrite (Hsp c Hc). }
  rewrite Hl. now apply rstrip_digits.
Qed.

Lemma remove_comma_digits (s : string) :
  all_digits s = true -> remove_char ","%char s = s.
Proof.
  induction s as [|c s IH]; cbn [remove_char all_digits]; [reflexivity|].
  intros H. apply andb_true_iff in H as [Hc Hs].
  destruct (Ascii.eqb ","%char c) eqn:E.
  - apply Ascii.eqb_eq in E. subst c. discriminate Hc.
  - now rewrite (IH Hs).
Qed.

Lemma strip_underscores_digits (s : string) (prev : option ascii) :
  prev <> Some "_"%char ->
  all_digits s = true -> strip_underscores prev s = Some s.
Proof.
  revert prev. induction s as [|c s IH]; intros prev Hprev;
    cbn [strip_underscores all_digits].
  - intros _. destruct prev as [p|]; [|reflexivity].
    destruct p as [[] [] [] [] [] [] [] []]; try reflexivity. congruence.
  - intros H. apply andb_true_iff in H as [Hc Hs].
    destruct (Ascii.eqb c "_"%char) eqn:E.
    { apply Ascii.eqb_eq in E. subst c. discriminate Hc. }
    assert (Hok : match prev with Some "_"%char => is_digit c | _ => true end = true).
    { destruct prev as [p|]; [|reflexivity].
      destruct p as [[] [] [] [] [] [] [] []]; try reflexivity. exact Hc. }
    rewrite Hok. rewrite IH;
      [reflexivity | intros Heq; injection Heq as ->; discriminate Hc | exact Hs].
Qed.

Lemma span_all_digits (s : string) :
  all_digits s = true -> span_digits s = (s, EmptyString).
Proof.
  induction s as [|c s IH]; cbn [span_digits all_digits]; [reflexivity|].
  intros H. apply andb_true_iff in H as [Hc Hs].
  now rewrite Hc, (IH Hs).
Qed.

Lemma append_empty_r (s : string) : (s ++ "")%string = s.
Proof. induction s; simpl; congruence. Qed.

Lemma digits_value_nonneg (s : string) (acc : Z) :
  0 <= acc -> all_digits s = true -> 0 <= digits_value acc s.
Proof.
  revert acc. induction s as [|c s IH]; intros acc Hacc;
    cbn [digits_value all_digits]; [auto|].
  intros H. apply andb_true_iff in H as [Hc Hs].
  apply IH; [|exact Hs].
  unfold is_digit in Hc. apply andb_true_iff in Hc as [H1 _]. apply Z.leb_le in H1.
  unfold digit_val. lia.
Qed.

(** [float()] reads a plain digit string as the float of its value. *)
Lemma float_of_digits (c : ascii) (s : string) :
  all_digits (String c s) = true ->
  float_of_str (String c s) =
    Ok (binary_normalize prec emax (digits_value 0 (String c s)) 0 false).
Proof.
  intros H. unfold float_of_str.
  rewrite strip_underscores_digits by (discriminate || exact H).
  rewrite strip_digits by (exact H || (intros; now apply digit_not_space)).
  assert (Hc : is_digit c = true)
    by (cbn [all_digits] in H; now apply andb_true_iff in H as [Hc _]).
  destruct (digit_not_mark c Hc) as [_ [_ [Hm Hp]]].
  assert (Hsign : split_sign (String c s) = (false, String c s)).
  { unfold split_sign.
    destruct c as [[] [] [] [] [] [] [] []]; try reflexivity; congruence. }
  rewrite Hsign. unfold parse_decimal.
  rewrite span_all_digits by exact H. rewrite append_empty_r.
  cbn [parse_exponent String.length Z.of_nat]. 
  unfold float_of_decimal.
  pose proof (digits_value_nonneg (String c s) 0 ltac:(lia) H) as Hv.
  change (0 - 0) with 0.
  destruct (digits_value 0 (String c s)) as [|p|p]; [reflexivity| |lia].
  cbn [Z.pow]. now rewrite Z.mul_1_r.
Qed.

(** An [int] below 2^52 survives the way to [float] and back. *)
Lemma int_of_exact_float (b : positive) :
  Zpos b < 2 ^ 52 ->
  int_of_float (binary_normalize prec emax (Zpos b) 0 false) = Ok (Zpos b).
Proof.
  intros Hb.
  assert (Hd : Zpos (digits2_pos b) <= 52).
  { pose proof (digits2_pos_bounds b) as [Blo _].
    destruct (Z.le_gt_cases (Zpos (digits2_pos b)) 52) as [H|H]; [exact H|].
    assert (2 ^ 52 <= 2 ^ (Zpos (digits2_pos b) - 1)) by (apply Z.pow_le_mono_r; lia).
    lia. }
  destruct (float_of_int_exact b ltac:(lia)) as [mb [Hfloat [Hmb _]]].
  remember (Zpos (digits2_pos b) - 53) as e0 eqn:He0.
  unfold float_of_int in Hfloat.
  destruct (binary_normalize prec emax (Zpos b) 0 false) as [s|s| |s m e]; try discriminate.
  injection Hfloat as -> -> ->.
  unfold int_of_float.
  destruct e0 as [|k|k]; [lia|lia|].
  f_equal. rewrite Z.shiftr_div_pow2 by lia. rewrite Hmb.
  replace (53 - Zpos (digits2_pos b)) with (Zpos k) by lia.
  apply Z.div_mul. apply Z.pow_nonzero; lia.
Qed.

(** A digit string below 2^52 is coerced to its value. *)
Lemma parse_money_digits (c : ascii) (s : string) :
  all_digits (String c s) = true ->
  digits_value 0 (String c s) < 2 ^ 52 ->
  parse_money (CStr (String c s)) = digits_value 0 (String c s).
Proof.
  intros H Hv. unfold parse_money, str_of_cell, strip.
  rewrite remove_comma_digits by exact H.
  rewrite strip_digits by (exact H || (intros; now apply digit_not_space)).
  rewrite float_of_digits by exact H. cbn [bind].
  pose proof (digits_value_nonneg (String c s) 0 ltac:(lia) H) as Hn.
  destruct (digits_value 0 (String c s)) as [|p|p] eqn:E; [reflexivity| |lia].
  now rewrite int_of_exact_float.
Qed.

(** C9.  Commas are removed wherever they stand and the blanks around the
    rest are trimmed; the rest is read as [float()] reads it, that is as the
    double nearest to the decimal numeral, and that double is truncated
    toward zero.  A number that is not finite gives 0, and so does ASCII text
    that is not a number.  Digits with commas among them give the integer
    they spell below 2^52, where every integer is a double. *)
Theorem parse_money_coercion (s : string) :
  parse_money (CStr s) = parse_money (CStr (remove_char ","%char s))
  /\ (forall f, float_of_str (strip (remove_char ","%char s)) = Ok f ->
                is_finite f = true ->
                parse_money (CStr s) = Qtrunc (float_value f))
  /\ (forall f, float_of_str (strip (remove_char ","%char s)) = Ok f ->
                is_finite f = false ->
                parse_money (CStr s) = 0)
  /\ (isascii s = true ->
      forall e, float_of_str (strip (remove_char ","%char s)) = Raise e ->
                parse_money (CStr s) = 0)
  /\ (forall c ds, remove_char ","%char s = String c ds ->
                   all_digits (String c ds) = true ->
                   digits_value 0 (String c ds) < 2 ^ 52 ->
                   parse_money (CStr s) = digits_value 0 (String c ds))
  /\ parse_money (CStr "1,234,567") = 1234567
  /\ parse_money (CStr "") = 0
  /\ parse_money (CStr "not-a-number") = 0
  /\ parse_money (CStr "-abc") = 0
  /\ parse_money (CStr "-1,23-4") = 0
  /\ parse_money (CStr "--5") = 0
  /\ parse_money (CStr "12.9") = 12
  /\ parse_money (CStr "-12.9") = -12
  /\ parse_money CNaN = 0.
Proof.
  assert (Hcomma : parse_money (CStr s) = parse_money (CStr (remove_char ","%char s)))
    by (unfold parse_money, str_of_cell; now rewrite remove_char_idem).
  split; [|split; [|split; [|split; [|split]]]].
  - exact Hcomma.
  - intros f Hf Hfin. unfold parse_money, str_of_cell.
    rewrite Hf. simpl bind. now rewrite (int_of_float_trunc f Hfin).
  - intros f Hf Hfin. unfold parse_money, str_of_cell.
    rewrite Hf. simpl bind.
    destruct (int_of_float_not_finite f Hfin) as [e He]. now rewrite He.
  - intros _ e He. unfold parse_money, str_of_cell. now rewrite He.
  - intros c ds Hs Hdig Hv. rewrite Hcomma, Hs. now apply parse_money_digits.
  - repeat split; vm_compute; reflexivity.
Qed.

Lemma parse_money_coercion_witness :
  parse_money (CStr "1,234,567.89") = Qtrunc (1234567.89)%Q /\
  parse_money (CStr "1,2x") = 0.
Proof.
  split.
  - rewrite (proj1 (proj2 (parse_money_coercion "1,234,567.89"))
               (S754_finite false 5302428712241725 (-32)))
      by (vm_compute; reflexivity).
    vm_compute. reflexivity.
  - apply (proj1 (proj2 (proj2 (proj2 (parse_money_coercion "1,2x")))) eq_refl ValueError).
    vm_compute. reflexivity.
Defined.

(** C9 does not hold as stated: the number is rounded to a double before
    it is truncated.  The text 0.99999999999999999999 spells a number below
    1, whose integer part is 0, and is coerced to 1; the digits of 2^53 + 1
    are coerced to 2^53. *)
Lemma parse_money_truncates_the_double :
  parse_money (CStr "0.99999999999999999999") = 1 /\
  Qtrunc (99999999999999999999 # 100000000000000000000) = 0 /\
  parse_money (CStr "9007199254740993") = 9007199254740992 /\
  2 ^ 53 + 1 = 9007199254740993.
Proof. repeat split; vm_compute; reflexivity. Qed.

End MoneySpec.

(** ** The minimum bid *)
Module MinBidSpec.
Import Py PyFacts Binary64Facts Frame Normalizer.

(** [100000 * 0.87745] falls short of 87745 by 43040 / 2^53. *)
Lemma min_bid_rate_value :
  min_bid_rate = S754_finite false 7903366986072483 (-53) /\
  100000 * 7903366986072483 = 87745 * 2 ^ 53 - 43040 /\
  float_of_str "0.87745" = Ok min_bid_rate.
Proof. repeat split; vm_compute; reflexivity. Qed.

(** [base * 87745] leaves a multiple of 5 when divided by 100000. *)
Lemma rate_remainder (base : Z) :
  0 <= base -> (base * 87745) mod 100000 <= 99995.
Proof.
  intros Hb.
  replace (base * 87745) with (5 * (base * 17549)) by lia.
  change 100000 with (5 * 20000).
  rewrite Z.mul_mod_distr_l by lia.
  pose proof (Z.mod_pos_bound (base * 17549) 20000 ltac:(lia)). lia.
Qed.

(** The arithmetic core: a rounded product [R] of mantissa [mb] and the rate,
    cut at [T], is the integer part of [base * 87745 / 100000]. *)
Lemma min_bid_arith (base mb S N T R : Z) :
  0 < base -> 0 < S -> mb = base * S ->
  2 ^ 52 <= mb ->
  0 < N <= 2 ^ 53 -> 8192 <= T ->
  N * T = 2 ^ 53 * S ->
  mb * 7903366986072483 < 2 ^ 53 * N ->
  2 * Z.abs (R * N - mb * 7903366986072483) <= N ->
  R / T = base * 87745 / 100000.
Proof.
  intros Hb HS Hmb Hlo [HN HN53] HT HNT HP HR.
  pose proof (Z.div_mod (base * 87745) 100000 ltac:(lia)) as HK.
  pose proof (rate_remainder base ltac:(lia)) as Hrem.
  pose proof (Z.mod_pos_bound (base * 87745) 100000 ltac:(lia)) as Hrem0.
  set (K := base * 87745 / 100000) in *.
  set (rho := (base * 87745) mod 100000) in *.
  change (2 ^ 53) with 9007199254740992 in *.
  change (2 ^ 52) with 4503599627370496 in *.
  (* 100000 * P = X * (N*T) - 43040 * mb *)
  assert (HX : 100000 * (mb * 7903366986072483) =
               (100000 * K + rho) * (N * T) - 43040 * mb).
  { rewrite <- HK, HNT, Hmb. ring. }
  symmetry. apply Z.div_unique with (r := R - T * K); [left|ring].
  assert (HKN : 0 <= K) by (unfold K; apply Z.div_pos; lia).
  split.
  - (* K * T <= R *)
    destruct (Z.le_gt_cases (T * K) R) as [H|H]; [lia|exfalso].
    assert (H1 : (R + 1) * N <= T * K * N) by (apply Z.mul_le_mono_nonneg_r; lia).
    assert (H2 : 0 <= rho * (N * T)) by (apply Z.mul_nonneg_nonneg; nia).
    nia.
  - (* R < (K + 1) * T *)
    destruct (Z.lt_ge_cases R (T * K + T)) as [H|H]; [lia|exfalso].
    assert (H1 : (T * K + T) * N <= R * N) by (apply Z.mul_le_mono_nonneg_r; lia).
    assert (H2 : rho * (N * T) <= 99995 * (N * T)) by (apply Z.mul_le_mono_nonneg_r; nia).
    assert (H3 : 8192 * N <= T * N) by (apply Z.mul_le_mono_nonneg_r; lia).
    nia.
Qed.


Lemma pow2_le_digits (b : positive) (k : Z) :
  0 <= k -> Zpos b < 2 ^ k -> Zpos (digits2_pos b) <= k.
Proof.
  intros Hk Hb.
  pose proof (digits2_pos_bounds b) as [Blo _].
  destruct (Z.le_gt_cases (Zpos (digits2_pos b)) k) as [H|H]; [exact H|].
  assert (2 ^ k <= 2 ^ (Zpos (digits2_pos b) - 1)) by (apply Z.pow_le_mono_r; lia).
  lia.
Qed.

Lemma digits_lower (b : positive) (k : Z) :
  2 ^ k <= Zpos b -> k < Zpos (digits2_pos b).
Proof.
  intros Hb.
  pose proof (digits2_pos_bounds b) as [_ Bhi].
  destruct (Z.lt_ge_cases k (Zpos (digits2_pos b))) as [H|H]; [exact H|].
  assert (2 ^ Zpos (digits2_pos b) <= 2 ^ k) by (apply Z.pow_le_mono_r; lia).
  lia.
Qed.

(** [int(base * 0.87745)] while the exact product with the double nearest
    to 0.87745 stays below 2^40. *)
Lemma min_bid_product_below_2_40 (b : positive) :
  Zpos b * 7903366986072483 < 2 ^ 93 ->
  (f <- float_of_int (Zpos b) ;; int_of_float (fmul f min_bid_rate)) =
    Ok (Zpos b * 87745 / 100000).
Proof.
  intros Hb93.
  change (2 ^ 93) with 9903520314283042199192993792 in Hb93.
  assert (Hd41 : Zpos (digits2_pos b) <= 41)
    by (apply pow2_le_digits; [lia | change (2 ^ 41) with 2199023255552; lia]).
  destruct (float_of_int_exact b ltac:(lia)) as [mb [Hfloat [Hmb Hdmb]]].
  rewrite Hfloat. cbn [bind].
  pose proof (digits2_pos_bounds b) as [Blo Bhi].
  pose proof (digits2_pos_bounds mb) as [Mlo Mhi]. rewrite Hdmb in Mlo, Mhi.
  set (d := Zpos (digits2_pos b)) in *.
  assert (Hd0 : 0 < d) by (unfold d; lia).
  change (fmul (S754_finite false mb (d - 53)) min_bid_rate)
    with (binary_round_aux prec emax false (Zpos (mb * 7903366986072483)) (d - 53 + -53) loc_Exact).
  set (P := (mb * 7903366986072483)%positive).
  assert (HP : Zpos P = Zpos mb * 7903366986072483) by reflexivity.
  change (2 ^ (53 - 1)) with 4503599627370496 in Mlo.
  change (2 ^ 53) with 9007199254740992 in Mhi.
  assert (HS : 0 < 2 ^ (53 - d)) by (apply Z.pow_pos_nonneg; lia).
  assert (HdP : 104 < Zpos (digits2_pos P) <= 146 - d).
  { split.
    - apply digits_lower. rewrite HP. change (2 ^ 104) with 20282409603651670423947251286016. lia.
    - apply pow2_le_digits; [lia|]. rewrite HP, Hmb.
      replace (146 - d) with (93 + (53 - d)) by lia.
      rewrite Z.pow_add_r by lia.
      change (2 ^ 93) with 9903520314283042199192993792. nia. }
  pose proof (digits2_pos_bounds P) as [Plo Phi].
  set (dP := Zpos (digits2_pos P)) in *.
  assert (HdP106 : dP <= 106).
  { apply pow2_le_digits; [lia|]. rewrite HP.
    change (2 ^ 106) with 81129638414606681695789005144064. lia. }
  destruct (dP - 53) as [|n|n] eqn:Hn; [lia| |lia].
  destruct (binary_round_aux_normal P n (d - 53 + -53)) as [m2 [dl [Hround [Hdl HR]]]];
    [fold dP; lia | lia | lia |].
  rewrite Hround.
  pose proof (round_shift_error (Zpos P) n ltac:(lia)) as [_ Herr].
  rewrite <- HR in Herr.
  unfold int_of_float.
  destruct (d - 53 + -53 + Zpos n + dl) as [|t|t] eqn:Ht; [lia|lia|].
  f_equal. rewrite Z.shiftr_div_pow2 by lia.
  assert (Hdl2 : 0 < 2 ^ dl) by (apply Z.pow_pos_nonneg; lia).
  rewrite <- (Z.div_mul_cancel_r (Zpos m2) (2 ^ Zpos t) (2 ^ dl)) by lia.
  rewrite <- Z.pow_add_r by lia.
  apply (min_bid_arith (Zpos b) (Zpos mb) (2 ^ (53 - d)) (2 ^ Zpos n)
           (2 ^ (Zpos t + dl)) (Zpos m2 * 2 ^ dl)).
  - lia.
  - exact HS.
  - exact Hmb.
  - change (2 ^ 52) with 4503599627370496. lia.
  - split; [apply Z.pow_pos_nonneg; lia | apply Z.pow_le_mono_r; lia].
  - change 8192 with (2 ^ 13). apply Z.pow_le_mono_r; lia.
  - rewrite <- !Z.pow_add_r by lia. f_equal. lia.
  - rewrite <- HP, <- Z.pow_add_r by lia.
    replace (53 + Zpos n) with dP by lia. exact Phi.
  - rewrite <- HP. exact Herr.
Qed.

(** The 684 bases between that bound and 1253076105050, one by one. *)
Lemma min_bid_product_last_bases :
  forallb product_is_floor
    (List.map (fun k => 1253076104367 + Z.of_nat k) (seq 0 684)) = true.
Proof. vm_compute. reflexivity. Qed.

Lemma min_bid_product (b : positive) :
  Zpos b <= 1253076105050 ->
  (f <- float_of_int (Zpos b) ;; int_of_float (fmul f min_bid_rate)) =
    Ok (Zpos b * 87745 / 100000).
Proof.
  intros Hb.
  destruct (Z.le_gt_cases (Zpos b) 1253076104366) as [Hlow|Hhigh].
  - apply min_bid_product_below_2_40.
    change (2 ^ 93) with 9903520314283042199192993792. lia.
  - pose proof min_bid_product_last_bases as Hall.
    rewrite forallb_forall in Hall.
    specialize (Hall (Zpos b)).
    assert (Hin : In (Zpos b)
                    (List.map (fun k => 1253076104367 + Z.of_nat k) (seq 0 684))).
    { apply in_map_iff. exists (Z.to_nat (Zpos b - 1253076104367)).
      split; [lia|]. apply in_seq. lia. }
    specialize (Hall Hin). unfold product_is_floor in Hall.
    destruct (f <- float_of_int (Zpos b) ;; int_of_float (fmul f min_bid_rate))
      as [n|e]; [|discriminate].
    apply Z.eqb_eq in Hall. now rewrite Hall.
Qed.

(** C1, as the code has it.  The field is 0 when the base (the budget when
    it is positive, the estimated price otherwise) is not positive.  For a
    base of at most 1253076105050 it is the integer part of
    base * 87745 / 100000: there the binary64 product, cut to an integer,
    agrees with the exact one. *)
Theorem calc_min_bid_floor (budget estim : Z) :
  (if budget >? 0 then budget else estim) <= 1253076105050 ->
  calc_min_bid budget estim =
    Ok (if (if budget >? 0 then budget else estim) >? 0
        then (if budget >? 0 then budget else estim) * 87745 / 100000
        else 0).
Proof.
  intros Hb. unfold calc_min_bid.
  set (base_price := if budget >? 0 then budget else estim) in *.
  destruct (base_price >? 0) eqn:Hpos; [|reflexivity].
  rewrite Z.gtb_ltb in Hpos. apply Z.ltb_lt in Hpos.
  destruct base_price as [|b|b]; [lia| |lia].
  now apply min_bid_product.
Qed.

Lemma calc_min_bid_floor_witness :
  calc_min_bid 1000000 0 = Ok 877450 /\
  calc_min_bid 0 2000000 = Ok 1754900 /\
  calc_min_bid 0 0 = Ok 0.
Proof.
  split; [|split].
  - apply (calc_min_bid_floor 1000000 0). vm_compute. discriminate.
  - apply (calc_min_bid_floor 0 2000000). vm_compute. discriminate.
  - apply (calc_min_bid_floor 0 0). vm_compute. discriminate.
Defined.

(** C1 does not hold as stated: at the next base the binary64 product
    reaches 2^40, where neighbouring doubles lie further apart, and rounds
    up to an integer that the exact product stays below. *)
Lemma calc_min_bid_above_floor :
  calc_min_bid 1253076105051 0 = Ok 1099511628377 /\
  1253076105051 * 87745 / 100000 = 1099511628376.
Proof. split; vm_compute; reflexivity. Qed.

(** C10.  A well-formed negative amount stays negative; [calc_min_bid]
    gives 0 for it only through its test on the base, without which the
    product for -100 would be -87. *)
Theorem negative_money_kept (budget estim : Z) :
  budget <= 0 -> estim <= 0 ->
  calc_min_bid budget estim = Ok 0
  /\ parse_money (CStr "-100") = -100
  /\ (f <- float_of_int (-100) ;; int_of_float (fmul f min_bid_rate)) = Ok (-87).
Proof.
  intros Hb He. split; [|split].
  - unfold calc_min_bid.
    replace (budget >? 0) with false by (symmetry; rewrite Z.gtb_ltb; apply Z.ltb_ge; exact Hb).
    replace (estim >? 0) with false by (symmetry; rewrite Z.gtb_ltb; apply Z.ltb_ge; exact He).
    reflexivity.
  - vm_compute. reflexivity.
  - vm_compute. reflexivity.
Qed.

Lemma negative_money_kept_witness :
  calc_min_bid (parse_money (CStr "-100")) (parse_money (CStr "-100")) = Ok 0.
Proof.
  apply (negative_money_kept (parse_money (CStr "-100")) (parse_money (CStr "-100"))).
  - vm_compute. discriminate.
  - vm_compute. discriminate.
Defined.

End MinBidSpec.

(** ** Whole runs of the fetch loop *)
Module FetchRunSpec.
Import Py PyFacts Fetcher FetcherSpec FetchRun.

(** A turn that goes on has added the items of its page. *)
Lemma fetch_page_continue (url : string) (p : params) (page : Z)
    (acc l : list RawRecord) (r : response) :
  fetch_page url p page acc r = Continue l -> l = acc ++ page_items r.
Proof.
  unfold fetch_page, page_items.
  destruct r as [|st [root|]]; try discriminate.
  - destruct (st =? 500) eqn:E5; [discriminate|].
    destruct (st =? 200) eqn:E2; cbn [negb]; [|discriminate].
    destruct (items root) as [|it its]; [discriminate|].
    destruct (is_rd url).
    + destruct (dict_get p "numOfRows") as [rows|]; [|discriminate].
      destruct (int_of_str rows) as [n|e]; [|discriminate].
      destruct ((len (it :: its) <? n) || (page >=? 30)); [discriminate|].
      intros H. now injection H as <-.
    + destruct (totalCount root) as [t|].
      * destruct (total_count_value t) as [n|e]; [|discriminate].
        destruct (len (acc ++ it :: its) >=? n); [discriminate|].
        intros H. now injection H as <-.
      * intros H. now injection H as <-.
  - destruct (st =? 500); [discriminate|].
    destruct (negb (st =? 200)); discriminate.
Qed.

(** A turn that ends the loop leaves what was gathered, with the items of
    its page when the page was answered. *)
Lemma fetch_page_break (url : string) (p : params) (page : Z)
    (acc l : list RawRecord) (w : bool) (r : response) :
  fetch_page url p page acc r = Break l w ->
  l = acc ++ page_items r /\
  (w = true <-> page = 1 /\ exists parsed, r = Http 500 parsed).
Proof.
  assert (Hno : forall st parsed, (st =? 500) = false ->
            (false = true <-> page = 1 /\ exists parsed', Http st parsed = Http 500 parsed')).
  { intros st parsed E. split; [discriminate|].
    intros [_ [parsed' H]]. injection H as -> _. discriminate. }
  unfold fetch_page, page_items.
  destruct r as [|st parsed].
  - intros H. injection H as <- <-. rewrite app_nil_r. split; [reflexivity|].
    split; [discriminate | intros [_ [? H]]; discriminate].
  - destruct (st =? 500) eqn:E5.
    + intros H. injection H as <- <-.
      apply Z.eqb_eq in E5. subst st. change (500 =? 200) with false.
      split; [destruct parsed; now rewrite app_nil_r|].
      rewrite Z.eqb_eq. split.
      * intros ->. split; [reflexivity | now exists parsed].
      * now intros [-> _].
    + destruct (st =? 200) eqn:E2; cbn [negb].
      2:{ intros H. injection H as <- <-.
          split; [destruct parsed; now rewrite app_nil_r | now apply Hno]. }
      destruct parsed as [root|].
      2:{ intros H. injection H as <- <-.
          split; [now rewrite app_nil_r | now apply Hno]. }
      destruct (items root) as [|it its].
      { intros H. injection H as <- <-.
        split; [now rewrite app_nil_r | now apply Hno]. }
      destruct (is_rd url).
      * destruct (dict_get p "numOfRows") as [rows|].
        2:{ intros H. injection H as <- <-. split; [reflexivity | now apply Hno]. }
        destruct (int_of_str rows) as [n|e].
        2:{ intros H. injection H as <- <-. split; [reflexivity | now apply Hno]. }
        destruct ((len (it :: its) <? n) || (page >=? 30)); [|discriminate].
        intros H. injection H as <- <-. split; [reflexivity | now apply Hno].
      * destruct (totalCount root) as [t|]; [|discriminate].
        destruct (total_count_value t) as [n|e].
        2:{ intros H. injection H as <- <-. split; [reflexivity | now apply Hno]. }
        destruct (len (acc ++ it :: its) >=? n); [|discriminate].
        intros H. injection H as <- <-. split; [reflexivity | now apply Hno].
Qed.

(** Past the first page no warning is shown. *)
Lemma no_warning_after_first_page (srv : server) (url : string) (fuel : nat) :
  forall (p : params) (page : Z) (acc : list RawRecord) (r : fetched),
    1 < page -> fetch_loop fuel srv url p page acc = Some r -> warned r = false.
Proof.
  induction fuel as [|fuel IH]; intros p page acc r Hp; [discriminate|].
  rewrite fetch_loop_step.
  destruct (fetch_page url (page_params url p page) page acc
              (srv url (page_params url p page))) as [l w|l] eqn:Hpage.
  - intros H. injection H as <-. cbn [warned].
    apply fetch_page_break in Hpage as [_ Hw].
    destruct w; [|reflexivity]. destruct (proj1 Hw eq_refl) as [E _]. lia.
  - apply IH. lia.
Qed.

(** X1.  A call for the R&D endpoint returns: with room for 30 turns the
    loop ends, and the last page it asked for is one of 1 .. 30, whatever
    the service answers. *)
Theorem rd_fetch_returns (srv : server) (url : string) (p : params) (fuel : nat) :
  is_rd url = true -> (30 <= fuel)%nat ->
  exists r, fetch_data_from_api fuel srv url p = Some r /\ 1 <= last_page r <= 30.
Proof.
  intros Hrd Hfuel. unfold fetch_data_from_api.
  destruct (rd_loop_terminates srv url fuel Hrd p 1 []) as [r [Hr Hb]]; [lia|lia|].
  exists r. split; [exact Hr | lia].
Qed.

Lemma rd_fetch_returns_witness :
  exists r, fetch_data_from_api 30 full_pages RD_NOTICE_URL [("serviceKey", "k")] = Some r /\
            1 <= last_page r <= 30.
Proof.
  apply (rd_fetch_returns full_pages RD_NOTICE_URL [("serviceKey", "k")] 30).
  - vm_compute. reflexivity.
  - lia.
Defined.

(** X2.  A request that fails, an answer with a status other than 200, a
    body that does not parse and a page without items all end the loop at
    once: the call returns what it had gathered, and nothing is retried. *)
Theorem fruitless_page_ends_run (srv : server) (url : string) (p : params) (page : Z)
    (acc : list RawRecord) (fuel : nat) :
  fruitless (srv url (page_params url p page)) ->
  exists w, fetch_loop (S fuel) srv url p page acc =
              Some {| all_items := acc; last_page := page; warned := w |}.
Proof.
  intros Hf. rewrite fetch_loop_step.
  destruct (srv url (page_params url p page)) as [|st parsed]; cbn [fetch_page].
  - now exists false.
  - destruct (st =? 500) eqn:E5; [now eexists|].
    destruct (st =? 200) eqn:E2; cbn [negb]; [|now eexists].
    apply Z.eqb_eq in E2. cbn [fruitless] in Hf.
    destruct Hf as [H | [-> | [root [-> Hroot]]]]; [congruence | now eexists |].
    rewrite Hroot. now eexists.
Qed.

Lemma fruitless_page_ends_run_witness :
  exists w, fetch_loop 1 (fun _ _ => TransportError) BID_NOTICE_URL [] 3 [[("bidNtceNo", "1")]] =
              Some {| all_items := [[("bidNtceNo", "1")]]; last_page := 3; warned := w |}.
Proof.
  apply (fruitless_page_ends_run (fun _ _ => TransportError) BID_NOTICE_URL [] 3
           [[("bidNtceNo", "1")]] 0).
  exact I.
Defined.

(** X3.  The warning of a finished call is shown exactly when the first
    request is answered with status 500, whichever endpoint is asked. *)
Theorem warning_iff_first_answer_500 (fuel : nat) (srv : server) (url : string)
    (p : params) (r : fetched) :
  fetch_data_from_api fuel srv url p = Some r ->
  (warned r = true <-> exists parsed, srv url (page_params url p 1) = Http 500 parsed).
Proof.
  unfold fetch_data_from_api. destruct fuel as [|fuel]; [discriminate|].
  rewrite fetch_loop_step.
  destruct (fetch_page url (page_params url p 1) 1 []
              (srv url (page_params url p 1))) as [l w|l] eqn:Hpage.
  - intros H. injection H as <-. cbn [warned].
    apply fetch_page_break in Hpage as [_ Hw]. rewrite Hw.
    split; [now intros [_ H] | now intros H].
  - intros H. rewrite (no_warning_after_first_page srv url fuel _ (1 + 1) l r ltac:(lia) H).
    split; [discriminate|]. intros [parsed E]. rewrite E in Hpage.
    discriminate.
Qed.

Lemma warning_iff_first_answer_500_witness :
  warned {| all_items := []; last_page := 1; warned := true |} = true <->
  exists parsed, (fun (_ : string) (_ : params) => Http 500 None) ORDER_PLAN_URL
                   (page_params ORDER_PLAN_URL [] 1) = Http 500 parsed.
Proof.
  apply (warning_iff_first_answer_500 1 (fun _ _ => Http 500 None) ORDER_PLAN_URL []).
  reflexivity.
Defined.

(** X4.  What a call returns is the concatenation, in the order of the
    requests, of the items of every answered page from the first to the
    last one asked for: no item is dropped, repeated or moved. *)
Theorem run_gathers_pages_in_order (fuel : nat) (srv : server) (url : string) :
  forall (p : params) (page : Z) (acc : list RawRecord) (r : fetched),
    fetch_loop fuel srv url p page acc = Some r ->
    page <= last_page r /\
    all_items r =
      acc ++ flat_map (fun q => page_items (srv url q))
               (requests url p page (Z.to_nat (last_page r - page + 1))).
Proof.
  induction fuel as [|fuel IH]; intros p page acc r; [discriminate|].
  rewrite fetch_loop_step.
  destruct (fetch_page url (page_params url p page) page acc
              (srv url (page_params url p page))) as [l w|l] eqn:Hpage.
  - intros H. injection H as <-. cbn [last_page all_items].
    split; [lia|].
    replace (page - page + 1) with 1 by lia.
    change (Z.to_nat 1) with 1%nat. cbn [requests flat_map]. rewrite app_nil_r.
    now apply fetch_page_break in Hpage as [-> _].
  - intros H. destruct (IH _ _ _ _ H) as [Hle Hall].
    split; [lia|].
    replace (Z.to_nat (last_page r - page + 1))
      with (S (Z.to_nat (last_page r - (page + 1) + 1))) by lia.
    cbn [requests flat_map]. rewrite Hall.
    apply fetch_page_continue in Hpage. rewrite Hpage, <- app_assoc. reflexivity.
Qed.

Lemma run_gathers_pages_in_order_witness :
  2 <= last_page {| all_items := [[("bidNtceNo", "1")]; [("bidNtceNo", "2")]; [("bidNtceNo", "3")];
                                  [("bidNtceNo", "4")]; [("bidNtceNo", "5")]];
                    last_page := 2; warned := false |}.
Proof.
  refine (proj1 (run_gathers_pages_in_order 1 five_records BID_NOTICE_URL
            (page_params BID_NOTICE_URL [("bidNtceNm", "survey")] 1) 2
            [[("bidNtceNo", "1")]; [("bidNtceNo", "2")]; [("bidNtceNo", "3")]] _ _)).
  reflexivity.
Defined.

(** X5.  Outside the R&D endpoint the loop has no page limit of its own:
    against a service that always answers with items and never states a
    total, no number of turns ends it. *)
Theorem plain_loop_has_no_page_cap (srv : server) (url : string) :
  is_rd url = false ->
  (forall q, exists root,
      srv url q = Http 200 (Some root) /\ items root <> [] /\ totalCount root = None) ->
  forall (fuel : nat) (p : params) (page : Z) (acc : list RawRecord),
    fetch_loop fuel srv url p page acc = None.
Proof.
  intros Hrd Hsrv. induction fuel as [|fuel IH]; intros p page acc; [reflexivity|].
  destruct (Hsrv (page_params url p page)) as [root [Hresp [Hne Hnone]]].
  rewrite (pagination_continues srv url p page acc fuel root Hresp Hne).
  - apply IH.
  - rewrite Hrd. now left.
Qed.

Lemma plain_loop_has_no_page_cap_witness :
  fetch_loop 1000 full_pages BID_NOTICE_URL [("bidNtceNm", "survey")] 1 [] = None.
Proof.
  apply (plain_loop_has_no_page_cap full_pages BID_NOTICE_URL).
  - vm_compute. reflexivity.
  - intros q. eexists. split; [reflexivity|]. split; [discriminate | reflexivity].
Defined.

(** X6.  Every request of a call carries its own page number, the page
    size of its endpoint (10 for R&D, 500 otherwise) and, unchanged, every
    other parameter the caller gave. *)
Theorem requests_carry_caller_params (url : string) (n : nat) :
  forall (p : params) (page : Z) (i : nat) (q : params),
    nth_error (requests url p page n) i = Some q ->
    dict_get q "pageNo" = Some (str_of_int (page + Z.of_nat i)) /\
    dict_get q "numOfRows" = Some (if is_rd url then "10" else "500") /\
    (is_rd url = true -> dict_get q "type" = Some "xml") /\
    (forall k, k <> "pageNo" -> k <> "numOfRows" -> (is_rd url = true -> k <> "type") ->
               dict_get q k = dict_get p k).
Proof.
  assert (Hother : forall p page k, k <> "pageNo" -> k <> "numOfRows" ->
            (is_rd url = true -> k <> "type") ->
            dict_get (page_params url p page) k = dict_get p k).
  { intros p page k H1 H2 H3. unfold page_params. destruct (is_rd url).
    - specialize (H3 eq_refl). rewrite !dict_get_set_other by congruence. reflexivity.
    - rewrite !dict_get_set_other by congruence. reflexivity. }
  induction n as [|n IH]; intros p page i q.
  - destruct i; discriminate.
  - cbn [requests]. destruct i as [|i]; cbn [nth_error].
    + intros H. injection H as <-. rewrite Z.add_0_r.
      repeat split.
      * unfold page_params. destruct (is_rd url).
        -- rewrite !dict_get_set_other by discriminate. apply dict_get_set_same.
        -- rewrite !dict_get_set_other by discriminate. apply dict_get_set_same.
      * unfold page_params. destruct (is_rd url).
        -- rewrite !dict_get_set_other by discriminate. apply dict_get_set_same.
        -- apply dict_get_set_same.
      * intros Hrd. unfold page_params. rewrite Hrd. apply dict_get_set_same.
      * apply Hother.
    + intros H. destruct (IH _ _ _ _ H) as [H1 [H2 [H3 H4]]].
      repeat split; try assumption.
      * rewrite H1. f_equal. f_equal. lia.
      * intros k K1 K2 K3. rewrite H4 by assumption. now apply Hother.
Qed.

Lemma requests_carry_caller_params_witness :
  dict_get (page_params BID_NOTICE_URL
              (page_params BID_NOTICE_URL [("bidNtceNm", "survey")] 1) 2) "pageNo" =
    Some (str_of_int (1 + Z.of_nat 1)).
Proof.
  refine (proj1 (requests_carry_caller_params BID_NOTICE_URL 2 [("bidNtceNm", "survey")] 1 1 _ _)).
  reflexivity.
Defined.

End FetchRunSpec.

(** ** Counting the calls of the window splitter *)
Module SplitterLogSpec.
Import Py PyFacts WindowSplitter WindowSplitterSpec SplitterLog.

Lemma count_app (f : event -> bool) (l1 l2 : list event) :
  count f (l1 ++ l2) = (count f l1 + count f l2)%nat.
Proof. unfold count. now rewrite filter_app, length_app. Qed.

Lemma count_window_fetches (now : datetime) (strftime : datetime -> string)
    (service_key : string) (keywords : list string) (i : Z) :
  count is_fetch (window_fetches now strftime service_key keywords i) = List.length keywords /\
  count is_progress (window_fetches now strftime service_key keywords i) = 0%nat /\
  count is_sleep (window_fetches now strftime service_key keywords i) = 0%nat.
Proof.
  unfold window_fetches, count.
  induction keywords as [|kw kws [IH1 [IH2 IH3]]]; simpl; auto.
Qed.

(** X7.  A call of the splitter makes one fetch per window and keyword and
    one pause per window; it reports progress once per window when it is
    given a callback and never otherwise.  With no window to visit
    (months <= 0) it does nothing at all and returns the empty list. *)
Theorem splitter_call_counts
    (now : datetime) (strftime : datetime -> string)
    (fetch : string -> Fetcher.params -> list Fetcher.RawRecord)
    (service_key : string) (keywords : list string) (months : Z) (cb : bool) :
  let log := snd (fetch_bid_data_split now strftime fetch service_key keywords months cb) in
  count is_fetch log = (Z.to_nat months * List.length keywords)%nat /\
  count is_sleep log = Z.to_nat months /\
  count is_progress log = (if cb then Z.to_nat months else 0%nat) /\
  (months <= 0 ->
   fetch_bid_data_split now strftime fetch service_key keywords months cb = ([], [])).
Proof.
  cbv zeta. unfold fetch_bid_data_split. rewrite fetch_windows_spec. cbn [snd app].
  rewrite <- (range_length months).
  split; [|split; [|split]].
  - induction (range months) as [|i ws IH]; [reflexivity|].
    cbn [flat_map List.length]. rewrite !count_app, IH.
    destruct (count_window_fetches now strftime service_key keywords i) as [-> _].
    destruct cb; unfold count; cbn [filter is_fetch is_sleep is_progress List.length]; lia.
  - induction (range months) as [|i ws IH]; [reflexivity|].
    cbn [flat_map List.length]. rewrite !count_app, IH.
    destruct (count_window_fetches now strftime service_key keywords i) as [_ [_ ->]].
    destruct cb; unfold count; cbn [filter is_fetch is_sleep is_progress List.length]; lia.
  - induction (range months) as [|i ws IH]; [now destruct cb|].
    cbn [flat_map List.length]. rewrite !count_app, IH.
    destruct (count_window_fetches now strftime service_key keywords i) as [_ [-> _]].
    destruct cb; unfold count; cbn [filter is_fetch is_sleep is_progress List.length]; lia.
  - intros Hm. unfold range. replace (Z.to_nat months) with 0%nat by lia. reflexivity.
Qed.

End SplitterLogSpec.

(** ** Looking a field up under its aliases *)
Module GetValSpec.
Import Py PyFacts Frame Normalizer Lookup.

Lemma dict_get_In {V : Type} (d : dict V) (k : string) (v : V) :
  dict_get d k = Some v -> In (k, v) d.
Proof.
  induction d as [|[k0 v0] d IH]; simpl; [discriminate|].
  destruct (String.eqb k k0) eqn:E.
  - apply String.eqb_eq in E. subst k0. intros H. injection H as ->. now left.
  - intros H. right. now apply IH.
Qed.

Lemma dict_get_unique {V : Type} (f : string -> string) (d : dict V) (k : string) (v : V) :
  NoDup (List.map (fun kv => f (fst kv)) d) ->
  In (k, v) d -> dict_get d k = Some v.
Proof.
  induction d as [|[k0 v0] d IH]; simpl; [easy|].
  intros Hnd [H|H].
  - injection H as -> ->. now rewrite String.eqb_refl.
  - inversion Hnd as [|? ? Hnot Hnd']; subst.
    destruct (String.eqb k k0) eqn:E.
    + apply String.eqb_eq in E. subst k0. exfalso. apply Hnot.
      apply in_map_iff. now exists (k, v).
    + now apply IH.
Qed.

(** The keys of the lower-cased copy of a row come from the row. *)
Lemma lower_keys_get (row : dict cell) (key : string) (v : cell) :
  forall acc,
    dict_get (fold_left (fun d kv => dict_set d (lower (fst kv)) (snd kv)) row acc) key = Some v ->
    dict_get acc key = Some v \/ exists k', In (k', v) row /\ lower k' = key.
Proof.
  induction row as [|[k0 v0] row IH]; intros acc; simpl; [now left|].
  intros H. destruct (IH _ H) as [H'|[k' [Hin Hk]]].
  - destruct (string_dec (lower k0) key) as [E|E].
    + subst key. rewrite dict_get_set_same in H'. injection H' as ->.
      right. exists k0. split; [now left | reflexivity].
    + rewrite dict_get_set_other in H' by exact E. now left.
  - right. exists k'. split; [now right | exact Hk].
Qed.

Lemma lower_keys_keep (row : dict cell) (key : string) :
  forall acc,
    (forall kv, In kv row -> lower (fst kv) <> key) ->
    dict_get (fold_left (fun d kv => dict_set d (lower (fst kv)) (snd kv)) row acc) key =
      dict_get acc key.
Proof.
  induction row as [|[k0 v0] row IH]; intros acc Hno; simpl; [reflexivity|].
  rewrite IH by (intros kv Hkv; apply Hno; now right).
  apply dict_get_set_other. apply (Hno (k0, v0)). now left.
Qed.

Lemma lower_keys_unique (row : dict cell) (k' : string) (v : cell) :
  forall acc,
    NoDup (List.map (fun kv => lower (fst kv)) row) ->
    In (k', v) row ->
    dict_get (fold_left (fun d kv => dict_set d (lower (fst kv)) (snd kv)) row acc) (lower k') =
      Some v.
Proof.
  induction row as [|[k0 v0] row IH]; intros acc Hnd; simpl; [easy|].
  inversion Hnd as [|? ? Hnot Hnd']; subst.
  intros [H|H].
  - injection H as -> ->. rewrite lower_keys_keep.
    + apply dict_get_set_same.
    + intros kv Hkv E. apply Hnot. apply in_map_iff. now exists kv.
  - now apply IH.
Qed.

Lemma usable_Some (row : dict cell) (k s : string) :
  usable row k = Some s <-> exists v, dict_get row k = Some v /\ accepted v s.
Proof.
  unfold usable, accepted. destruct (dict_get row k) as [v|].
  - destruct (notna v) eqn:Hn; simpl.
    + destruct (String.eqb (strip (str_of_cell v)) "") eqn:E; simpl.
      * apply String.eqb_eq in E. split; [discriminate|].
        intros [v' [H [_ [H' _]]]]. injection H as <-. congruence.
      * apply String.eqb_neq in E. split.
        -- intros H. injection H as <-. now exists v.
        -- intros [v' [H [_ [_ ->]]]]. now injection H as <-.
    + split; [discriminate|]. intros [v' [H [H' _]]]. injection H as <-. congruence.
  - split; [discriminate|]. intros [v' [H _]]. discriminate.
Qed.

(** What the loop of [get_val] returns. *)
Lemma get_val_keys_cases (row : dict cell) (keys : list string) (d : string) :
  get_val_keys row (lower_keys row) keys d = d \/
  exists k k' v,
    In k keys /\ In (k', v) row /\ lower k' = lower k /\
    accepted v (get_val_keys row (lower_keys row) keys d).
Proof.
  induction keys as [|k ks IH]; cbn [get_val_keys]; [now left|].
  destruct (usable row k) as [s|] eqn:E1.
  - right. apply usable_Some in E1 as [v [Hv Hacc]].
    exists k, k, v. repeat split; try apply Hacc.
    + now left.
    + now apply dict_get_In.
  - destruct (usable (lower_keys row) (lower k)) as [s|] eqn:E2.
    + right. apply usable_Some in E2 as [v [Hv Hacc]].
      apply lower_keys_get in Hv as [Hv|[k' [Hin Hk]]]; [discriminate|].
      exists k, k', v. repeat split; try apply Hacc; auto. now left.
    + destruct IH as [IH|[k0 [k' [v [H1 H2]]]]]; [now left|].
      right. exists k0, k', v. split; [now right | exact H2].
Qed.

(** An alias without an acceptable cell is passed over. *)
Lemma usable_none (row : dict cell) (k : string) :
  (forall k' v, In (k', v) row -> lower k' = lower k ->
                notna v = false \/ strip (str_of_cell v) = "") ->
  usable row k = None /\ usable (lower_keys row) (lower k) = None.
Proof.
  intros Hno. split.
  - destruct (usable row k) as [s|] eqn:E; [|reflexivity].
    apply usable_Some in E as [v [Hv [H1 [H2 _]]]].
    apply dict_get_In in Hv. destruct (Hno k v Hv eq_refl); congruence.
  - destruct (usable (lower_keys row) (lower k)) as [s|] eqn:E; [|reflexivity].
    apply usable_Some in E as [v [Hv [H1 [H2 _]]]].
    apply lower_keys_get in Hv as [Hv|[k' [Hin Hk]]]; [discriminate|].
    destruct (Hno k' v Hin Hk); congruence.
Qed.

(** X8.  On a row whose keys differ, with ASCII keys and aliases and with
    cells whose blanks are ASCII ones, [get_val] returns the default or the
    trimmed, non-blank text of a cell of the row that is not missing and
    whose key is one of the aliases up to case; and it returns the default
    when the row has no such cell. *)
Theorem get_val_default_or_cell (row : dict cell) (keys : list string) (d : string) :
  NoDup (List.map fst row) ->
  Forall (fun k => isascii k = true) keys ->
  Forall (fun kv => isascii (fst kv) = true /\
                    ascii_blanks (str_of_cell (snd kv)) = true) row ->
  (get_val row keys d = d \/
   exists k k' v,
     In k keys /\ In (k', v) row /\ lower k' = lower k /\
     notna v = true /\ strip (str_of_cell v) <> "" /\
     get_val row keys d = strip (str_of_cell v))
  /\ ((forall k k' v, In k keys -> In (k', v) row -> lower k' = lower k ->
                      notna v = false \/ strip (str_of_cell v) = "") ->
      get_val row keys d = d).
Proof.
  intros _ _ _. unfold get_val. split.
  - destruct (get_val_keys_cases row keys d) as [H|[k [k' [v [H1 [H2 [H3 [H4 [H5 H6]]]]]]]]].
    + now left.
    + right. exists k, k', v. repeat split; assumption.
  - intros Hno.
    destruct (get_val_keys_cases row keys d) as [H|[k [k' [v [H1 [H2 [H3 [H4 [H5 H6]]]]]]]]].
    + exact H.
    + destruct (Hno k k' v H1 H2 H3); congruence.
Qed.

Lemma get_val_default_or_cell_witness :
  get_val [("bizNm", CNaN); ("BIZNM", CStr " ")] ["bizNm"; "cntrctNm"] "0" = "0".
Proof.
  refine (proj2 (get_val_default_or_cell [("bizNm", CNaN); ("BIZNM", CStr " ")]
                   ["bizNm"; "cntrctNm"] "0" _ _ _) _).
  - repeat constructor; cbn [In]; intuition discriminate.
  - repeat constructor.
  - repeat constructor.
  - intros k k' v Hk [H|[H|[]]] _; injection H as <- <-; [now left | now right].
Defined.

(** X9.  In a row whose keys differ even when case is ignored, with ASCII
    keys and aliases and with cells whose blanks are ASCII ones, the first
    alias that has an acceptable cell under a key equal to it up to case
    decides: [get_val] returns the trimmed text of that cell. *)
Theorem get_val_first_alias_up_to_case
    (row : dict cell) (pre post : list string) (k k' : string) (v : cell) (d : string) :
  NoDup (List.map (fun kv => lower (fst kv)) row) ->
  Forall (fun a => isascii a = true) (pre ++ k :: post) ->
  Forall (fun kv => isascii (fst kv) = true /\
                    ascii_blanks (str_of_cell (snd kv)) = true) row ->
  (forall k0 k1 v1, In k0 pre -> In (k1, v1) row -> lower k1 = lower k0 ->
                    notna v1 = false \/ strip (str_of_cell v1) = "") ->
  In (k', v) row -> lower k' = lower k ->
  notna v = true -> strip (str_of_cell v) <> "" ->
  get_val row (pre ++ k :: post) d = strip (str_of_cell v).
Proof.
  intros Hnd _ _ Hpre Hin Hk Hn Hs. unfold get_val.
  induction pre as [|k0 pre IH]; cbn [app get_val_keys].
  - assert (Hlow : usable (lower_keys row) (lower k) = Some (strip (str_of_cell v))).
    { apply usable_Some. exists v. split; [|now repeat split].
      rewrite <- Hk. now apply lower_keys_unique. }
    destruct (usable row k) as [s|] eqn:E.
    + apply usable_Some in E as [v2 [Hv2 [_ [_ ->]]]].
      apply dict_get_In in Hv2.
      assert (Hget : dict_get row k' = Some v) by now apply (dict_get_unique lower).
      assert (Hget2 : dict_get (lower_keys row) (lower k) = Some v2)
        by now apply lower_keys_unique.
      assert (Hget3 : dict_get (lower_keys row) (lower k) = Some v)
        by (rewrite <- Hk; now apply lower_keys_unique).
      congruence.
    + now rewrite Hlow.
  - destruct (usable_none row k0) as [-> ->].
    + intros k1 v1. apply Hpre. now left.
    + apply IH. intros k1 k2 v2 H. apply Hpre. now right.
Qed.

Lemma get_val_first_alias_up_to_case_witness :
  get_val [("BSNSTYNM", CNaN); ("BZTYNM", CStr " 방사능 Survey ")]
          (["bsnsTyNm"] ++ "bztyNm" :: []) "" =
    strip (str_of_cell (CStr " 방사능 Survey ")).
Proof.
  apply (get_val_first_alias_up_to_case
           [("BSNSTYNM", CNaN); ("BZTYNM", CStr " 방사능 Survey ")]
           ["bsnsTyNm"] [] "bztyNm" "BZTYNM").
  - repeat constructor; simpl; intuition discriminate.
  - repeat constructor.
  - repeat constructor.
  - intros k0 k1 v1 [<-|[]] [H|[H|[]]]; injection H as <- <-; [now left | discriminate].
  - right. now left.
  - reflexivity.
  - reflexivity.
  - discriminate.
Defined.

End GetValSpec.

(** ** The exclusion filter as a function of its keyword list *)
Module ExclusionSpec.
Import Py PyFacts Frame Normalizer NormalizerSpec.

Lemma filter_true {A : Type} (l : list A) : filter (fun _ => true) l = l.
Proof. induction l as [|a l IH]; simpl; congruence. Qed.

Lemma filter_filter {A : Type} (f g : A -> bool) (l : list A) :
  filter g (filter f l) = filter (fun a => f a && g a) l.
Proof.
  induction l as [|a l IH]; simpl; [reflexivity|].
  destruct (f a); simpl; [destruct (g a)|]; now rewrite IH.
Qed.

Lemma keep_cell_app (k1 k2 : list string) (x : cell) :
  keep_cell (k1 ++ k2) x = keep_cell k1 x && keep_cell k2 x.
Proof. unfold keep_cell. now rewrite existsb_app, negb_orb. Qed.

(** With the target column in the table, the filter is a [filter] of the
    rows, whatever the table and the keywords. *)
Lemma apply_exclusion_filter_rows (df : DataFrame) (c : string) (kws : list string) (i : nat) :
  index_of c (columns df) = Some i ->
  apply_exclusion_filter df c kws =
    Ok {| columns := columns df;
          rows := filter (fun r => keep_cell kws (nth i r CNaN)) (rows df) |}.
Proof.
  intros Hc. unfold apply_exclusion_filter.
  destruct kws as [|kw kws].
  - rewrite orb_true_r. unfold keep_cell. simpl. rewrite filter_true. now destruct df.
  - rewrite orb_false_r. destruct (is_empty df) eqn:He.
    + destruct df as [cols rs]. unfold is_empty in He. simpl in *.
      destruct cols as [|c0 cols]; [discriminate|].
      destruct rs; [reflexivity | discriminate].
    + rewrite (column_at df c i Hc). simpl bind. unfold select. rewrite map_map.
      now rewrite (select_rows_map (fun r => keep_cell (kw :: kws) (nth i r CNaN))).
Qed.

(** X10.  Filtering by one keyword list and then by another is filtering
    once by both: the filter keeps no memory and the order of the keywords
    plays no part. *)
Theorem exclusion_filter_composes (df : DataFrame) (c : string) (k1 k2 : list string) (i : nat) :
  index_of c (columns df) = Some i ->
  bind (apply_exclusion_filter df c k1) (fun df1 => apply_exclusion_filter df1 c k2) =
    apply_exclusion_filter df c (k1 ++ k2)
  /\ apply_exclusion_filter df c (k1 ++ k2) = apply_exclusion_filter df c (k2 ++ k1).
Proof.
  intros Hc.
  rewrite (apply_exclusion_filter_rows df c k1 i Hc). cbn [bind].
  rewrite (apply_exclusion_filter_rows {| columns := columns df; rows := _ |} c k2 i Hc).
  cbn [columns rows].
  rewrite !(apply_exclusion_filter_rows df c _ i Hc).
  rewrite filter_filter. split; do 2 f_equal; apply filter_ext; intros r.
  - now rewrite keep_cell_app.
  - rewrite !keep_cell_app. apply andb_comm.
Qed.

Lemma exclusion_filter_composes_witness :
  bind (apply_exclusion_filter
          {| columns := ["title"]; rows := [[CStr "X-ray"]; [CStr "survey"]; [CStr "repair"]] |}
          "title" ["X-ray"])
       (fun df1 => apply_exclusion_filter df1 "title" ["repair"]) =
  apply_exclusion_filter
    {| columns := ["title"]; rows := [[CStr "X-ray"]; [CStr "survey"]; [CStr "repair"]] |}
    "title" (["X-ray"] ++ ["repair"]).
Proof.
  refine (proj1 (exclusion_filter_composes
            {| columns := ["title"]; rows := [[CStr "X-ray"]; [CStr "survey"]; [CStr "repair"]] |}
            "title" ["X-ray"] ["repair"] 0 _)).
  reflexivity.
Defined.

(** X11.  The filter raises exactly when it is given a keyword and a table
    with rows that lacks the target column, and then it is a KeyError; a
    table without rows or an empty keyword list is returned as it is,
    whatever the column. *)
Theorem exclusion_filter_raises_iff (df : DataFrame) (c : string) (kws : list string) :
  (forall e, apply_exclusion_filter df c kws = Raise e <->
             is_empty df = false /\ kws <> [] /\ has_column df c = false /\ e = KeyError)
  /\ (is_empty df = true \/ kws = [] -> apply_exclusion_filter df c kws = Ok df).
Proof.
  unfold apply_exclusion_filter, has_column, column. split.
  - intros e. destruct (is_empty df); cbn [orb].
    + split; [discriminate | intros [H _]; discriminate].
    + destruct kws as [|kw kws].
      * split; [discriminate | intros [_ [H _]]; congruence].
      * destruct (index_of c (columns df)); cbn [bind].
        -- split; [discriminate | intros [_ [_ [H _]]]; discriminate].
        -- split.
           ++ intros H. injection H as <-. repeat split. discriminate.
           ++ intros [_ [_ [_ ->]]]. reflexivity.
  - intros [->| ->]; [reflexivity|]. now rewrite orb_true_r.
Qed.

End ExclusionSpec.

(** ** The tables the processors build *)
Module TableSpec.
Import Py PyFacts Frame Normalizer NormalizerSpec OrderPlanSpec ExclusionSpec Processors Rowwise.

Lemma find_col_In (cols : list string) (tag c : string) :
  find_col cols tag = Some c -> In c cols /\ lower c = lower tag.
Proof.
  induction cols as [|c0 cols IH]; simpl; [discriminate|].
  destruct (String.eqb (lower c0) (lower tag)) eqn:E.
  - intros H. injection H as <-. apply String.eqb_eq in E. split; [now left | exact E].
  - intros H. destruct (IH H). split; [now right | assumption].
Qed.

Lemma find_col_None (cols : list string) (tag : string) :
  find_col cols tag = None <-> forall c, In c cols -> lower c <> lower tag.
Proof.
  induction cols as [|c0 cols IH]; simpl.
  - split; [intros _ c [] | reflexivity].
  - destruct (String.eqb (lower c0) (lower tag)) eqn:E.
    + apply String.eqb_eq in E. split; [discriminate|].
      intros H. exfalso. apply (H c0); [now left | exact E].
    + apply String.eqb_neq in E. rewrite IH. split.
      * intros H c [<-|Hc]; [exact E | now apply H].
      * intros H c Hc. apply H. now right.
Qed.

Lemma index_of_In (c : string) (cols : list string) :
  In c cols -> exists i, index_of c cols = Some i.
Proof.
  induction cols as [|c0 cols IH]; simpl; [easy|].
  intros H. destruct (String.eqb c c0) eqn:E; [now exists 0%nat|].
  destruct H as [->|H]; [now rewrite String.eqb_refl in E|].
  destruct (IH H) as [i ->]. now exists (S i).
Qed.

(** One turn of the loop over [col_map] does not raise. *)
Lemma copy_column_eq (money : list string) (df F : DataFrame) (tc : string * string) :
  copy_column money df F tc =
    Ok match find_col (columns df) (fst tc) with
       | Some c =>
           set_series F (snd tc)
             (List.map (fun r => convert money (fst tc) (cell_at (columns df) c r)) (rows df))
       | None => set_scalar F (snd tc) (default_cell money (fst tc))
       end.
Proof.
  unfold copy_column. destruct (find_col (columns df) (fst tc)) as [c|] eqn:E; [|reflexivity].
  destruct (find_col_In _ _ _ E) as [Hin _].
  destruct (index_of_In _ _ Hin) as [i Hi].
  unfold column, cell_at. rewrite Hi. cbn [bind]. now rewrite map_map.
Qed.

Lemma combine_map_map {A B C : Type} (f : A -> B) (g : A -> C) (l : list A) :
  combine (List.map f l) (List.map g l) = List.map (fun a => (f a, g a)) l.
Proof. induction l as [|a l IH]; simpl; congruence. Qed.

Lemma combine_map_map' {A B : Type} (f : A -> B) (l : list A) :
  combine (List.map f l) l = List.map (fun a => (f a, a)) l.
Proof. induction l as [|a l IH]; simpl; congruence. Qed.

Lemma repeat_snoc {A : Type} (a : A) (n : nat) : repeat a (S n) = repeat a n ++ [a].
Proof. induction n as [|n IH]; simpl in *; congruence. Qed.

(** The loop over [col_map], started from a frame whose rows are those of
    the input under [g] when [seen], and that has no row otherwise. *)
Lemma copy_columns_from (money : list string) (df : DataFrame) :
  rows df <> [] ->
  forall (cm : list (string * string)) (F : DataFrame) (seen : bool) (g : list cell -> list cell),
    rows F = (if seen then List.map g (rows df) else []) ->
    copy_columns money df F cm =
      Ok {| columns := columns F ++ List.map snd cm;
            rows :=
              if seen || any_found (columns df) cm
              then List.map (fun r => (if seen then g r
                                       else repeat CNaN (List.length (columns F))) ++
                                      build money (columns df) r seen cm) (rows df)
              else [] |}.
Proof.
  intros Hne. induction cm as [|tc cm IH]; intros F seen g HF.
  - cbn [copy_columns List.map any_found existsb build]. rewrite app_nil_r, orb_false_r.
    destruct F as [cols rs]. cbn [columns rows] in *. subst rs. f_equal. f_equal.
    destruct seen; [|reflexivity]. apply map_ext. intros r. now rewrite app_nil_r.
  - cbn [copy_columns]. rewrite copy_column_eq. cbn [bind].
    destruct (find_col (columns df) (fst tc)) as [c|] eqn:E.
    + set (h := fun r => convert money (fst tc) (cell_at (columns df) c r)).
      rewrite (IH _ true (fun r => (if seen then g r
                                    else repeat CNaN (List.length (columns F))) ++ [h r])).
      * cbn [set_series columns rows orb any_found existsb List.map build]. rewrite E.
        rewrite <- app_assoc, orb_true_r. cbn [app]. f_equal. f_equal.
        apply map_ext. intros r. now rewrite <- app_assoc.
      * cbn [set_series rows]. rewrite HF. destruct seen.
        -- destruct (rows df) as [|r0 rs0] eqn:Hd; [congruence|]. rewrite <- Hd.
           destruct (List.map g (rows df)) eqn:Hm.
           { rewrite Hd in Hm. discriminate. }
           rewrite <- Hm, combine_map_map, map_map. reflexivity.
        -- now rewrite map_map.
    + rewrite (IH _ seen (fun r => g r ++ [default_cell money (fst tc)])).
      * cbn [set_scalar columns rows any_found existsb List.map build]. rewrite E.
        rewrite <- app_assoc. cbn [app orb]. f_equal. f_equal.
        destruct seen; cbn [orb].
        -- apply map_ext. intros r. now rewrite <- app_assoc.
        -- fold (any_found (columns df) cm).
           destruct (any_found (columns df) cm); [|reflexivity].
           apply map_ext. intros r. rewrite length_app, Nat.add_comm. cbn [List.length Nat.add].
           rewrite repeat_snoc, <- app_assoc. reflexivity.
      * cbn [set_scalar rows]. rewrite HF. destruct seen; [|reflexivity].
        now rewrite map_map.
Qed.

Lemma not_empty_rows (df : DataFrame) : is_empty df = false -> rows df <> [].
Proof.
  unfold is_empty. destruct (columns df); [discriminate|].
  destruct (rows df); [discriminate | discriminate].
Qed.

(** X12.  The loop that fills the columns one by one builds the table row by
    row: the row of an input record holds, for every tag in the order of
    the map, the converted cell of the column whose name is the tag up to
    case; a tag without such a column gives its default ("" or 0), or a
    missing value when no tag before it was found; and there is no row at
    all when no tag is found. *)
Theorem copy_columns_rowwise (money : list string) (df : DataFrame)
    (col_map : list (string * string)) :
  is_empty df = false ->
  copy_columns money df new_frame col_map =
    Ok {| columns := List.map snd col_map;
          rows := if any_found (columns df) col_map
                  then List.map (fun r => build money (columns df) r false col_map) (rows df)
                  else [] |}.
Proof.
  intros He.
  rewrite (copy_columns_from money df (not_empty_rows df He) col_map new_frame false (fun r => r))
    by reflexivity.
  reflexivity.
Qed.

Lemma copy_columns_rowwise_witness :
  copy_columns prior_money
    {| columns := ["REFNO"; "asignBdgtAmt"]; rows := [[CStr "R-1"; CStr "1,000"]; [CNaN; CStr "x"]] |}
    new_frame [("bsnsDivNm", "업무구분"); ("refNo", "참조번호"); ("asignBdgtAmt", "배정예산액(원)");
               ("rcptDt", "공개일시")] =
  Ok {| columns := ["업무구분"; "참조번호"; "배정예산액(원)"; "공개일시"];
        rows := [[CNaN; CStr "R-1"; CInt 1000; CStr ""]; [CNaN; CStr ""; CInt 0; CStr ""]] |}.
Proof.
  apply (copy_columns_rowwise prior_money
           {| columns := ["REFNO"; "asignBdgtAmt"];
              rows := [[CStr "R-1"; CStr "1,000"]; [CNaN; CStr "x"]] |}
           [("bsnsDivNm", "업무구분"); ("refNo", "참조번호"); ("asignBdgtAmt", "배정예산액(원)");
            ("rcptDt", "공개일시")]).
  reflexivity.
Defined.

(** *** Sorting and numbering *)

Lemma key_le_total (asc : bool) (x y : cell) :
  key_le asc x y = false -> key_le asc y x = true.
Proof.
  destruct x as [a| a|], y as [b|b|]; cbn [key_le]; try easy.
  - destruct (String.leb_total a b) as [H|H]; destruct asc; congruence.
  - destruct asc; intros H; apply Z.leb_gt in H; apply Z.leb_le; lia.
Qed.

Lemma insert_sorted_sorted (le : cell -> cell -> bool) (kr : cell * list cell)
    (l : list (cell * list cell)) :
  (forall x y, le x y = false -> le y x = true) ->
  sorted_by le (List.map fst l) = true ->
  sorted_by le (List.map fst (insert_sorted le kr l)) = true.
Proof.
  intros Htot. induction l as [|kr1 l IH]; [reflexivity|].
  cbn [insert_sorted]. destruct (le (fst kr) (fst kr1)) eqn:E.
  - intros H. cbn [List.map sorted_by] in *. now rewrite E.
  - intros H. destruct l as [|kr2 l].
    + cbn [insert_sorted List.map sorted_by]. now rewrite (Htot _ _ E).
    + cbn [List.map sorted_by] in H. apply andb_true_iff in H as [H1 H2].
      specialize (IH H2). cbn [insert_sorted] in *.
      destruct (le (fst kr) (fst kr2)); cbn [List.map sorted_by] in *.
      * now rewrite (Htot _ _ E), IH.
      * now rewrite H1, IH.
Qed.

Lemma sort_keyed_sorted (le : cell -> cell -> bool) (l : list (cell * list cell)) :
  (forall x y, le x y = false -> le y x = true) ->
  sorted_by le (List.map fst (sort_keyed le l)) = true.
Proof.
  intros Htot. induction l as [|kr l IH]; [reflexivity|].
  cbn [sort_keyed]. now apply insert_sorted_sorted.
Qed.

Lemma length_insert_sorted (le : cell -> cell -> bool) (kr : cell * list cell)
    (l : list (cell * list cell)) :
  List.length (insert_sorted le kr l) = S (List.length l).
Proof.
  induction l as [|kr1 l IH]; [reflexivity|].
  cbn [insert_sorted]. destruct (le (fst kr) (fst kr1)); cbn [List.length]; congruence.
Qed.

Lemma length_sort_keyed (le : cell -> cell -> bool) (l : list (cell * list cell)) :
  List.length (sort_keyed le l) = List.length l.
Proof.
  induction l as [|kr l IH]; [reflexivity|].
  cbn [sort_keyed]. rewrite length_insert_sorted. cbn [List.length]. congruence.
Qed.

Lemma map_fst_combine {A B : Type} (l : list A) (l' : list B) :
  List.length l = List.length l' -> List.map fst (combine l l') = l.
Proof.
  revert l'. induction l as [|a l IH]; intros [|b l'] H; try discriminate; [reflexivity|].
  cbn [combine List.map fst]. f_equal. apply IH. now injection H.
Qed.

Lemma map_snd_combine {A B : Type} (l : list A) (l' : list B) :
  List.length l = List.length l' -> List.map snd (combine l l') = l'.
Proof.
  revert l'. induction l as [|a l IH]; intros [|b l'] H; try discriminate; [reflexivity|].
  cbn [combine List.map snd]. f_equal. apply IH. now injection H.
Qed.

(** A table that has been numbered. *)
Lemma insert_numbering_rows (df : DataFrame) (c : string) :
  List.length (rows (insert_numbering df c)) = List.length (rows df) /\
  List.map (fun r => nth 0 r CNaN) (rows (insert_numbering df c)) =
    List.map (fun i => CInt (i + 1)) (range (len (rows df))) /\
  List.map (@tl cell) (rows (insert_numbering df c)) = rows df.
Proof.
  assert (L : List.length (range (len (rows df))) = List.length (rows df)).
  { rewrite range_length. unfold len. lia. }
  unfold insert_numbering. cbn [rows]. rewrite !map_map. cbn [nth tl].
  repeat split.
  - now rewrite length_map, length_combine, L, Nat.min_id.
  - rewrite <- (map_map fst (fun i => CInt (i + 1))). now rewrite map_fst_combine.
  - change (fun x : Z * list cell => snd x) with (@snd Z (list cell)).
    now rewrite map_snd_combine.
Qed.

(** What the shared tail of the processors returns: a numbered table with
    the rows it was given, in the order of the sort key. *)
Lemma sort_and_number_eq (df out : DataFrame) (by_col : string) (asc : bool) :
  sort_and_number df by_col asc = Ok out ->
  exists rs,
    out = insert_numbering {| columns := columns df; rows := rs |} "No." /\
    List.length rs = List.length (rows df) /\
    (forall r, In r rs -> In r (rows df)) /\
    (forall j, index_of by_col (columns df) = Some j ->
               sorted_by (key_le asc) (List.map (fun r => nth j r CNaN) rs) = true).
Proof.
  unfold sort_and_number, has_column, sort_values, column.
  destruct (index_of by_col (columns df)) as [j|] eqn:Hj; cbn [bind].
  - set (keys := List.map (fun r => nth j r CNaN) (rows df)).
    destruct (existsb is_str keys && existsb is_int keys); [discriminate|].
    intros H. injection H as <-.
    exists (List.map snd (sort_keyed (key_le asc) (combine keys (rows df)))).
    repeat split.
    + rewrite length_map, length_sort_keyed, length_combine.
      unfold keys. rewrite length_map. apply Nat.min_id.
    + intros r Hr. apply in_map_iff in Hr as [[k r'] [<- Hr]].
      apply In_sort_keyed in Hr. now apply in_combine_r in Hr.
    + intros j' Hj'. injection Hj' as <-.
      rewrite map_map.
      rewrite (map_ext_in _ fst).
      * apply sort_keyed_sorted. apply key_le_total.
      * intros [k r] Hkr. apply In_sort_keyed in Hkr. cbn [snd fst].
        unfold keys in Hkr. rewrite combine_map_map' in Hkr.
        apply in_map_iff in Hkr as [r' [E _]]. now injection E as <- <-.
  - intros H. injection H as <-. exists (rows df).
    split; [now destruct df|]. split; [reflexivity|]. split; [auto | discriminate].
Qed.

(** *** The tail of each processor *)

Lemma exclude_step (F F' : DataFrame) (c : string) (kws : list string) :
  match kws with
  | [] => Ok F
  | _ :: _ => apply_exclusion_filter F c kws
  end = Ok F' ->
  columns F' = columns F /\ (forall r, In r (rows F') -> In r (rows F)).
Proof.
  intros H.
  assert (H' : apply_exclusion_filter F c kws = Ok F').
  { destruct kws; [|exact H]. unfold apply_exclusion_filter. now rewrite orb_true_r. }
  split; [|intros r; now apply (exclusion_filter_incl F F' c kws r)].
  clear H. unfold apply_exclusion_filter in H'.
  destruct (is_empty F || match kws with [] => true | _ => false end).
  - now injection H' as <-.
  - destruct (column F c); [|discriminate]. cbn [bind] in H'. now injection H' as <-.
Qed.

Lemma exclude_step_keep (F F' : DataFrame) (c : string) (kws : list string) (i : nat) :
  index_of c (columns F) = Some i ->
  match kws with
  | [] => Ok F
  | _ :: _ => apply_exclusion_filter F c kws
  end = Ok F' ->
  forall r, In r (rows F') -> keep_cell kws (nth i r CNaN) = true.
Proof.
  intros Hi H. destruct kws as [|kw kws]; [reflexivity|].
  rewrite (apply_exclusion_filter_rows F c (kw :: kws) i Hi) in H. injection H as <-.
  cbn [rows]. intros r Hr. now apply filter_In in Hr.
Qed.

Lemma finish_tail (F out : DataFrame) (title by_col : string) (kws : list string) (i : nat) :
  index_of title (columns F) = Some i ->
  finish F title by_col kws = Ok out ->
  exists F', sort_and_number F' by_col true = Ok out /\
             columns F' = columns F /\
             (forall r, In r (rows F') ->
                        In r (rows F) /\ str_strip_nonempty (nth i r CNaN) = true /\
                        keep_cell kws (nth i r CNaN) = true).
Proof.
  intros Hi. unfold finish. rewrite (column_at F title i Hi). cbn [bind]. rewrite map_map.
  set (F1 := select F _).
  destruct (match kws with [] => Ok F1 | _ :: _ => apply_exclusion_filter F1 title kws end)
    as [F2|e] eqn:E; [|discriminate].
  cbn [bind]. intros H. exists F2. split; [exact H|].
  destruct (exclude_step F1 F2 title kws E) as [Hc Hr].
  split; [exact Hc|]. intros r Hin.
  pose proof (exclude_step_keep F1 F2 title kws i Hi E r Hin) as Hkeep.
  specialize (Hr r Hin).
  unfold F1, select in Hr. cbn [rows] in Hr.
  rewrite (select_rows_map (fun r => str_strip_nonempty (nth i r CNaN))) in Hr.
  apply filter_In in Hr as [Hr1 Hr2]. now repeat split.
Qed.

Lemma copy_columns_new (money : list string) (df : DataFrame)
    (cm : list (string * string)) :
  is_empty df = false ->
  copy_columns money df new_frame cm =
    Ok {| columns := List.map snd cm; rows := built_rows money cm df |}.
Proof.
  intros He.
  rewrite (copy_columns_from money df (not_empty_rows df He) cm new_frame false (fun r => r))
    by reflexivity.
  reflexivity.
Qed.

Lemma process_prior_unfold (df : DataFrame) (kws : list string) :
  is_empty df = false ->
  process_prior_for_excel df kws =
    finish {| columns := List.map snd prior_col_map;
              rows := built_rows prior_money prior_col_map df |}
           "사업명(품명)" "공개일시" kws.
Proof.
  intros He. unfold process_prior_for_excel. rewrite He.
  rewrite (copy_columns_new prior_money df prior_col_map He).
  reflexivity.
Qed.

Lemma bid_money_columns (rs : list (list cell)) :
  column {| columns := List.map snd bid_col_map; rows := rs |} "배정예산(원)" =
    Ok (List.map (fun r => nth 17 r CNaN) rs) /\
  column {| columns := List.map snd bid_col_map; rows := rs |} "추정가격(원)" =
    Ok (List.map (fun r => nth 18 r CNaN) rs).
Proof. split; reflexivity. Qed.

Lemma process_bid_unfold (df : DataFrame) (kws : list string) :
  is_empty df = false ->
  process_bid_for_excel df kws =
    bind (mapM calc_min_bid_row
            (List.map (fun r => (nth 17 r CNaN, nth 18 r CNaN))
                      (built_rows bid_money bid_col_map df)))
      (fun mins =>
         finish (set_series {| columns := List.map snd bid_col_map;
                               rows := built_rows bid_money bid_col_map df |}
                            "예상 투찰하한가(원)" mins)
                "공고명" "게시일시" kws).
Proof.
  intros He. unfold process_bid_for_excel. rewrite He.
  rewrite (copy_columns_new bid_money df bid_col_map He).
  cbn [bind].
  generalize (built_rows bid_money bid_col_map df). intros rs.
  destruct (bid_money_columns rs) as [-> ->].
  cbn [bind]. rewrite combine_map_map. reflexivity.
Qed.

Lemma rd_copy_column_columns (df F : DataFrame) (tc : string * string) :
  columns (rd_copy_column df F tc) = columns F ++ [snd tc].
Proof. unfold rd_copy_column. now destruct (column df (fst tc)). Qed.

(** Every processor ends with [sort_and_number] on a table with the columns
    of its source, whose rows have passed the exclusion filter and, for the
    R&D notices, the keyword filter. *)
Lemma process_tail (s : source) (df out : DataFrame) (iks kws : list string) :
  is_empty df = false ->
  process s df iks kws = Ok out ->
  exists F, sort_and_number F (sort_column s) (sort_ascending s) = Ok out /\
            columns F = headers s /\
            forall r, In r (rows F) ->
              keep_cell kws (nth (pred (title_column s)) r CNaN) = true /\
              (s = RdNotice -> iks <> [] ->
               existsb (fun k => contains k (str_of_cell (nth 0 r CNaN))) iks = true).
Proof.
  intros He. destruct s; cbn [process sort_column sort_ascending headers title_column pred].
  - unfold process_order_for_excel. rewrite He.
    destruct (mapM order_amount _) as [amounts|e]; [|discriminate]. cbn [bind].
    match goal with |- context [column ?F "사업명"] =>
      rewrite (column_at F "사업명" 3) by reflexivity end.
    cbn [bind]. set (F8 := select _ _).
    destruct (match kws with [] => Ok F8 | _ :: _ => apply_exclusion_filter F8 "사업명" kws end)
      as [F9|e] eqn:E; [|discriminate].
    cbn [bind]. intros H. exists F9. split; [exact H|].
    split; [now destruct (exclude_step F8 F9 _ kws E) as [-> _]|].
    intros r Hr. split; [|discriminate].
    exact (exclude_step_keep F8 F9 "사업명" kws 3 eq_refl E r Hr).
  - rewrite (process_prior_unfold df kws He). intros H.
    destruct (finish_tail {| columns := List.map snd prior_col_map; rows := built_rows prior_money prior_col_map df |}
                out "사업명(품명)" "공개일시" kws 2 eq_refl H) as [F' [H1 [H2 H3]]].
    exists F'. split; [exact H1|]. split; [exact H2|].
    intros r Hr. split; [apply (H3 r Hr) | discriminate].
  - rewrite (process_bid_unfold df kws He).
    destruct (mapM calc_min_bid_row _) as [mins|e]; [|discriminate]. cbn [bind].
    intros H.
    destruct (finish_tail (set_series {| columns := List.map snd bid_col_map; rows := built_rows bid_money bid_col_map df |} "예상 투찰하한가(원)" mins)
                out "공고명" "게시일시" kws 3 eq_refl H) as [F' [H1 [H2 H3]]].
    exists F'. split; [exact H1|]. split; [exact H2|].
    intros r Hr. split; [apply (H3 r Hr) | discriminate].
  - unfold process_rd_for_excel. rewrite He.
    set (F := fold_left (rd_copy_column df) rd_col_map new_frame).
    assert (HF : columns F = List.map snd rd_col_map).
    { unfold F. cbn [fold_left rd_col_map]. now rewrite !rd_copy_column_columns. }
    assert (Hi : index_of "과제공고명" (columns F) = Some 0%nat) by now rewrite HF.
    rewrite (column_at F "과제공고명" 0 Hi). cbn [bind]. rewrite map_map.
    destruct (match iks with
              | [] => Ok F
              | _ :: _ =>
                  Ok (select F (List.map
                        (fun r => existsb (fun k => contains k (str_of_cell (nth 0 r CNaN))) iks)
                        (rows F)))
              end) as [F1|e] eqn:E1; [|discriminate].
    cbn [bind].
    assert (HF1 : columns F1 = columns F /\
                  forall r, In r (rows F1) -> iks <> [] ->
                    existsb (fun k => contains k (str_of_cell (nth 0 r CNaN))) iks = true).
    { destruct iks as [|k0 iks']; [injection E1 as <-; now split|].
      injection E1 as <-. split; [reflexivity|]. intros r Hr _.
      unfold select in Hr. cbn [rows] in Hr.
      rewrite (select_rows_map
                 (fun r => existsb (fun k => contains k (str_of_cell (nth 0 r CNaN))) (k0 :: iks')))
        in Hr.
      now apply filter_In in Hr. }
    destruct HF1 as [HF1 Hincl].
    destruct (match kws with [] => Ok F1 | _ :: _ => apply_exclusion_filter F1 "과제공고명" kws end)
      as [F2|e] eqn:E2; [|discriminate].
    cbn [bind]. intros H. exists F2. split; [exact H|].
    destruct (exclude_step F1 F2 _ kws E2) as [Hc2 Hr2].
    split; [congruence|]. intros r Hr. split.
    + apply (exclude_step_keep F1 F2 "과제공고명" kws 0); [congruence | exact E2 | exact Hr].
    + intros _. apply Hincl. now apply Hr2.
Qed.

Lemma sort_column_index (s : source) :
  index_of (sort_column s) (headers s) = Some (pred (sort_key s)).
Proof. destruct s; reflexivity. Qed.

(** X13.  Whatever the source, the first cell of the k-th row of the table
    a processor returns is the number k: the numbering starts at 1 and has
    no gap, after filtering and sorting. *)
Theorem rows_are_numbered (s : source) (df out : DataFrame) (iks kws : list string) :
  process s df iks kws = Ok out ->
  List.map (fun r => nth 0 r CNaN) (rows out) =
    List.map (fun i => CInt (i + 1)) (range (len (rows out))).
Proof.
  intros H. destruct (is_empty df) eqn:He.
  - assert (out = new_frame) as ->; [|reflexivity].
    destruct s; cbn [process] in H;
      unfold process_order_for_excel, process_prior_for_excel, process_bid_for_excel,
             process_rd_for_excel in H;
      rewrite He in H; now injection H as <-.
  - destruct (process_tail s df out iks kws He H) as [F [HF _]].
    destruct (sort_and_number_eq F out _ _ HF) as [rs [-> _]].
    destruct (insert_numbering_rows {| columns := columns F; rows := rs |} "No.")
      as [L [N _]].
    rewrite N. unfold len. now rewrite L.
Qed.

Lemma rows_are_numbered_witness :
  List.map (fun r => nth 0 r CNaN)
    [[CInt 1; CStr "B"; CStr "MSIT"; CStr "2026-01-03"; CStr ""];
     [CInt 2; CStr "A"; CStr "MSIT"; CStr "2026-01-02"; CStr ""]] =
  List.map (fun i => CInt (i + 1)) (range 2).
Proof.
  apply (rows_are_numbered RdNotice
           (frame_of_raw [[("subject", "A"); ("deptName", "MSIT"); ("regDate", "2026-01-02")];
                          [("subject", "B"); ("deptName", "MSIT"); ("regDate", "2026-01-03")]])
           {| columns := ["No."; "과제공고명"; "공고기관"; "공고일자"; "공고링크(URL)"];
              rows := [[CInt 1; CStr "B"; CStr "MSIT"; CStr "2026-01-03"; CStr ""];
                       [CInt 2; CStr "A"; CStr "MSIT"; CStr "2026-01-02"; CStr ""]] |}
           [] []).
  vm_compute. reflexivity.
Defined.

(** X14.  The three procurement processors return, for any table that is
    not empty, the same columns whatever the columns and the rows of the
    input: the number, then the columns of the source in the order of its
    map (and the expected minimum bid at the end of a bid notice). *)
Theorem output_columns_fixed (s : source) (df out : DataFrame) (iks kws : list string) :
  s <> RdNotice -> is_empty df = false ->
  process s df iks kws = Ok out ->
  columns out = "No." :: headers s.
Proof.
  intros _ He H.
  destruct (process_tail s df out iks kws He H) as [F [HF [Hc _]]].
  destruct (sort_and_number_eq F out _ _ HF) as [rs [-> _]].
  cbn [insert_numbering columns]. now rewrite Hc.
Qed.

Lemma output_columns_fixed_witness :
  columns {| columns := "No." :: headers PriorSpec; rows := [] |} = "No." :: headers PriorSpec.
Proof.
  apply (output_columns_fixed PriorSpec (frame_of_raw [[("x", "1")]])
           {| columns := "No." :: headers PriorSpec; rows := [] |} [] []).
  - discriminate.
  - reflexivity.
  - vm_compute. reflexivity.
Defined.

(** X15.  The rows a processor returns are in the order of its sort key:
    ascending order time for the order plans, ascending opening time for
    the prior specifications, ascending posting time for the bid notices,
    descending notice date for the R&D notices; missing keys come last. *)
Theorem rows_are_sorted (s : source) (df out : DataFrame) (iks kws : list string) :
  process s df iks kws = Ok out ->
  sorted_by (key_le (sort_ascending s))
            (List.map (fun r => nth (sort_key s) r CNaN) (rows out)) = true.
Proof.
  intros H. destruct (is_empty df) eqn:He.
  - assert (out = new_frame) as ->; [|reflexivity].
    destruct s; cbn [process] in H;
      unfold process_order_for_excel, process_prior_for_excel, process_bid_for_excel,
             process_rd_for_excel in H;
      rewrite He in H; now injection H as <-.
  - destruct (process_tail s df out iks kws He H) as [F [HF [Hc _]]].
    destruct (sort_and_number_eq F out _ _ HF) as [rs [-> [_ [_ Hs]]]].
    pose proof (sort_column_index s) as Hi. rewrite <- Hc in Hi.
    specialize (Hs _ Hi).
    destruct (insert_numbering_rows {| columns := columns F; rows := rs |} "No.")
      as [_ [_ T]].
    cbn [rows] in T. rewrite <- T in Hs at 1. rewrite map_map in Hs.
    erewrite map_ext_in; [exact Hs|].
    intros r Hr. cbn beta.
    assert (Hpos : sort_key s = S (pred (sort_key s))) by (destruct s; reflexivity).
    rewrite Hpos.
    unfold insert_numbering in Hr. cbn [rows] in Hr.
    apply in_map_iff in Hr as [[n r0] [<- _]]. reflexivity.
Qed.

Lemma rows_are_sorted_witness :
  sorted_by (key_le (sort_ascending RdNotice))
    (List.map (fun r => nth (sort_key RdNotice) r CNaN)
       [[CInt 1; CStr "B"; CStr "MSIT"; CStr "2026-01-03"; CStr ""];
        [CInt 2; CStr "A"; CStr "MSIT"; CStr "2026-01-02"; CStr ""]]) = true.
Proof.
  apply (rows_are_sorted RdNotice
           (frame_of_raw [[("subject", "A"); ("deptName", "MSIT"); ("regDate", "2026-01-02")];
                          [("subject", "B"); ("deptName", "MSIT"); ("regDate", "2026-01-03")]])
           {| columns := ["No."; "과제공고명"; "공고기관"; "공고일자"; "공고링크(URL)"];
              rows := [[CInt 1; CStr "B"; CStr "MSIT"; CStr "2026-01-03"; CStr ""];
                       [CInt 2; CStr "A"; CStr "MSIT"; CStr "2026-01-02"; CStr ""]] |}
           [] []).
  vm_compute. reflexivity.
Defined.

(** X16.  No row a processor returns has a title that contains an
    exclusion keyword: whatever the source, the rows that pass the
    exclusion filter are the ones that are sorted and numbered. *)
Theorem excluded_titles_absent (s : source) (df out : DataFrame) (iks kws : list string) :
  process s df iks kws = Ok out ->
  forall row k, In row (rows out) -> In k kws ->
    ~ Substring k (str_of_cell (nth (title_column s) row CNaN)).
Proof.
  intros H row k Hrow Hk Hsub.
  destruct (is_empty df) eqn:He.
  { assert (out = new_frame) as ->; [|destruct Hrow].
    destruct s; cbn [process] in H;
      unfold process_order_for_excel, process_prior_for_excel, process_bid_for_excel,
             process_rd_for_excel in H;
      rewrite He in H; now injection H as <-. }
  destruct (process_tail s df out iks kws He H) as [F [HF [_ Hkeep]]].
  destruct (sort_and_number_rows _ _ _ _ row HF Hrow) as [n [r0 [-> Hr0]]].
  destruct (Hkeep r0 Hr0) as [Hk0 _].
  assert (E : title_column s = S (pred (title_column s))) by (destruct s; reflexivity).
  rewrite E in Hsub. cbn [nth] in Hsub.
  assert (Hf : keep_cell kws (nth (pred (title_column s)) r0 CNaN) = false).
  { apply keep_cell_false_iff. now exists k. }
  congruence.
Qed.

Lemma excluded_titles_absent_witness :
  ~ Substring "X-ray"
      (str_of_cell (nth (title_column RdNotice)
                        [CInt 1; CStr "x-ray call"; CStr ""; CStr ""; CStr ""] CNaN)).
Proof.
  refine (excluded_titles_absent RdNotice
            (frame_of_raw [[("subject", "X-ray call")]; [("subject", "x-ray call")]])
            {| columns := "No." :: headers RdNotice;
               rows := [[CInt 1; CStr "x-ray call"; CStr ""; CStr ""; CStr ""]] |}
            [] ["X-ray"] _ _ "X-ray" _ _).
  - vm_compute. reflexivity.
  - now left.
  - now left.
Defined.

(** X17.  With inclusion keywords given, every row the R&D processor
    returns has a title that contains one of them. *)
Theorem rd_rows_match_keyword (df out : DataFrame) (iks kws : list string) :
  iks <> [] ->
  process_rd_for_excel df iks kws = Ok out ->
  forall row, In row (rows out) ->
    exists k, In k iks /\ Substring k (str_of_cell (nth 1 row CNaN)).
Proof.
  intros Hiks H row Hrow.
  destruct (is_empty df) eqn:He.
  { unfold process_rd_for_excel in H. rewrite He in H. injection H as <-. destruct Hrow. }
  destruct (process_tail RdNotice df out iks kws He H) as [F [HF [_ Hkeep]]].
  destruct (sort_and_number_rows _ _ _ _ row HF Hrow) as [n [r0 [-> Hr0]]].
  destruct (Hkeep r0 Hr0) as [_ Hin]. specialize (Hin eq_refl Hiks).
  apply existsb_exists in Hin as [k [Hk Hc]].
  exists k. split; [exact Hk|]. cbn [nth]. now apply contains_iff.
Qed.

Lemma rd_rows_match_keyword_witness :
  exists k, In k ["survey"] /\
            Substring k (str_of_cell (nth 1 [CInt 1; CStr "A survey"; CStr ""; CStr ""; CStr ""]
                                          CNaN)).
Proof.
  refine (rd_rows_match_keyword
            (frame_of_raw [[("subject", "A survey")]; [("subject", "A repair")]])
            {| columns := "No." :: headers RdNotice;
               rows := [[CInt 1; CStr "A survey"; CStr ""; CStr ""; CStr ""]] |}
            ["survey"] [] _ _ _ _).
  - discriminate.
  - vm_compute. reflexivity.
  - now left.
Defined.

(** *** The rows of the prior-specification and bid-notice tables *)

Lemma build_length (money cols : list string) (r : list cell) (cm : list (string * string)) :
  forall seen, List.length (build money cols r seen cm) = List.length cm.
Proof.
  induction cm as [|tc cm IH]; intros seen; [reflexivity|].
  cbn [build]. destruct (find_col cols (fst tc)); cbn [List.length]; now rewrite IH.
Qed.

(** The cell a tag gives to a row. *)
Lemma build_nth_error (money cols : list string) (r : list cell) (cm : list (string * string)) :
  forall (seen : bool) (j : nat) (tc : string * string),
    nth_error cm j = Some tc ->
    nth_error (build money cols r seen cm) j =
      Some match find_col cols (fst tc) with
           | Some c => convert money (fst tc) (cell_at cols c r)
           | None => if seen || any_found cols (firstn j cm)
                     then default_cell money (fst tc) else CNaN
           end.
Proof.
  induction cm as [|tc0 cm IH]; intros seen j tc; [destruct j; discriminate|].
  destruct j as [|j]; cbn [nth_error build firstn].
  - intros H. injection H as ->. unfold any_found. cbn [existsb]. rewrite orb_false_r.
    now destruct (find_col cols (fst tc)).
  - intros H. unfold any_found. cbn [existsb]. fold (any_found cols (firstn j cm)).
    destruct (find_col cols (fst tc0)); cbn [nth_error].
    + rewrite (IH true j tc H). cbn [orb]. now rewrite orb_true_r.
    + rewrite (IH seen j tc H). reflexivity.
Qed.

Lemma built_rows_In (money : list string) (cm : list (string * string)) (df : DataFrame)
    (r' : list cell) :
  In r' (built_rows money cm df) ->
  exists r, In r (rows df) /\ r' = build money (columns df) r false cm.
Proof.
  unfold built_rows. destruct (any_found (columns df) cm); [|easy].
  intros H. apply in_map_iff in H as [r [<- Hr]]. now exists r.
Qed.

Lemma raw_cell_at (df : DataFrame) (c : string) (r : list cell) :
  raw_frame df -> In r (rows df) -> is_int (cell_at (columns df) c r) = false.
Proof.
  intros [_ Hraw] Hr. rewrite Forall_forall in Hraw.
  specialize (Hraw r Hr). rewrite Forall_forall in Hraw.
  unfold cell_at. destruct (index_of c (columns df)) as [i|]; [|reflexivity].
  destruct (nth_in_or_default i r CNaN) as [H| ->]; [now apply Hraw | reflexivity].
Qed.

(** The cell of a tag that is not a money tag, in a row built from a table
    of texts and missing values, is no [int]; it is a [str] when the tag is
    found. *)
Lemma built_text_cell (money : list string) (cm : list (string * string)) (df : DataFrame)
    (j : nat) (tc : string * string) (r' : list cell) :
  raw_frame df ->
  nth_error cm j = Some tc -> existsb (String.eqb (fst tc)) money = false ->
  In r' (built_rows money cm df) ->
  exists x, nth_error r' j = Some x /\ is_int x = false /\
            (find_col (columns df) (fst tc) <> None -> is_str_cell x).
Proof.
  intros Hraw Hj Hm Hin.
  destruct (built_rows_In _ _ _ _ Hin) as [r [Hr ->]].
  rewrite (build_nth_error _ _ _ _ _ _ _ Hj). eexists. split; [reflexivity|].
  unfold convert, default_cell. rewrite Hm.
  destruct (find_col (columns df) (fst tc)) as [c|].
  - pose proof (raw_cell_at df c r Hraw Hr) as Hc.
    destruct (cell_at (columns df) c r) as [t|z|]; cbn [fillna is_int] in *.
    + split; [reflexivity|]. intros _. now exists t.
    + discriminate.
    + split; [reflexivity|]. intros _. now exists "".
  - split; [now destruct (false || _)|]. congruence.
Qed.

Lemma mapM_Forall2 {A B : Type} (f : A -> result B) (l : list A) (bs : list B) :
  mapM f l = Ok bs -> Forall2 (fun a b => f a = Ok b) l bs.
Proof.
  revert bs. induction l as [|a l IH]; intros bs; cbn [mapM].
  - intros H. injection H as <-. constructor.
  - destruct (f a) as [b|e] eqn:E; [|discriminate]. cbn [bind].
    destruct (mapM f l) as [bs'|e]; [|discriminate]. cbn [bind].
    intros H. injection H as <-. constructor; [exact E | now apply IH].
Qed.

Lemma Forall2_combine_In {A B C : Type} (R : C -> B -> Prop) (g : A -> C)
    (l : list A) (bs : list B) (a : A) (b : B) :
  Forall2 R (List.map g l) bs -> In (a, b) (combine l bs) -> R (g a) b.
Proof.
  revert bs. induction l as [|a0 l IH]; intros bs H; [easy|].
  inversion H as [|? b0 ? bs' HR Hrest]; subst. cbn [combine].
  intros [E|Hin]; [injection E as <- <-; exact HR | now apply (IH bs')].
Qed.

(** The rows of the bid-notice table once the minimum bid is set: a built
    row followed by the value computed from its own budget and estimate. *)
Lemma bid_rows (df : DataFrame) (mins : list cell) (row : list cell) :
  mapM calc_min_bid_row
       (List.map (fun r => (nth 17 r CNaN, nth 18 r CNaN))
                 (built_rows bid_money bid_col_map df)) = Ok mins ->
  In row (rows (set_series {| columns := List.map snd bid_col_map;
                              rows := built_rows bid_money bid_col_map df |}
                           "예상 투찰하한가(원)" mins)) ->
  exists r m, row = r ++ [m] /\ In r (built_rows bid_money bid_col_map df) /\
              calc_min_bid_row (nth 17 r CNaN, nth 18 r CNaN) = Ok m.
Proof.
  intros Hm. pose proof (mapM_Forall2 _ _ _ Hm) as HF.
  unfold set_series. cbn [rows columns].
  destruct (built_rows bid_money bid_col_map df) as [|r0 rs0] eqn:Hb.
  - inversion HF; subst. intros [].
  - rewrite <- Hb in *. intros H. apply in_map_iff in H as [[r m] [<- Hin]].
    exists r, m. cbn [fst snd]. split; [reflexivity|]. split.
    + now apply in_combine_l in Hin.
    + exact (Forall2_combine_In _ (fun r => (nth 17 r CNaN, nth 18 r CNaN)) _ _ _ _ HF Hin).
Qed.

Lemma built_row_length (money : list string) (cm : list (string * string)) (df : DataFrame)
    (r : list cell) :
  In r (built_rows money cm df) -> List.length r = List.length cm.
Proof.
  intros H. destruct (built_rows_In _ _ _ _ H) as [r0 [_ ->]]. apply build_length.
Qed.

(** A row that passed the row-validity filter with a [str] as its title
    has a non-blank title, one place further once it is numbered. *)
Lemma kept_title_nonblank (i : nat) (r0 : list cell) (x : cell) (n : Z) :
  nth_error r0 i = Some x -> is_str_cell x ->
  str_strip_nonempty (nth i r0 CNaN) = true ->
  has_cell (S i) nonblank (CInt n :: r0).
Proof.
  intros Hx [t ->] Hk. exists (CStr t). split; [exact Hx|].
  exists t. split; [reflexivity|].
  rewrite (nth_error_nth _ _ _ Hx) in Hk. cbn [str_strip_nonempty] in Hk.
  apply negb_true_iff in Hk. now apply String.eqb_neq in Hk.
Qed.

Lemma find_col_found (cols : list string) (tag : string) :
  (exists c, In c cols /\ lower c = lower tag) -> find_col cols tag <> None.
Proof.
  intros [c [Hin Hc]] H. rewrite find_col_None in H. now apply (H c).
Qed.

(** X18.  Every row the three procurement processors return has its
    title, a non-blank [str], in its place: the records without a title
    are dropped, and the exclusion filter and the sort keep the rows
    whole.  For the prior specifications and the bid notices this holds
    when the table of parsed records has a column whose name is the title
    tag up to case. *)
Theorem rows_have_title (s : source) (df out : DataFrame) (iks kws : list string) :
  s <> RdNotice ->
  raw_frame df ->
  (s = OrderPlan \/ exists c, In c (columns df) /\ lower c = lower (title_tag s)) ->
  process s df iks kws = Ok out ->
  Forall (has_cell (title_column s) nonblank) (rows out).
Proof.
  intros Hs Hraw Htag H.
  destruct s; [exact (order_rows_have_title df out kws H) | | | congruence];
    (destruct Htag as [Htag|Htag]; [discriminate|]);
    apply find_col_found in Htag; cbn [process title_column title_tag] in *.
  - destruct (is_empty df) eqn:He.
    { unfold process_prior_for_excel in H. rewrite He in H. injection H as <-. constructor. }
    rewrite (process_prior_unfold df kws He) in H.
    destruct (finish_tail {| columns := List.map snd prior_col_map; rows := built_rows prior_money prior_col_map df |}
                out "사업명(품명)" "공개일시" kws 2 eq_refl H) as [F' [H1 [_ H3]]].
    apply Forall_forall. intros r Hr.
    destruct (sort_and_number_rows _ _ _ _ r H1 Hr) as [n [r0 [-> Hr0]]].
    destruct (H3 r0 Hr0) as [Hin [Hk _]]. cbn [rows] in Hin.
    destruct (built_text_cell prior_money prior_col_map df 2 ("prdctClsfcNoNm", "사업명(품명)")
                r0 Hraw eq_refl eq_refl Hin) as [x [Hx [_ Hstr]]].
    exact (kept_title_nonblank 2 r0 x n Hx (Hstr Htag) Hk).
  - destruct (is_empty df) eqn:He.
    { unfold process_bid_for_excel in H. rewrite He in H. injection H as <-. constructor. }
    rewrite (process_bid_unfold df kws He) in H.
    destruct (mapM calc_min_bid_row _) as [mins|e] eqn:Hm; [|discriminate].
    cbn [bind] in H.
    destruct (finish_tail (set_series {| columns := List.map snd bid_col_map; rows := built_rows bid_money bid_col_map df |} "예상 투찰하한가(원)" mins)
                out "공고명" "게시일시" kws 3 eq_refl H) as [F' [H1 [_ H3]]].
    apply Forall_forall. intros r Hr.
    destruct (sort_and_number_rows _ _ _ _ r H1 Hr) as [n [r0 [-> Hr0]]].
    destruct (H3 r0 Hr0) as [Hin [Hk _]].
    destruct (bid_rows df mins r0 Hm Hin) as [r [m [-> [Hr' _]]]].
    destruct (built_text_cell bid_money bid_col_map df 3 ("bidNtceNm", "공고명")
                r Hraw eq_refl eq_refl Hr') as [x [Hx [_ Hstr]]].
    assert (Hx' : nth_error (r ++ [m]) 3 = Some x).
    { rewrite nth_error_app1; [exact Hx|]. apply nth_error_Some. congruence. }
    exact (kept_title_nonblank 3 _ x n Hx' (Hstr Htag) Hk).
Qed.

Lemma rows_have_title_witness :
  Forall (has_cell (title_column PriorSpec) nonblank)
    (rows {| columns := "No." :: headers PriorSpec;
             rows := [[CInt 1; CStr ""; CStr ""; CStr "Survey"; CStr ""; CStr ""; CInt 0;
                       CStr ""; CStr ""; CStr ""; CStr ""; CStr ""; CStr ""; CStr "";
                       CStr ""; CStr ""; CStr ""; CStr ""; CStr ""]] |}).
Proof.
  apply (rows_have_title PriorSpec
           {| columns := ["bsnsDivNm"; "PRDCTCLSFCNONM"];
              rows := [[CStr ""; CStr "Survey"]; [CStr ""; CStr " "]; [CStr ""; CNaN]] |}
           _ [] []).
  - discriminate.
  - repeat constructor; cbn [In]; intuition discriminate.
  - right. exists "PRDCTCLSFCNONM". split; [right; now left | reflexivity].
  - vm_compute. reflexivity.
Defined.

(** The shared part after the columns does not raise when the title and the
    sort column are there and the sort keys hold no [int]. *)
Lemma finish_ok (F : DataFrame) (title by_col : string) (kws : list string) (i j : nat) :
  index_of title (columns F) = Some i ->
  index_of by_col (columns F) = Some j ->
  (forall r, In r (rows F) -> is_int (nth j r CNaN) = false) ->
  exists out, finish F title by_col kws = Ok out.
Proof.
  intros Hi Hj Hint. unfold finish. rewrite (column_at F title i Hi). cbn [bind].
  rewrite map_map. set (F1 := select F _).
  assert (H1 : forall r, In r (rows F1) -> In r (rows F)).
  { intros r. unfold F1, select. cbn [rows]. apply select_rows_incl. }
  assert (E : exists F2, match kws with
                         | [] => Ok F1
                         | _ :: _ => apply_exclusion_filter F1 title kws
                         end = Ok F2 /\ columns F2 = columns F /\
                         forall r, In r (rows F2) -> In r (rows F)).
  { destruct kws as [|kw kws'].
    - exists F1. repeat split; auto.
    - rewrite (apply_exclusion_filter_rows F1 title (kw :: kws') i Hi).
      eexists. split; [reflexivity|]. split; [reflexivity|].
      cbn [rows]. intros r Hr. apply filter_In in Hr as [Hr _]. now apply H1. }
  destruct E as [F2 [-> [Hc Hr]]]. cbn [bind].
  unfold sort_and_number, has_column, sort_values, column. rewrite Hc, Hj. cbn [bind].
  assert (Hk : existsb is_int (List.map (fun r => nth j r CNaN) (rows F2)) = false).
  { apply not_true_is_false. intros Hex. apply existsb_exists in Hex as [x [Hx Hi']].
    apply in_map_iff in Hx as [r [<- Hin]]. rewrite (Hint r (Hr r Hin)) in Hi'. discriminate. }
  rewrite Hk, andb_false_r. eexists. reflexivity.
Qed.

(** X19.  On a table of parsed records the prior-specification processor
    always returns a table: no column it needs can be missing, no text of
    a budget can make it fail, and its sort never compares a text with a
    number. *)
Theorem prior_never_raises (df : DataFrame) (kws : list string) :
  raw_frame df -> exists out, process_prior_for_excel df kws = Ok out.
Proof.
  intros Hraw. destruct (is_empty df) eqn:He.
  - unfold process_prior_for_excel. rewrite He. now eexists.
  - rewrite (process_prior_unfold df kws He).
    apply (finish_ok {| columns := List.map snd prior_col_map; rows := built_rows prior_money prior_col_map df |}
             "사업명(품명)" "공개일시" kws 2 6); [reflexivity | reflexivity |].
    cbn [rows]. intros r Hr.
    destruct (built_text_cell prior_money prior_col_map df 6 ("rcptDt", "공개일시")
                r Hraw eq_refl eq_refl Hr) as [x [Hx [Hint _]]].
    now rewrite (nth_error_nth _ _ _ Hx).
Qed.

Lemma add_keys_NoDup (r : dict string) :
  forall cols, NoDup cols -> NoDup (add_keys cols r).
Proof.
  unfold add_keys. induction r as [|[k v] r IH]; intros cols H; [exact H|].
  cbn [fold_left fst]. apply IH.
  destruct (existsb (String.eqb k) cols) eqn:E; [exact H|].
  apply NoDup_app; [exact H | repeat constructor; easy |].
  intros x Hx [->|[]].
  assert (existsb (String.eqb x) cols = true); [|congruence].
  apply existsb_exists. exists x. split; [exact Hx | apply String.eqb_refl].
Qed.

Lemma drop_duplicate_rows_incl (rs : list (list cell)) :
  forall seen r, In r (drop_duplicate_rows seen rs) -> In r rs.
Proof.
  induction rs as [|r0 rs IH]; intros seen r; [easy|].
  cbn [drop_duplicate_rows]. destruct (existsb (row_eqb r0) seen).
  - intros H. right. exact (IH _ _ H).
  - intros [->|H]; [now left | right; exact (IH _ _ H)].
Qed.

(** The table the main script makes of the fetched records is one. *)
Lemma frame_of_raw_is_raw (all_raw : list (dict string)) : raw_frame (frame_of_raw all_raw).
Proof.
  unfold raw_frame, well_formed, frame_of_raw, drop_duplicates, from_records.
  cbn [rows columns].
  set (cols := fold_left add_keys all_raw []).
  split; [split|].
  - unfold cols. generalize (NoDup_nil string). generalize (@nil string).
    induction all_raw as [|r rs IH]; intros cs H; [exact H|].
    cbn [fold_left]. apply IH. now apply add_keys_NoDup.
  - apply Forall_forall. intros r Hr. apply drop_duplicate_rows_incl in Hr.
    apply in_map_iff in Hr as [r0 [<- _]]. apply length_map.
  - apply Forall_forall. intros r Hr. apply drop_duplicate_rows_incl in Hr.
    apply in_map_iff in Hr as [r0 [<- _]].
    apply Forall_map_intro. intros c. now destruct (dict_get r0 c).
Qed.

Lemma prior_never_raises_witness :
  exists out, process_prior_for_excel
                (frame_of_raw [[("prdctClsfcNoNm", "Survey"); ("asignBdgtAmt", "abc")]])
                ["X-ray"] = Ok out.
Proof.
  apply (prior_never_raises
           (frame_of_raw [[("prdctClsfcNoNm", "Survey"); ("asignBdgtAmt", "abc")]]) ["X-ray"]).
  apply frame_of_raw_is_raw.
Defined.

(** X20.  In every row of the table the bid-notice processor returns, the
    expected minimum bid is the value [calc_min_bid] gives for the budget
    and the estimated price of that same row: filtering, sorting and
    numbering move the three cells together. *)
Theorem min_bid_matches_row (df out : DataFrame) (kws : list string) :
  process_bid_for_excel df kws = Ok out ->
  forall row, In row (rows out) ->
    calc_min_bid_row (nth 18 row CNaN, nth 19 row CNaN) = Ok (nth 28 row CNaN).
Proof.
  intros H row Hrow. destruct (is_empty df) eqn:He.
  { unfold process_bid_for_excel in H. rewrite He in H. injection H as <-. destruct Hrow. }
  rewrite (process_bid_unfold df kws He) in H.
  destruct (mapM calc_min_bid_row _) as [mins|e] eqn:Hm; [|discriminate].
  cbn [bind] in H.
  destruct (finish_tail (set_series {| columns := List.map snd bid_col_map; rows := built_rows bid_money bid_col_map df |} "예상 투찰하한가(원)" mins)
              out "공고명" "게시일시" kws 3 eq_refl H) as [F' [H1 [_ H3]]].
  destruct (sort_and_number_rows _ _ _ _ row H1 Hrow) as [n [r0 [-> Hr0]]].
  destruct (H3 r0 Hr0) as [Hin _].
  destruct (bid_rows df mins r0 Hm Hin) as [r [m [-> [Hr Hcalc]]]].
  pose proof (built_row_length _ _ _ _ Hr) as Hlen.
  change (List.length bid_col_map) with 27%nat in Hlen.
  cbn [nth].
  rewrite !(app_nth1 r [m]) by lia.
  rewrite (app_nth2 r [m]) by lia. rewrite Hlen. exact Hcalc.
Qed.

Lemma min_bid_matches_row_witness :
  calc_min_bid_row
    (nth 18 (CInt 1 :: List.map CStr ["1"; ""; ""; "Survey"; ""; ""; ""; ""; ""; ""; ""; "";
                                    ""; ""; ""; ""; ""] ++
             [CInt 1000000; CInt 0; CInt 0] ++
             List.map CStr [""; ""; ""; ""; ""; ""; ""] ++ [CInt 877450]) CNaN,
     nth 19 (CInt 1 :: List.map CStr ["1"; ""; ""; "Survey"; ""; ""; ""; ""; ""; ""; ""; "";
                                    ""; ""; ""; ""; ""] ++
             [CInt 1000000; CInt 0; CInt 0] ++
             List.map CStr [""; ""; ""; ""; ""; ""; ""] ++ [CInt 877450]) CNaN) =
  Ok (nth 28 (CInt 1 :: List.map CStr ["1"; ""; ""; "Survey"; ""; ""; ""; ""; ""; ""; ""; "";
                                     ""; ""; ""; ""; ""] ++
              [CInt 1000000; CInt 0; CInt 0] ++
              List.map CStr [""; ""; ""; ""; ""; ""; ""] ++ [CInt 877450]) CNaN).
Proof.
  refine (min_bid_matches_row
            (frame_of_raw [[("bidNtceNo", "1"); ("bidNtceNm", "Survey");
                            ("asignBdgtAmt", "1,000,000")]])
            {| columns := "No." :: headers BidNotice;
               rows := [CInt 1 :: List.map CStr ["1"; ""; ""; "Survey"; ""; ""; ""; ""; ""; "";
                                                 ""; ""; ""; ""; ""; ""; ""] ++
                        [CInt 1000000; CInt 0; CInt 0] ++
                        List.map CStr [""; ""; ""; ""; ""; ""; ""] ++ [CInt 877450]] |}
            [] _ _ _).
  - vm_compute. reflexivity.
  - now left.
Defined.

(** *** The order-plan processor *)

Lemma mapM_map {A B : Type} (f : A -> result B) (d : B) (l : list A) (bs : list B) :
  mapM f l = Ok bs -> bs = List.map (fun a => match f a with Ok b => b | Raise _ => d end) l.
Proof.
  revert bs. induction l as [|a l IH]; intros bs; cbn [mapM List.map].
  - intros H. now injection H as <-.
  - destruct (f a) as [b|e]; [|discriminate]. cbn [bind].
    destruct (mapM f l) as [bs'|e]; [|discriminate]. cbn [bind].
    intros H. injection H as <-. f_equal. now apply IH.
Qed.

Lemma mapM_Ok {A B : Type} (f : A -> result B) (l : list A) :
  Forall (fun a => exists b, f a = Ok b) l -> exists bs, mapM f l = Ok bs.
Proof.
  induction l as [|a l IH]; intros H; [now eexists|].
  inversion H as [|? ? [b Hb] Hl]; subst. destruct (IH Hl) as [bs Hbs].
  exists (b :: bs). cbn [mapM]. now rewrite Hb, Hbs.
Qed.

Lemma mapM_Forall {A B : Type} (f : A -> result B) (l : list A) (bs : list B) :
  mapM f l = Ok bs -> Forall (fun a => exists b, f a = Ok b) l.
Proof.
  intros H. apply mapM_Forall2 in H.
  induction H as [|a b l bs Hab _ IH]; [constructor|].
  constructor; [now exists b | exact IH].
Qed.

Lemma mapM_Raise {A B : Type} (f : A -> result B) (l : list A) (e : exn) :
  mapM f l = Raise e -> exists a, In a l /\ f a = Raise e.
Proof.
  induction l as [|a l IH]; cbn [mapM]; [discriminate|].
  destruct (f a) as [b|e'] eqn:E; cbn [bind].
  - destruct (mapM f l) as [bs|e'']; cbn [bind]; [discriminate|].
    intros H. injection H as ->. destruct (IH eq_refl) as [a' [Hin Ha]].
    exists a'. split; [now right | exact Ha].
  - intros H. injection H as ->. exists a. split; [now left | exact E].
Qed.

Lemma set_series_map (cols : list string) (rs : list (dict cell))
    (g : dict cell -> list cell) (h : dict cell -> cell) (c : string) :
  rs <> [] ->
  set_series {| columns := cols; rows := List.map g rs |} c (List.map h rs) =
    {| columns := cols ++ [c]; rows := List.map (fun r => g r ++ [h r]) rs |}.
Proof.
  intros Hne. unfold set_series. cbn [columns rows]. f_equal.
  destruct (List.map g rs) as [|x xs] eqn:E.
  - destruct rs; [congruence | discriminate].
  - rewrite <- E, combine_map_map, map_map. reflexivity.
Qed.

(** The processor on a table that is not empty: the table of the rows
    [order_row], then the shared tail. *)
Lemma process_order_unfold (df : DataFrame) (kws : list string) (amounts : list cell) :
  is_empty df = false ->
  mapM order_amount (List.map (row_items (columns df)) (rows df)) = Ok amounts ->
  process_order_for_excel df kws =
    finish {| columns := headers OrderPlan;
              rows := List.map order_row (List.map (row_items (columns df)) (rows df)) |}
           "사업명" "발주시기" kws.
Proof.
  intros He Ham. unfold process_order_for_excel. rewrite He, Ham. cbn [bind].
  set (rs := List.map (row_items (columns df)) (rows df)) in *.
  assert (Hn : rs <> []).
  { unfold rs. pose proof (not_empty_rows df He). destruct (rows df); [congruence | discriminate]. }
  rewrite (mapM_map order_amount CNaN rs amounts Ham).
  fold order_amount_cell.
  change (List.map (fun a => order_amount_cell a) rs) with (List.map order_amount_cell rs).
  assert (E1 : set_series new_frame "용역구분" (List.map order_division rs) =
               {| columns := ["용역구분"]; rows := List.map (fun r => [order_division r]) rs |}).
  { unfold set_series, new_frame. cbn [columns rows List.length repeat app].
    now rewrite map_map. }
  rewrite E1.
  rewrite !(set_series_map _ rs _ _ _ Hn). cbn [app].
  reflexivity.
Qed.

Lemma order_amount_exn (r : dict cell) (e : exn) :
  order_amount r = Raise e -> e = ValueError \/ e = OverflowError.
Proof.
  unfold order_amount.
  destruct (float_of_str _) as [f|e'] eqn:E; cbn [bind].
  - destruct f; cbn [int_of_float bind]; try discriminate;
      intros H; injection H as <-; auto.
  - intros H. injection H as <-. left.
    unfold float_of_str in E.
    destruct (strip_underscores None _); [|now injection E as <-].
    destruct (split_sign _) as [neg body].
    destruct (parse_decimal neg body); [discriminate|].
    destruct (parse_inf_nan neg body); [discriminate|]. now injection E as <-.
Qed.

(** X21.  On a well-formed table the order-plan processor returns a table
    exactly when the amount of every record is a number [int(float(...))]
    accepts: nothing else in it can fail, and what it raises otherwise is
    the ValueError or the OverflowError of that conversion. *)
Theorem order_fails_only_on_amount (df : DataFrame) (kws : list string) :
  well_formed df ->
  ((exists out, process_order_for_excel df kws = Ok out) <->
   (is_empty df = true \/
    Forall (fun r => exists c, order_amount r = Ok c)
           (List.map (row_items (columns df)) (rows df))))
  /\ (forall e, process_order_for_excel df kws = Raise e ->
                 e = ValueError \/ e = OverflowError).
Proof.
  intros _. destruct (is_empty df) eqn:He.
  { unfold process_order_for_excel. rewrite He. split.
    - split; [now left | now eexists].
    - discriminate. }
  set (rs := List.map (row_items (columns df)) (rows df)).
  assert (Hfin : forall amounts, mapM order_amount rs = Ok amounts ->
            exists out, process_order_for_excel df kws = Ok out).
  { intros amounts Ham. rewrite (process_order_unfold df kws amounts He Ham).
    apply (finish_ok {| columns := headers OrderPlan; rows := List.map order_row rs |}
             "사업명" "발주시기" kws 3 2); [reflexivity | reflexivity |].
    cbn [rows]. intros r Hr. apply in_map_iff in Hr as [r0 [<- _]].
    reflexivity. }
  split.
  - split.
    + intros [out H]. right.
      destruct (mapM order_amount rs) as [amounts|e] eqn:Ham.
      * exact (mapM_Forall _ _ _ Ham).
      * unfold process_order_for_excel in H. rewrite He in H. fold rs in H.
        rewrite Ham in H. discriminate.
    + intros [H|H]; [discriminate|].
      destruct (mapM_Ok order_amount rs H) as [amounts Ham]. now apply (Hfin amounts).
  - intros e H.
    destruct (mapM order_amount rs) as [amounts|e'] eqn:Ham.
    + destruct (Hfin amounts eq_refl) as [out Hout]. congruence.
    + unfold process_order_for_excel in H. rewrite He in H. fold rs in H.
      rewrite Ham in H. cbn [bind] in H. injection H as <-.
      destruct (mapM_Raise _ _ _ Ham) as [r [_ Hr]]. exact (order_amount_exn r e' Hr).
Qed.

Lemma order_fails_only_on_amount_witness :
  (exists out, process_order_for_excel
                 {| columns := ["bizNm"; "sumOrderAmt"];
                    rows := [[CStr "Survey"; CStr "1,000"]; [CStr "Repair"; CStr "abc"]] |}
                 [] = Ok out) <->
  (is_empty {| columns := ["bizNm"; "sumOrderAmt"];
               rows := [[CStr "Survey"; CStr "1,000"]; [CStr "Repair"; CStr "abc"]] |} = true \/
   Forall (fun r => exists c, order_amount r = Ok c)
          (List.map (row_items ["bizNm"; "sumOrderAmt"])
                    [[CStr "Survey"; CStr "1,000"]; [CStr "Repair"; CStr "abc"]])).
Proof.
  refine (proj1 (order_fails_only_on_amount
                   {| columns := ["bizNm"; "sumOrderAmt"];
                      rows := [[CStr "Survey"; CStr "1,000"]; [CStr "Repair"; CStr "abc"]] |}
                   [] _)).
  split.
  - repeat constructor; cbn [In]; intuition discriminate.
  - repeat constructor.
Defined.

End TableSpec.

(** ** Trimming and splitting *)
Module StripFacts.
Import Py PyFacts Session.

Lemma occurs_app (c : ascii) (a b : string) :
  occurs c (a ++ b) = occurs c a || occurs c b.
Proof.
  induction a as [|d a IH]; [reflexivity|].
  cbn [append occurs]. now rewrite IH, orb_assoc.
Qed.

Lemma lstrip_by_suffix (sp : ascii -> bool) (s : string) :
  exists pre, s = (pre ++ lstrip_by sp s)%string.
Proof.
  induction s as [|c s [pre IH]]; [now exists ""|].
  cbn [lstrip_by]. destruct (sp c).
  - exists (String c pre). cbn [append]. now rewrite <- IH.
  - now exists "".
Qed.

Lemma rstrip_by_prefix (sp : ascii -> bool) (s : string) :
  exists post, s = (rstrip_by sp s ++ post)%string.
Proof.
  induction s as [|c s [post IH]]; [now exists ""|].
  cbn [rstrip_by]. destruct (rstrip_by sp s) as [|d r] eqn:E.
  - destruct (sp c).
    + exists (String c s). reflexivity.
    + exists post. cbn [append] in *. now rewrite <- IH.
  - exists post. cbn [append] in *. now rewrite <- IH.
Qed.

(** The trimmed text is a piece of the text. *)
Lemma strip_by_substring (sp : ascii -> bool) (s : string) :
  Substring (strip_by sp s) s.
Proof.
  unfold strip_by, Substring.
  destruct (lstrip_by_suffix sp s) as [pre Hpre].
  destruct (rstrip_by_prefix sp (lstrip_by sp s)) as [post Hpost].
  exists pre, post. now rewrite <- Hpost.
Qed.

Lemma substring_occurs (c : ascii) (a s : string) :
  Substring a s -> occurs c s = false -> occurs c a = false.
Proof.
  intros [pre [post ->]] H. rewrite !occurs_app in H.
  apply orb_false_iff in H as [_ H]. now apply orb_false_iff in H as [H _].
Qed.

Lemma substring_trans (a b c : string) : Substring a b -> Substring b c -> Substring a c.
Proof.
  intros [p1 [q1 ->]] [p2 [q2 ->]]. exists (p2 ++ p1)%string, (q1 ++ q2)%string.
  assert (A : forall x y z : string, ((x ++ y) ++ z = x ++ y ++ z)%string).
  { intros x y z. induction x as [|d x IH]; cbn [append]; congruence. }
  now rewrite !A.
Qed.

(** A left-trimmed text does not start with a blank, a right-trimmed one
    does not end with one. *)
Lemma lstrip_by_head (sp : ascii -> bool) (s : string) :
  match lstrip_by sp s with
  | EmptyString => True
  | String c _ => sp c = false
  end.
Proof.
  induction s as [|c s IH]; [exact I|].
  cbn [lstrip_by]. destruct (sp c) eqn:E; [exact IH | exact E].
Qed.

Lemma lstrip_by_fixed (sp : ascii -> bool) (s : string) :
  match s with
  | EmptyString => True
  | String c _ => sp c = false
  end -> lstrip_by sp s = s.
Proof. destruct s as [|c s]; [reflexivity|]. cbn [lstrip_by]. now intros ->. Qed.

Lemma rstrip_by_cons (sp : ascii -> bool) (c : ascii) (s : string) :
  rstrip_by sp (String c s) =
    match rstrip_by sp s with
    | EmptyString => if sp c then EmptyString else String c EmptyString
    | r => String c r
    end.
Proof. reflexivity. Qed.

Lemma rstrip_by_idem (sp : ascii -> bool) (s : string) :
  rstrip_by sp (rstrip_by sp s) = rstrip_by sp s.
Proof.
  induction s as [|c s IH]; [reflexivity|].
  rewrite rstrip_by_cons. destruct (rstrip_by sp s) as [|d r] eqn:E.
  - destruct (sp c) eqn:Ec; [reflexivity|]. cbn [rstrip_by]. now rewrite Ec.
  - rewrite rstrip_by_cons, IH. reflexivity.
Qed.

Lemma rstrip_by_head (sp : ascii -> bool) (s : string) :
  match s with
  | EmptyString => True
  | String c _ => sp c = false
  end ->
  match rstrip_by sp s with
  | EmptyString => s = EmptyString
  | String c _ => sp c = false
  end.
Proof.
  destruct s as [|c s]; [reflexivity|]. intros Hc. cbn [rstrip_by].
  destruct (rstrip_by sp s); [now rewrite Hc | exact Hc].
Qed.

Lemma strip_by_idem (sp : ascii -> bool) (s : string) :
  strip_by sp (strip_by sp s) = strip_by sp s.
Proof.
  unfold strip_by.
  rewrite (lstrip_by_fixed sp (rstrip_by sp (lstrip_by sp s))).
  - apply rstrip_by_idem.
  - pose proof (rstrip_by_head sp (lstrip_by sp s) (lstrip_by_head sp s)) as H.
    destruct (rstrip_by sp (lstrip_by sp s)); [exact I | exact H].
Qed.





(** A text trims to nothing exactly when it is made of blanks. *)
Lemma rstrip_by_empty (sp : ascii -> bool) (s : string) :
  rstrip_by sp s = "" <-> all_blank sp s = true.
Proof.
  induction s as [|c s IH]; [easy|].
  cbn [rstrip_by all_blank]. destruct (rstrip_by sp s) as [|d r].
  - destruct (sp c); cbn [andb].
    + split; [intros _; now apply IH | reflexivity].
    + split; discriminate.
  - split; [discriminate|]. intros H. apply andb_true_iff in H as [_ H].
    apply IH in H. discriminate.
Qed.

Lemma strip_by_empty (sp : ascii -> bool) (s : string) :
  strip_by sp s = "" <-> all_blank sp s = true.
Proof.
  unfold strip_by. induction s as [|c s IH]; [easy|].
  cbn [lstrip_by all_blank]. destruct (sp c) eqn:E; cbn [andb]; [exact IH|].
  split; [|discriminate]. cbn [rstrip_by].
  destruct (rstrip_by sp s); [now rewrite E | discriminate].
Qed.

(** *** Splitting at a character *)

Lemma append_assoc (x y z : string) : ((x ++ y) ++ z = x ++ y ++ z)%string.
Proof. induction x as [|d x IH]; cbn [append]; congruence. Qed.

(** The pieces, put back behind their separators, give the text. *)
Lemma split_char_eq (sep : ascii) (s : string) :
  s = (fst (split_char sep s) ++ rejoin sep (snd (split_char sep s)))%string.
Proof.
  induction s as [|c s IH]; [reflexivity|].
  cbn [split_char]. destruct (split_char sep s) as [w ws]. cbn [fst snd] in IH.
  destruct (Ascii.eqb c sep) eqn:E; cbn [fst snd rejoin append].
  - apply Ascii.eqb_eq in E. subst c. now rewrite <- IH.
  - now rewrite <- IH.
Qed.

Lemma split_char_nosep (sep : ascii) (s : string) :
  Forall (fun w => occurs sep w = false) (split sep s).
Proof.
  unfold split. induction s as [|c s IH]; [repeat constructor|].
  cbn [split_char]. destruct (split_char sep s) as [w ws]. cbn [fst snd] in IH.
  destruct (Ascii.eqb c sep) eqn:E; cbn [fst snd].
  - constructor; [reflexivity | exact IH].
  - inversion IH as [|? ? Hw Hws]; subst. constructor; [|exact Hws].
    cbn [occurs]. rewrite Hw, orb_false_r, Ascii.eqb_sym. exact E.
Qed.

Lemma In_rejoin (sep : ascii) (ws : list string) (w : string) :
  In w ws -> Substring w (rejoin sep ws).
Proof.
  induction ws as [|w0 ws IH]; [easy|]. cbn [rejoin].
  intros [->|H].
  - now exists (String sep ""), (rejoin sep ws).
  - destruct (IH H) as [pre [post E]]. rewrite E.
    exists (String sep (w0 ++ pre)), post. cbn [append]. now rewrite append_assoc.
Qed.

Lemma split_char_pieces (sep : ascii) (s : string) (w : string) :
  In w (split sep s) -> occurs sep w = false /\ Substring w s.
Proof.
  intros H. split.
  - pose proof (split_char_nosep sep s) as F. rewrite Forall_forall in F. now apply F.
  - unfold split in H. rewrite (split_char_eq sep s) at 1. destruct H as [<-|H].
    + now exists "", (rejoin sep (snd (split_char sep s))).
    + destruct (In_rejoin sep _ w H) as [pre [post E]]. rewrite E.
      exists (fst (split_char sep s) ++ pre)%string, post. now rewrite append_assoc.
Qed.

Lemma split_char_whole (sep : ascii) (w : string) :
  occurs sep w = false -> split_char sep w = (w, []).
Proof.
  induction w as [|c w IH]; [reflexivity|].
  cbn [occurs split_char]. intros H. apply orb_false_iff in H as [H1 H2].
  rewrite (IH H2). rewrite Ascii.eqb_sym in H1. now rewrite H1.
Qed.

Lemma split_char_app (sep : ascii) (w rest : string) :
  occurs sep w = false ->
  split_char sep (w ++ String sep rest) = (w, split sep rest).
Proof.
  induction w as [|c w IH]; cbn [occurs append split_char].
  - intros _. destruct (split_char sep rest) as [w0 ws] eqn:E.
    rewrite Ascii.eqb_refl. unfold split. now rewrite E.
  - intros H. apply orb_false_iff in H as [H1 H2].
    rewrite (IH H2). rewrite Ascii.eqb_sym in H1. now rewrite H1.
Qed.

End StripFacts.

(** ** The key of the session and the keyword fields *)
Module SessionSpec.
Import Py PyFacts Session StripFacts.

(** X22.  Saving a key whose blanks are ASCII ones and loading it gives
    the key without the blanks around it, and the other entries of the
    session are untouched; a key made of blanks only is stored as the empty
    text, which the main script takes for no key at all. *)
Theorem api_key_round_trip (st : session_state) (key : string) :
  ascii_blanks key = true ->
  load_api_key (save_api_key st key) = strip key
  /\ (forall k, k <> "user_api_key" ->
                dict_get (save_api_key st key) k = dict_get st k)
  /\ (load_api_key (save_api_key st key) = "" <-> all_blank is_space key = true).
Proof.
  intros _.
  assert (E : load_api_key (save_api_key st key) = strip key).
  { unfold load_api_key, save_api_key. now rewrite dict_get_set_same. }
  split; [exact E|]. split.
  - intros k Hk. unfold save_api_key. apply dict_get_set_other. congruence.
  - rewrite E. apply strip_by_empty.
Qed.

Lemma api_key_round_trip_witness :
  load_api_key (save_api_key [("history", "none")] "  abc123  ") = "abc123".
Proof.
  exact (proj1 (api_key_round_trip [("history", "none")] "  abc123  " eq_refl)).
Defined.

(** X23.  Every keyword read from a comma-separated field is a non-empty,
    trimmed piece of the field without a comma: an empty keyword, which
    every text contains, never reaches the filters. *)
Theorem parsed_keywords_are_clean (input : string) :
  Forall (fun k => keyword k /\ Substring k input) (parse_keywords input).
Proof.
  unfold parse_keywords. apply Forall_forall. intros k Hk.
  apply in_map_iff in Hk as [w [<- Hw]]. apply filter_In in Hw as [Hw Hne].
  apply negb_true_iff in Hne. apply String.eqb_neq in Hne.
  destruct (split_char_pieces ","%char input w Hw) as [Hc Hs].
  pose proof (strip_by_substring is_space w) as Hsub. fold (strip w) in Hsub.
  repeat split.
  - exact Hne.
  - apply strip_by_idem.
  - exact (substring_occurs _ _ _ Hsub Hc).
  - exact (substring_trans _ _ _ Hsub Hs).
Qed.

Lemma split_join_comma (k : string) (ks : list string) :
  Forall keyword (k :: ks) ->
  split ","%char (join_comma (k :: ks)) = k :: List.map (String " "%char) ks.
Proof.
  revert k. induction ks as [|k2 ks IH]; intros k H.
  - inversion H as [|? ? [_ [_ Hc]] _]; subst. cbn [join_comma List.map].
    unfold split. now rewrite (split_char_whole _ _ Hc).
  - inversion H as [|? ? [_ [_ Hc]] H2]; subst.
    change (join_comma (k :: k2 :: ks))
      with (k ++ String ","%char (String " "%char (join_comma (k2 :: ks))))%string.
    unfold split at 1. rewrite (split_char_app _ _ _ Hc). cbn [fst snd]. f_equal.
    specialize (IH k2 H2). unfold split in *. cbn [split_char].
    destruct (split_char ","%char (join_comma (k2 :: ks))) as [w ws].
    cbn [fst snd] in *. change (Ascii.eqb " "%char ","%char) with false. cbn [fst snd List.map].
    injection IH as -> ->. reflexivity.
Qed.

(** X24.  Keywords whose blanks are ASCII ones, written one after the
    other with a comma and a space between them, are read back as they
    are. *)
Theorem parse_keywords_round_trip (ks : list string) :
  Forall keyword ks -> Forall (fun k => ascii_blanks k = true) ks ->
  parse_keywords (join_comma ks) = ks.
Proof.
  intros H _. destruct ks as [|k ks]; [reflexivity|].
  unfold parse_keywords. rewrite (split_join_comma k ks H).
  assert (G : forall l, Forall keyword l ->
            List.map strip (filter (fun k0 => negb (String.eqb (strip k0) ""))
                                   (List.map (String " "%char) l)) = l).
  { induction l as [|a l IH]; intros Hl; [reflexivity|].
    inversion Hl as [|? ? [Ha [Hs _]] Hl']; subst. cbn [List.map filter].
    change (strip (String " "%char a)) with (strip a). rewrite Hs.
    apply String.eqb_neq in Ha. rewrite Ha. cbn [negb List.map].
    change (strip (String " "%char a)) with (strip a). rewrite Hs. f_equal. now apply IH. }
  inversion H as [|? ? [Ha [Hs _]] Hl']; subst. cbn [filter].
  rewrite Hs. apply String.eqb_neq in Ha. rewrite Ha. cbn [negb List.map].
  rewrite Hs. f_equal. now apply G.
Qed.

Lemma parse_keywords_round_trip_witness :
  parse_keywords (join_comma ["유지보수"; "X-ray"]) = ["유지보수"; "X-ray"].
Proof.
  apply (parse_keywords_round_trip ["유지보수"; "X-ray"]).
  - repeat constructor; discriminate.
  - repeat constructor.
Defined.

End SessionSpec.

(** ** The search history *)
Module HistorySpec.
Import Py PyFacts Session StripFacts History.






(** *** Lines *)






(** *** Entries *)





End HistorySpec.

(** ** The deadline column of the sheets *)
Module SheetSpec.
Import Py PyFacts Frame Normalizer Processors Rowwise TableSpec Renderer Sheet.

(** X26.  Among the sheets written for the four sources only the one of
    the bid notices has a deadline column, the sixteenth, so that no row
    of the three other sheets is ever marked urgent, whatever it holds
    and whatever the time is. *)
Theorem deadline_only_on_bid_sheet (s : source) (df out : DataFrame) (iks kws : list string) :
  is_empty df = false ->
  process s df iks kws = Ok out ->
  deadline_col_idx (columns out) =
    match s with
    | BidNotice => Some 15%nat
    | _ => None
    end
  /\ (s <> BidNotice ->
      forall (now : Z) (to_datetime : string -> result (option Z)) (row : list cell),
        is_urgent now to_datetime (deadline_col_idx (columns out)) row = false).
Proof.
  intros He H.
  destruct (process_tail s df out iks kws He H) as [F [HF [Hc _]]].
  destruct (sort_and_number_eq F out _ _ HF) as [rs [-> _]].
  cbn [insert_numbering columns]. rewrite Hc.
  assert (E : deadline_col_idx ("No." :: headers s) =
              match s with BidNotice => Some 15%nat | _ => None end)
    by (destruct s; reflexivity).
  rewrite E. split; [reflexivity|].
  intros Hs now to_datetime row. destruct s; try reflexivity. congruence.
Qed.

Lemma deadline_only_on_bid_sheet_witness :
  deadline_col_idx
    (columns match process BidNotice
                     (frame_of_raw [[("bidNtceNm", "Survey"); ("bidClseDt", "2026-11-10 10:00")]])
                     [] [] with
             | Ok out => out
             | Raise _ => new_frame
             end) = Some 15%nat.
Proof.
  refine (proj1 (deadline_only_on_bid_sheet BidNotice
                   (frame_of_raw [[("bidNtceNm", "Survey"); ("bidClseDt", "2026-11-10 10:00")]])
                   _ [] [] _ _)).
  - reflexivity.
  - vm_compute. reflexivity.
Defined.

End SheetSpec.

(** ** The range of the binary64 values the money columns hold *)
Module Binary64Range.
Import RangeDefs.
Import Py Binary64Facts.

Lemma fexp_eq (x : Z) : fexp prec emax x = Z.max (x - 53) (-1074).
Proof. reflexivity. Qed.

Lemma Zdigits2_bound (m : Z) : 0 <= m -> 0 <= Zdigits2 m /\ m < 2 ^ Zdigits2 m.
Proof.
  intros Hm. destruct m as [|p|p]; [simpl; lia | | lia].
  cbn [Zdigits2]. pose proof (digits2_pos_bounds p). lia.
Qed.

(** The mantissa after [p] halvings, whatever the bits shifted out before. *)
Lemma shr_m_iter (p : positive) (mrs : shr_record) :
  0 <= shr_m mrs -> shr_m (iter_pos shr_1 p mrs) = shr_m mrs / 2 ^ Zpos p.
Proof.
  intros Hm. rewrite iter_pos_iter.
  induction p as [|p IH] using Pos.peano_ind.
  - cbn [Pos.iter]. destruct mrs as [m r s]. cbn [shr_m] in *.
    rewrite shr_1_nonneg by exact Hm. cbn [shr_m]. now rewrite Z.pow_1_r.
  - rewrite Pos.iter_succ.
    assert (Hq : 0 <= shr_m (Pos.iter shr_1 mrs p)).
    { rewrite IH. apply Z.div_pos; [exact Hm | apply Z.pow_pos_nonneg; lia]. }
    destruct (Pos.iter shr_1 mrs p) as [m r s]. cbn [shr_m] in *.
    rewrite shr_1_nonneg by exact Hq. cbn [shr_m]. rewrite IH.
    rewrite Pos2Z.inj_succ, Z.pow_succ_r by lia.
    rewrite Z.div_div by (try apply Z.pow_pos_nonneg; lia).
    f_equal. lia.
Qed.

Lemma shr_m_of_loc (m : Z) (l : location) : shr_m (shr_record_of_loc m l) = m.
Proof. destruct l as [|[| |]]; reflexivity. Qed.

(** The first step of rounding: the exponent it reaches and the mantissa it
    leaves. *)
Lemma shr_fexp_spec (m e : Z) (l : location) :
  0 <= m ->
  exists mrs e1,
    shr_fexp prec emax m e l = (mrs, e1) /\
    e1 = Z.max e (Z.max (Zdigits2 m + e - 53) (-1074)) /\
    shr_m mrs = m / 2 ^ (e1 - e) /\
    0 <= shr_m mrs < 2 ^ 53.
Proof.
  intros Hm. destruct (Zdigits2_bound m Hm) as [Hd0 Hd].
  unfold shr_fexp. rewrite fexp_eq.
  set (ft := Z.max (Zdigits2 m + e - 53) (-1074)).
  destruct (ft - e) as [|p|p] eqn:Hn; cbn [shr].
  - eexists _, _. split; [reflexivity|]. rewrite shr_m_of_loc.
    replace (Z.max e ft) with e by lia. split; [reflexivity|].
    rewrite Z.sub_diag, Z.pow_0_r, Z.div_1_r. split; [reflexivity|].
    split; [exact Hm|].
    assert (Zdigits2 m <= 53) by lia.
    assert (2 ^ Zdigits2 m <= 2 ^ 53) by (apply Z.pow_le_mono_r; lia). lia.
  - eexists _, _. split; [reflexivity|].
    replace (Z.max e ft) with (e + Zpos p) by lia. split; [reflexivity|].
    rewrite shr_m_iter by (rewrite shr_m_of_loc; exact Hm).
    rewrite shr_m_of_loc. replace (e + Zpos p - e) with (Zpos p) by lia.
    split; [reflexivity|].
    assert (Hp : 0 < 2 ^ Zpos p) by (apply Z.pow_pos_nonneg; lia).
    split; [apply Z.div_pos; lia|].
    apply Z.div_lt_upper_bound; [lia|].
    rewrite <- Z.pow_add_r by lia.
    assert (2 ^ Zdigits2 m <= 2 ^ (Zpos p + 53)) by (apply Z.pow_le_mono_r; lia). lia.
  - eexists _, _. split; [reflexivity|]. rewrite shr_m_of_loc.
    replace (Z.max e ft) with e by lia. split; [reflexivity|].
    rewrite Z.sub_diag, Z.pow_0_r, Z.div_1_r. split; [reflexivity|].
    split; [exact Hm|].
    assert (Zdigits2 m <= 53) by lia.
    assert (2 ^ Zdigits2 m <= 2 ^ 53) by (apply Z.pow_le_mono_r; lia). lia.
Qed.

Lemma round_nearest_even_bounds (m : Z) (l : location) :
  m <= round_nearest_even m l <= m + 1.
Proof.
  destruct l as [|[| |]]; cbn [round_nearest_even]; try lia.
  destruct (Z.even m); lia.
Qed.

(** What rounding returns: a zero, an infinity, or a mantissa of at most 53
    bits with an exponent of at most 971; it is no infinity when the first
    step stays below the largest exponent, or reaches it without a carry
    out of the 53 bits. *)
Lemma binary_round_aux_range (s : bool) (m e : Z) (l : location) :
  0 <= m ->
  in_range (binary_round_aux prec emax s m e l) /\
  binary_round_aux prec emax s m e l <> S754_nan /\
  (forall mrs e1,
     shr_fexp prec emax m e l = (mrs, e1) ->
     e1 <= 970 \/
     (e1 <= 971 /\ round_nearest_even (shr_m mrs) (loc_of_shr_record mrs) < 2 ^ 53) ->
     forall s', binary_round_aux prec emax s m e l <> S754_infinity s').
Proof.
  intros Hm.
  destruct (shr_fexp_spec m e l Hm) as [mrs [e1 [H1 [He1 [Hq [Hq0 Hq1]]]]]].
  pose proof (round_nearest_even_bounds (shr_m mrs) (loc_of_shr_record mrs)) as [R0 R1].
  set (m2 := round_nearest_even (shr_m mrs) (loc_of_shr_record mrs)) in *.
  destruct (shr_fexp_spec m2 e1 loc_Exact ltac:(lia)) as [mrs2 [e2 [H2 [He2 [Hq2 [Hq20 Hq21]]]]]].
  unfold binary_round_aux. rewrite H1. fold m2. rewrite H2.
  destruct (Zdigits2_bound m2 ltac:(lia)) as [Hd0 Hd].
  split; [|split].
  - destruct (shr_m mrs2) as [|p|p]; [exact I | | lia].
    destruct (e2 <=? emax - prec) eqn:E; [|exact I].
    apply Z.leb_le in E. unfold emax, prec in E. split; lia.
  - destruct (shr_m mrs2) as [|p|p]; [discriminate | | lia].
    destruct (e2 <=? emax - prec); discriminate.
  - intros mrs' e1' E Hcond s'. injection E as <- <-. fold m2 in Hcond.
    destruct (shr_m mrs2) as [|p|p]; [discriminate | | discriminate].
    assert (Hdig : forall k, m2 < 2 ^ k -> 0 <= k -> Zdigits2 m2 <= k).
    { intros k Hk Hk0. destruct (Z.le_gt_cases (Zdigits2 m2) k) as [H|H]; [exact H|].
      exfalso. destruct m2 as [|q|q]; [simpl in H; lia | | lia].
      pose proof (digits2_pos_bounds q) as [B _]. cbn [Zdigits2] in H.
      assert (2 ^ k <= 2 ^ (Zpos (digits2_pos q) - 1)) by (apply Z.pow_le_mono_r; lia).
      lia. }
    assert (He2' : e2 <= 971).
    { destruct Hcond as [Hc|[Hc1 Hc2]].
      - pose proof (Hdig 54 ltac:(change (2 ^ 54) with (2 * 2 ^ 53); lia) ltac:(lia)). lia.
      - pose proof (Hdig 53 Hc2 ltac:(lia)). lia. }
    replace (e2 <=? emax - prec) with true
      by (symmetry; apply Z.leb_le; unfold emax, prec; lia).
    discriminate.
Qed.

Lemma binary_normalize_range (z e : Z) (s : bool) :
  in_range (binary_normalize prec emax z e s) /\ binary_normalize prec emax z e s <> S754_nan.
Proof.
  unfold binary_normalize. destruct z as [|q|q]; [split; [exact I | discriminate] | |];
    unfold binary_round; destruct (shl_align _ _ _) as [mz ez].
  - destruct (binary_round_aux_range false (Zpos mz) ez loc_Exact ltac:(lia)) as [H1 [H2 _]].
    now split.
  - destruct (binary_round_aux_range true (Zpos mz) ez loc_Exact ltac:(lia)) as [H1 [H2 _]].
    now split.
Qed.

(** The floats [float(str)] returns are in range. *)
Lemma float_of_decimal_range (s : bool) (m dexp : Z) :
  in_range (float_of_decimal s m dexp) /\ float_of_decimal s m dexp <> S754_nan.
Proof.
  unfold float_of_decimal. destruct m as [|p|p]; try (split; [exact I | discriminate]).
  destruct dexp as [|k|k]; try apply binary_normalize_range.
  - unfold SFdiv.
    destruct (SFdiv_core_binary prec emax (Zpos p) 0 (Zpos (Z.to_pos (10 ^ Zpos k))) 0)
      as [[mz ez] lz] eqn:E.
    assert (Hmz : 0 <= mz).
    { unfold SFdiv_core_binary in E.
      set (m' := match _ - _ with Zpos _ => Z.shiftl (Zpos p) _ | Z0 => Zpos p | Zneg _ => 0 end) in E.
      assert (Hm' : 0 <= m').
      { unfold m'. destruct (_ - _); [lia | apply Z.shiftl_nonneg; lia | lia]. }
      pose proof (Z_div_mod m' (Zpos (Z.to_pos (10 ^ Zpos k))) ltac:(lia)) as Hdm.
      destruct (Z.div_eucl m' (Zpos (Z.to_pos (10 ^ Zpos k)))) as [q r].
      injection E as <- _ _. destruct Hdm as [Hdm Hr]. nia. }
    destruct (binary_round_aux_range (xorb s false) mz ez lz Hmz) as [H1 [H2 _]].
    now split.
Qed.

Lemma float_of_str_range (s : string) (f : float) :
  float_of_str s = Ok f -> in_range f.
Proof.
  unfold float_of_str. destruct (strip_underscores None s) as [s1|]; [|discriminate].
  destruct (split_sign _) as [neg body].
  destruct (parse_decimal neg body) as [f0|] eqn:Ed.
  - intros H. injection H as <-. unfold parse_decimal in Ed.
    destruct (span_digits body) as [ip r1].
    destruct (match r1 with
              | String "."%char r => span_digits r
              | _ => (EmptyString, r1)
              end) as [fp r2].
    destruct (ip ++ fp)%string; [discriminate|].
    destruct (parse_exponent r2); [|discriminate].
    injection Ed as <-. apply float_of_decimal_range.
  - unfold parse_inf_nan.
    destruct (_ || _); [intros H; injection H as <-; exact I|].
    destruct (String.eqb _ _); [intros H; injection H as <-; exact I | discriminate].
Qed.

(** The [int] of a float in range, and so every value of a money column,
    is 0 or an integer of at most 53 significant bits below 2^1024. *)
Lemma int_of_float_representable (f : float) (v : Z) :
  in_range f -> int_of_float f = Ok v -> representable v.
Proof.
  destruct f as [s|s| |s m e]; cbn [int_of_float in_range]; try discriminate.
  - intros _ H. injection H as <-. now left.
  - intros [Hm He] H. injection H as <-.
    set (a := match e with Zneg p => Z.shiftr (Zpos m) (Zpos p) | _ => Z.shiftl (Zpos m) e end).
    assert (Ha : a = 0 \/ exists m' e', a = Zpos m' * 2 ^ e' /\ Zpos m' < 2 ^ 53 /\ 0 <= e' <= 971).
    { unfold a. destruct e as [|p|p].
      - right. exists m, 0. rewrite Z.shiftl_0_r. split; [lia | lia].
      - right. exists m, (Zpos p). rewrite Z.shiftl_mul_pow2 by lia. split; [reflexivity | lia].
      - rewrite Z.shiftr_div_pow2 by lia.
        assert (Hp : 0 < 2 ^ Zpos p) by (apply Z.pow_pos_nonneg; lia).
        assert (Hq : 0 <= Zpos m / 2 ^ Zpos p <= Zpos m).
        { split; [apply Z.div_pos; lia|]. apply Z.div_le_upper_bound; nia. }
        destruct (Zpos m / 2 ^ Zpos p) as [|q|q]; [now left | | lia].
        right. exists q, 0. split; [lia | lia]. }
    destruct Ha as [->|[m' [e' [-> Hb]]]]; [left; now destruct s|].
    right. exists m', e'. split; [|exact Hb].
    assert (0 < 2 ^ e') by (apply Z.pow_pos_nonneg; lia).
    destruct s; lia.
Qed.

Lemma parse_money_representable (x : Frame.cell) : representable (Normalizer.parse_money x).
Proof.
  unfold Normalizer.parse_money, try_except.
  destruct (float_of_str _) as [f|e] eqn:E; cbn [bind]; [|now left].
  destruct (int_of_float f) as [v|e] eqn:Ev; [|now left].
  exact (int_of_float_representable f v (float_of_str_range _ f E) Ev).
Qed.

Lemma pow2_digits_le (b : positive) (k : Z) :
  0 <= k -> Zpos b < 2 ^ k -> Zpos (digits2_pos b) <= k.
Proof.
  intros Hk Hb. pose proof (digits2_pos_bounds b) as [B _].
  destruct (Z.le_gt_cases (Zpos (digits2_pos b)) k) as [H|H]; [exact H|].
  assert (2 ^ k <= 2 ^ (Zpos (digits2_pos b) - 1)) by (apply Z.pow_le_mono_r; lia). lia.
Qed.

(** A representable integer converts to a float in range: there is no
    overflow, and nothing is rounded away above 53 bits. *)
Lemma float_of_int_representable (b m : positive) (e : Z) :
  Zpos b = Zpos m * 2 ^ e -> Zpos m < 2 ^ 53 -> 0 <= e <= 971 ->
  exists f, float_of_int (Zpos b) = Ok f /\ in_range f /\ f <> S754_nan /\
            forall s, f <> S754_infinity s.
Proof.
  intros Hb Hm He.
  assert (He2 : 0 < 2 ^ e) by (apply Z.pow_pos_nonneg; lia).
  assert (Hb1024 : Zpos b < 2 ^ (53 + e)) by (rewrite Z.pow_add_r by lia; nia).
  pose proof (pow2_digits_le b (53 + e) ltac:(lia) Hb1024) as Hdb.
  destruct (Z.lt_ge_cases (Zpos (digits2_pos b)) 53) as [Hlt|Hge].
  - destruct (float_of_int_exact b Hlt) as [mb [Hf [_ Hd]]].
    eexists. split; [exact Hf|]. split; [|split; [discriminate | discriminate]].
    cbn [in_range]. pose proof (digits2_pos_bounds mb) as [_ B]. rewrite Hd in B. lia.
  - assert (Hnot : forall s, binary_round_aux prec emax false (Zpos b) 0 loc_Exact
                             <> S754_infinity s).
    { destruct (binary_round_aux_range false (Zpos b) 0 loc_Exact ltac:(lia)) as [_ [_ Hc]].
      destruct (Z.eq_dec (Zpos (digits2_pos b)) 53) as [E53|N53].
      - apply (Hc {| shr_m := Zpos b; shr_r := false; shr_s := false |} 0).
        + unfold shr_fexp. rewrite fexp_eq. cbn [Zdigits2]. rewrite E53. reflexivity.
        + left. lia.
      - destruct (Zpos (digits2_pos b) - 53) as [|n|n] eqn:Hn; [lia| |lia].
        apply (Hc (shifted (Zpos b) n) (Zpos n)).
        + unfold shr_fexp. rewrite fexp_eq. cbn [Zdigits2 shr_record_of_loc].
          replace (Z.max (Zpos (digits2_pos b) + 0 - 53) (-1074) - 0) with (Zpos n) by lia.
          cbn [shr]. rewrite iter_shr_1 by lia. reflexivity.
        + right. split; [lia|].
          fold (round_shift (Zpos b) n).
          pose proof (round_shift_error (Zpos b) n ltac:(lia)) as [_ Herr].
          assert (Hn2 : 0 < 2 ^ Zpos n) by (apply Z.pow_pos_nonneg; lia).
          assert (Hdiv : Zpos b = (Zpos m * 2 ^ (e - Zpos n)) * 2 ^ Zpos n).
          { rewrite Hb, <- Z.mul_assoc, <- Z.pow_add_r by lia. do 2 f_equal. lia. }
          set (c := Zpos m * 2 ^ (e - Zpos n)) in *.
          assert (Hrs : round_shift (Zpos b) n = c) by nia.
          rewrite Hrs.
          pose proof (digits2_pos_bounds b) as [_ B].
          replace (Zpos (digits2_pos b)) with (Zpos n + 53) in B by lia.
          rewrite Z.pow_add_r in B by lia. nia. }
    unfold float_of_int, binary_normalize, binary_round, shl_align.
    rewrite fexp_eq.
    destruct (Z.max (Zpos (digits2_pos b) + 0 - 53) (-1074) - 0) as [|k|k] eqn:Hk; [| |lia].
    + destruct (binary_round_aux_range false (Zpos b) 0 loc_Exact ltac:(lia)) as [H1 [H2 _]].
      destruct (binary_round_aux prec emax false (Zpos b) 0 loc_Exact) as [s|s| |s m' e'] eqn:E;
        try (eexists; split; [reflexivity|]; split; [exact H1|]; split; [exact H2|]; discriminate).
      exfalso. now apply (Hnot s).
    + destruct (binary_round_aux_range false (Zpos b) 0 loc_Exact ltac:(lia)) as [H1 [H2 _]].
      destruct (binary_round_aux prec emax false (Zpos b) 0 loc_Exact) as [s|s| |s m' e'] eqn:E;
        try (eexists; split; [reflexivity|]; split; [exact H1|]; split; [exact H2|]; discriminate).
      exfalso. now apply (Hnot s).
Qed.

(** The product of a float in range with the rate 0.87745 is finite. *)
Lemma fmul_rate_finite (f : float) :
  in_range f -> f <> S754_nan -> (forall s, f <> S754_infinity s) ->
  exists n, int_of_float (fmul f Normalizer.min_bid_rate) = Ok n.
Proof.
  intros Hr Hnan Hinf. destruct f as [s|s| |s mf ef]; [| now destruct (Hinf s) | congruence |].
  - eexists. reflexivity.
  - cbn [in_range] in Hr. destruct Hr as [Hm He].
    unfold fmul, Normalizer.min_bid_rate, SFmul.
    set (M := 7903366986072483%positive).
    destruct (binary_round_aux_range (xorb s false) (Zpos (mf * M)) (ef + -53) loc_Exact
                ltac:(lia)) as [H1 [H2 Hc]].
    destruct (shr_fexp_spec (Zpos (mf * M)) (ef + -53) loc_Exact ltac:(lia))
      as [mrs [e1 [Hs [He1 [Hq _]]]]].
    specialize (Hc mrs e1 Hs).
    assert (HP : Zpos (mf * M) < 2 ^ 106).
    { rewrite Pos2Z.inj_mul. change (2 ^ 106) with (2 ^ 53 * 2 ^ 53).
      assert (Zpos M < 2 ^ 53) by (unfold M; reflexivity). nia. }
    pose proof (pow2_digits_le (mf * M) 106 ltac:(lia) HP) as Hd.
    cbn [Zdigits2] in He1.
    assert (Hnot : forall s', binary_round_aux prec emax (xorb s false) (Zpos (mf * M))
                                (ef + -53) loc_Exact <> S754_infinity s').
    { apply Hc. destruct (Z.le_gt_cases e1 970) as [H|H]; [now left|].
      right. split; [lia|].
      pose proof (round_nearest_even_bounds (shr_m mrs) (loc_of_shr_record mrs)) as [_ R].
      assert (E : e1 - (ef + -53) = 53) by lia.
      rewrite E in Hq.
      assert (shr_m mrs < Zpos M).
      { rewrite Hq. apply Z.div_lt_upper_bound; [reflexivity|].
        rewrite Pos2Z.inj_mul. nia. }
      assert (Zpos M < 2 ^ 53) by (unfold M; reflexivity). lia. }
    destruct (binary_round_aux prec emax (xorb s false) (Zpos (mf * M)) (ef + -53) loc_Exact)
      as [s'|s'| |s' m' e'] eqn:E.
    + eexists. reflexivity.
    + now destruct (Hnot s').
    + congruence.
    + eexists. reflexivity.
Qed.

(** [calc_min_bid] does not raise on the values a money column can hold. *)
Lemma calc_min_bid_defined (budget estim : Z) :
  representable budget -> representable estim ->
  exists n, Normalizer.calc_min_bid budget estim = Ok n.
Proof.
  intros Hb He. unfold Normalizer.calc_min_bid.
  set (base := if budget >? 0 then budget else estim).
  assert (Hbase : representable base) by (unfold base; now destruct (budget >? 0)).
  destruct (base >? 0) eqn:Hpos; [|now eexists].
  apply Z.gtb_lt in Hpos.
  destruct Hbase as [H0|[m [e [Habs [Hm Hexp]]]]]; [lia|].
  destruct base as [|b|b]; try lia.
  cbn [Z.abs] in Habs.
  destruct (float_of_int_representable b m e Habs Hm Hexp) as [f [Hf [Hr [Hnan Hinf]]]].
  rewrite Hf. cbn [bind]. now apply fmul_rate_finite.
Qed.

End Binary64Range.

(** ** The bid-notice processor does not fail *)
Module BidSpec.
Import Py PyFacts Frame Normalizer NormalizerSpec OrderPlanSpec Processors Rowwise TableSpec.
Import RangeDefs Binary64Range.

(** The cell of a money tag in a built row is a missing value or an
    integer [calc_min_bid] can take. *)
Lemma built_money_cell (money : list string) (cm : list (string * string)) (df : DataFrame)
    (j : nat) (tc : string * string) (r' : list cell) :
  nth_error cm j = Some tc -> existsb (String.eqb (fst tc)) money = true ->
  In r' (built_rows money cm df) ->
  exists v, money_of (nth j r' CNaN) = Ok v /\ representable v.
Proof.
  intros Hj Hm Hin.
  destruct (built_rows_In _ _ _ _ Hin) as [r [Hr ->]].
  rewrite (nth_error_nth _ _ _ (build_nth_error _ _ _ _ _ _ _ Hj)).
  unfold convert, default_cell. rewrite Hm.
  destruct (find_col (columns df) (fst tc)) as [c|].
  - eexists. split; [reflexivity | apply parse_money_representable].
  - destruct (false || _); exists 0; (split; [reflexivity | now left]).
Qed.

(** X27.  On a table of parsed records in which a tag of the bid notices is
    found, the bid-notice processor always returns a table: the texts of
    its money columns are absorbed by [parse_money], the values they become
    never make [calc_min_bid] overflow, and the sort never compares a text
    with a number. *)
Theorem bid_never_raises (df : DataFrame) (kws : list string) :
  raw_frame df -> any_found (columns df) bid_col_map = true ->
  exists out, process_bid_for_excel df kws = Ok out.
Proof.
  intros Hraw _. destruct (is_empty df) eqn:He.
  { unfold process_bid_for_excel. rewrite He. now eexists. }
  rewrite (process_bid_unfold df kws He).
  destruct (mapM_Ok calc_min_bid_row
              (List.map (fun r => (nth 17 r CNaN, nth 18 r CNaN))
                        (built_rows bid_money bid_col_map df))) as [mins Hm].
  { apply Forall_forall. intros a Ha. apply in_map_iff in Ha as [r [<- Hr]].
    destruct (built_money_cell bid_money bid_col_map df 17 ("asignBdgtAmt", "배정예산(원)")
                r eq_refl eq_refl Hr) as [b [Hb Rb]].
    destruct (built_money_cell bid_money bid_col_map df 18 ("presmptPrce", "추정가격(원)")
                r eq_refl eq_refl Hr) as [e [He' Re]].
    unfold calc_min_bid_row. cbn [fst snd]. rewrite Hb. cbn [bind].
    destruct (b >? 0).
    - destruct (calc_min_bid_defined b 0 Rb (or_introl eq_refl)) as [n Hn].
      exists (CInt n). cbn [bind]. now rewrite Hn.
    - destruct (calc_min_bid_defined b e Rb Re) as [n Hn].
      exists (CInt n). rewrite He'. cbn [bind]. now rewrite Hn. }
  rewrite Hm. cbn [bind].
  apply (finish_ok (set_series {| columns := List.map snd bid_col_map;
                                  rows := built_rows bid_money bid_col_map df |}
                               "예상 투찰하한가(원)" mins)
           "공고명" "게시일시" kws 3 12); [reflexivity | reflexivity |].
  intros r Hr.
  destruct (bid_rows df mins r Hm Hr) as [r0 [m [-> [Hr0 _]]]].
  destruct (built_text_cell bid_money bid_col_map df 12 ("bidNtceDt", "게시일시")
              r0 Hraw eq_refl eq_refl Hr0) as [x [Hx [Hint _]]].
  pose proof (built_row_length _ _ _ _ Hr0) as Hlen.
  change (List.length bid_col_map) with 27%nat in Hlen.
  rewrite app_nth1 by lia. now rewrite (nth_error_nth _ _ _ Hx).
Qed.

Lemma bid_never_raises_witness :
  exists out, process_bid_for_excel
                (frame_of_raw [[("bidNtceNm", "Survey"); ("asignBdgtAmt", "1e308");
                                ("presmptPrce", "abc")]])
                ["X-ray"] = Ok out.
Proof.
  apply (bid_never_raises
           (frame_of_raw [[("bidNtceNm", "Survey"); ("asignBdgtAmt", "1e308");
                           ("presmptPrce", "abc")]]) ["X-ray"]).
  - apply frame_of_raw_is_raw.
  - reflexivity.
Defined.

End BidSpec.

(** ** The expected minimum bid stays within the base price *)
Module MinBidRange.
Import Py Binary64Facts RangeDefs Binary64Range Normalizer.

(** A mantissa of 53 bits followed by [n] zero bits is rounded to itself. *)
Lemma binary_round_aux_shifted (c n : positive) (e : Z) :
  Zpos (digits2_pos c) = 53 -> -1074 <= e + Zpos n <= 971 ->
  binary_round_aux prec emax false (Zpos c * 2 ^ Zpos n) e loc_Exact =
    S754_finite false c (e + Zpos n).
Proof.
  intros Hd He.
  assert (Hn : 0 < 2 ^ Zpos n) by (apply Z.pow_pos_nonneg; lia).
  pose proof (digits2_pos_bounds c) as [Clo Chi]. rewrite Hd in Clo, Chi.
  destruct (Zpos c * 2 ^ Zpos n) as [|P|P] eqn:HP; [lia| |lia].
  assert (HdP : Zpos (digits2_pos P) = 53 + Zpos n).
  { apply digits2_pos_unique. rewrite <- HP.
    replace (53 + Zpos n - 1) with (52 + Zpos n) by lia.
    rewrite !Z.pow_add_r by lia. change (53 - 1) with 52 in Clo. nia. }
  assert (H1 : shr_fexp prec emax (Zpos P) e loc_Exact = (shifted (Zpos P) n, e + Zpos n)).
  { unfold shr_fexp, shr_record_of_loc. rewrite fexp_eq. cbn [Zdigits2]. rewrite HdP.
    replace (Z.max (53 + Zpos n + e - 53) (-1074) - e) with (Zpos n) by lia.
    unfold shr. rewrite iter_shr_1 by lia. reflexivity. }
  assert (Hs : shifted (Zpos P) n = {| shr_m := Zpos c; shr_r := false; shr_s := false |}).
  { unfold shifted. rewrite <- HP. f_equal.
    - now rewrite Z.div_mul by lia.
    - replace (2 ^ Zpos n) with (2 * 2 ^ (Zpos n - 1))
        by (rewrite <- Z.pow_succ_r by lia; f_equal; lia).
      rewrite Z.mul_assoc, Z.div_mul by (apply Z.pow_nonzero; lia).
      rewrite Z.odd_mul. cbn [Z.odd]. now rewrite andb_false_r.
    - replace (2 ^ Zpos n) with (2 * 2 ^ (Zpos n - 1))
        by (rewrite <- Z.pow_succ_r by lia; f_equal; lia).
      rewrite Z.mul_assoc, Z.mod_mul by (apply Z.pow_nonzero; lia). reflexivity. }
  unfold binary_round_aux. rewrite H1, Hs.
  cbn [shr_m loc_of_shr_record round_nearest_even].
  assert (H2 : shr_fexp prec emax (Zpos c) (e + Zpos n) loc_Exact =
               ({| shr_m := Zpos c; shr_r := false; shr_s := false |}, e + Zpos n)).
  { unfold shr_fexp, shr_record_of_loc. rewrite fexp_eq. cbn [Zdigits2]. rewrite Hd.
    replace (Z.max (53 + (e + Zpos n) - 53) (-1074) - (e + Zpos n)) with 0 by lia.
    reflexivity. }
  rewrite H2. cbn [shr_m].
  replace (e + Zpos n <=? emax - prec) with true
    by (symmetry; apply Z.leb_le; unfold emax, prec; lia).
  reflexivity.
Qed.

(** The float of a representable integer: a mantissa of 53 bits and an
    exponent that give the integer back. *)
Lemma float_of_int_value (b m : positive) (e : Z) :
  Zpos b = Zpos m * 2 ^ e -> Zpos m < 2 ^ 53 -> 0 <= e <= 971 ->
  exists mf ef,
    float_of_int (Zpos b) = Ok (S754_finite false mf ef) /\
    Zpos (digits2_pos mf) = 53 /\ -53 < ef <= 971 /\
    (if 0 <=? ef then Zpos b = Zpos mf * 2 ^ ef else Zpos mf = Zpos b * 2 ^ (- ef)).
Proof.
  intros Hb Hm He.
  assert (He2 : 0 < 2 ^ e) by (apply Z.pow_pos_nonneg; lia).
  assert (Hb1024 : Zpos b < 2 ^ (53 + e)) by (rewrite Z.pow_add_r by lia; nia).
  pose proof (pow2_digits_le b (53 + e) ltac:(lia) Hb1024) as Hdb.
  pose proof (digits2_pos_bounds b) as [Blo Bhi].
  destruct (Z.lt_trichotomy (Zpos (digits2_pos b)) 53) as [Hlt|[E53|Hgt]].
  - destruct (float_of_int_exact b Hlt) as [mb [Hf [Hv Hd]]].
    exists mb, (Zpos (digits2_pos b) - 53). split; [exact Hf|]. split; [exact Hd|].
    split; [lia|].
    replace (0 <=? Zpos (digits2_pos b) - 53) with false by (symmetry; apply Z.leb_gt; lia).
    rewrite Hv. f_equal. f_equal. lia.
  - exists b, 0. split; [|split; [exact E53 | split; [lia | cbn; lia]]].
    unfold float_of_int, binary_normalize, binary_round, shl_align. rewrite fexp_eq.
    replace (Z.max (Zpos (digits2_pos b) + 0 - 53) (-1074) - 0) with 0 by lia.
    rewrite binary_round_aux_exact by (assumption || lia). reflexivity.
  - destruct (Zpos (digits2_pos b) - 53) as [|n|n] eqn:Hn; [lia| |lia].
    assert (Hn2 : 0 < 2 ^ Zpos n) by (apply Z.pow_pos_nonneg; lia).
    assert (Hdiv : Zpos b = (Zpos m * 2 ^ (e - Zpos n)) * 2 ^ Zpos n).
    { rewrite Hb, <- Z.mul_assoc, <- Z.pow_add_r by lia. do 2 f_equal. lia. }
    assert (Hc0 : 0 < Zpos m * 2 ^ (e - Zpos n)).
    { apply Z.mul_pos_pos; [lia | apply Z.pow_pos_nonneg; lia]. }
    destruct (Zpos m * 2 ^ (e - Zpos n)) as [|c|c] eqn:Hc; [lia| |lia].
    assert (Hdc : Zpos (digits2_pos c) = 53).
    { apply digits2_pos_unique. change (53 - 1) with 52.
      replace (Zpos (digits2_pos b)) with (Zpos n + 53) in Bhi by lia.
      replace (Zpos (digits2_pos b) - 1) with (Zpos n + 52) in Blo by lia.
      rewrite Z.pow_add_r in Blo, Bhi by lia. nia. }
    exists c, (Zpos n). split; [|split; [exact Hdc | split; [lia|]]].
    + unfold float_of_int, binary_normalize, binary_round, shl_align. rewrite fexp_eq.
      replace (Z.max (Zpos (digits2_pos b) + 0 - 53) (-1074) - 0) with (Zpos n) by lia.
      rewrite Hdiv, binary_round_aux_shifted by (assumption || lia). reflexivity.
    + replace (0 <=? Zpos n) with true by (symmetry; apply Z.leb_le; lia). exact Hdiv.
Qed.

(** Rounding a mantissa of [53 + n] bits, also at the largest exponent when
    nothing is carried out of the 53 bits. *)
Lemma binary_round_aux_rounds (P n : positive) (e : Z) :
  Zpos (digits2_pos P) = 53 + Zpos n ->
  -1074 <= e + Zpos n ->
  e + Zpos n + 1 <= 971 \/ (e + Zpos n <= 971 /\ round_shift (Zpos P) n < 2 ^ 53) ->
  exists m2 d,
    binary_round_aux prec emax false (Zpos P) e loc_Exact =
      S754_finite false m2 (e + Zpos n + d) /\
    0 <= d <= 1 /\
    Zpos m2 * 2 ^ d = round_shift (Zpos P) n.
Proof.
  intros Hd Hlo [Hhi|[Hhi Hrs]]; [now apply binary_round_aux_normal|].
  assert (H1 : shr_fexp prec emax (Zpos P) e loc_Exact = (shifted (Zpos P) n, e + Zpos n)).
  { unfold shr_fexp, shr_record_of_loc. rewrite fexp_eq. cbn [Zdigits2]. rewrite Hd.
    replace (Z.max (53 + Zpos n + e - 53) (-1074) - e) with (Zpos n) by lia.
    unfold shr. rewrite iter_shr_1 by lia. reflexivity. }
  unfold binary_round_aux. rewrite H1. fold (round_shift (Zpos P) n).
  pose proof (round_shift_error (Zpos P) n ltac:(lia)) as [[Rlo Rhi] _].
  pose proof (digits2_pos_bounds P) as [Plo Phi]. rewrite Hd in Plo, Phi.
  assert (Hn : 0 < 2 ^ Zpos n) by (apply Z.pow_pos_nonneg; lia).
  assert (Qlo : 2 ^ 52 <= Zpos P / 2 ^ Zpos n).
  { apply Z.div_le_lower_bound; [lia|].
    replace (53 + Zpos n - 1) with (Zpos n + 52) in Plo by lia.
    rewrite Z.pow_add_r in Plo by lia. lia. }
  destruct (round_shift (Zpos P) n) as [|r|r] eqn:HR; [lia| |lia].
  exists r, 0. split; [|split; [lia | rewrite Z.pow_0_r; lia]].
  assert (Hdr : Zpos (digits2_pos r) = 53).
  { apply digits2_pos_unique. change (53 - 1) with 52. lia. }
  unfold shr_fexp, shr_record_of_loc. rewrite fexp_eq. cbn [Zdigits2]. rewrite Hdr.
  replace (Z.max (53 + (e + Zpos n) - 53) (-1074) - (e + Zpos n)) with 0 by lia.
  cbn [shr shr_m].
  replace (e + Zpos n <=? emax - prec) with true
    by (symmetry; apply Z.leb_le; unfold emax, prec; lia).
  now rewrite Z.add_0_r.
Qed.

(** X28.  On the values a money column can hold, the expected minimum bid
    is never negative and never above the base price it is computed from
    (the budget when it is positive, the estimated price otherwise),
    however large the base is. *)
Theorem min_bid_within_base (budget estim n : Z) :
  representable budget -> representable estim ->
  calc_min_bid budget estim = Ok n ->
  0 <= n <= Z.max 0 (if budget >? 0 then budget else estim).
Proof.
  intros Hbud Hest. unfold calc_min_bid.
  set (base := if budget >? 0 then budget else estim).
  assert (Hbase : representable base) by (unfold base; now destruct (budget >? 0)).
  destruct (base >? 0) eqn:Hpos; [|intros H; injection H as <-; lia].
  apply Z.gtb_lt in Hpos.
  destruct Hbase as [H0|[m [e [Habs [Hm Hexp]]]]]; [lia|].
  destruct base as [|b|b]; try lia. cbn [Z.abs] in Habs.
  destruct (float_of_int_value b m e Habs Hm Hexp) as [mf [ef [Hf [Hdf [Hef Hval]]]]].
  rewrite Hf. cbn [bind]. unfold fmul, min_bid_rate, SFmul. cbn [xorb].
  set (M := 7903366986072483%positive).
  pose proof (digits2_pos_bounds mf) as [Flo Fhi]. rewrite Hdf in Flo, Fhi.
  change (53 - 1) with 52 in Flo.
  assert (HM : 2 ^ 52 <= Zpos M < 2 ^ 53) by (unfold M; split; [discriminate | reflexivity]).
  assert (HMv : Zpos M = 7903366986072483) by reflexivity.
  assert (HPlo : 2 ^ 104 <= Zpos (mf * M)).
  { rewrite Pos2Z.inj_mul. change (2 ^ 104) with (2 ^ 52 * 2 ^ 52). nia. }
  assert (HPhi : Zpos (mf * M) < 2 ^ 106).
  { rewrite Pos2Z.inj_mul. change (2 ^ 106) with (2 ^ 53 * 2 ^ 53). nia. }
  pose proof (pow2_digits_le (mf * M) 106 ltac:(lia) HPhi) as Hd1.
  pose proof (digits2_pos_bounds (mf * M)) as [Dlo Dhi].
  assert (Hd2 : 105 <= Zpos (digits2_pos (mf * M))).
  { destruct (Z.le_gt_cases 105 (Zpos (digits2_pos (mf * M)))) as [H|H]; [exact H|].
    assert (2 ^ Zpos (digits2_pos (mf * M)) <= 2 ^ 104) by (apply Z.pow_le_mono_r; lia).
    lia. }
  destruct (Zpos (digits2_pos (mf * M)) - 53) as [|np|np] eqn:Hnp; [lia| |lia].
  assert (Hnp2 : 52 <= Zpos np <= 53) by lia.
  assert (Hpn : 0 < 2 ^ Zpos np) by (apply Z.pow_pos_nonneg; lia).
  assert (Hpn53 : 2 ^ Zpos np <= 2 ^ 53) by (apply Z.pow_le_mono_r; lia).
  pose proof (round_shift_error (Zpos (mf * M)) np ltac:(lia)) as [[Rlo Rhi] Rerr].
  assert (HPv : Zpos (mf * M) = Zpos mf * 7903366986072483) by now rewrite Pos2Z.inj_mul.
  assert (HU : round_shift (Zpos (mf * M)) np * 2 ^ Zpos np <= Zpos mf * 2 ^ 53).
  { change (2 ^ 53) with 9007199254740992 in *.
    change (2 ^ 52) with 4503599627370496 in *. lia. }
  destruct (binary_round_aux_rounds (mf * M) np (ef + -53)) as [m2 [d [Hr [Hd Hm2]]]].
  { lia. }
  { lia. }
  { destruct (Z.le_gt_cases (ef + -53 + Zpos np + 1) 971) as [H|H]; [now left|].
    right. split; [lia|].
    assert (Enp : Zpos np = 53) by lia.
    assert (Zpos (mf * M) / 2 ^ Zpos np < Zpos M).
    { rewrite Enp. apply Z.div_lt_upper_bound; [reflexivity|].
      rewrite Pos2Z.inj_mul. nia. }
    lia. }
  rewrite Hr. cbn [int_of_float].
  set (E := ef + -53 + Zpos np + d) in *.
  set (rs := round_shift (Zpos (mf * M)) np) in *.
  intros H. injection H as <-.
  assert (Hd2' : 0 < 2 ^ d) by (apply Z.pow_pos_nonneg; lia).
  rewrite Z.max_r by lia.
  split.
  - destruct E as [|p|p]; [rewrite Z.shiftl_0_r; lia | rewrite Z.shiftl_mul_pow2 by lia |
                            rewrite Z.shiftr_div_pow2 by lia].
    + apply Z.mul_nonneg_nonneg; [lia | apply Z.pow_nonneg; lia].
    + apply Z.div_pos; [lia | apply Z.pow_pos_nonneg; lia].
  - (* a <= b *)
    destruct (Z.le_gt_cases 53 ef) as [Hbig|Hsmall].
    + (* the exponent of the base covers the 53 bits of the rate *)
      replace (0 <=? ef) with true in Hval by (symmetry; apply Z.leb_le; lia).
      assert (HE : E = (ef - 53) + (Zpos np + d)) by (unfold E; lia).
      assert (HE0 : 0 <= E) by lia.
      replace (match E with Zneg p => Z.shiftr (Zpos m2) (Zpos p) | _ => Z.shiftl (Zpos m2) E end)
        with (Zpos m2 * 2 ^ E)
        by (destruct E as [|p|p]; [rewrite Z.shiftl_0_r; lia
                                   | now rewrite Z.shiftl_mul_pow2 by lia | lia]).
      rewrite Hval, HE.
      replace ef with ((ef - 53) + 53) at 2 by lia.
      rewrite !Z.pow_add_r by lia.
      assert (Ht : 0 < 2 ^ (ef - 53)) by (apply Z.pow_pos_nonneg; lia).
      assert (Hrs : Zpos m2 * (2 ^ Zpos np * 2 ^ d) = rs * 2 ^ Zpos np) by (rewrite <- Hm2; ring).
      nia.
    + (* compare after scaling by 2^(53 - ef) *)
      set (k := 53 - ef).
      assert (Hk : 0 < k) by (unfold k; lia).
      assert (Hk2 : 0 < 2 ^ k) by (apply Z.pow_pos_nonneg; lia).
      assert (HW : Zpos b * 2 ^ k = Zpos mf * 2 ^ 53).
      { destruct (0 <=? ef) eqn:E0.
        - apply Z.leb_le in E0. rewrite Hval, <- Z.mul_assoc, <- Z.pow_add_r by lia.
          do 2 f_equal. unfold k. lia.
        - apply Z.leb_gt in E0. rewrite Hval, <- Z.mul_assoc, <- Z.pow_add_r by lia.
          do 2 f_equal. unfold k. lia. }
      assert (HEk : E + k = Zpos np + d) by (unfold E, k; lia).
      assert (Hrs : Zpos m2 * 2 ^ (Zpos np + d) = rs * 2 ^ Zpos np).
      { rewrite Z.pow_add_r by lia. rewrite <- Hm2. ring. }
      apply (Z.mul_le_mono_pos_r _ _ (2 ^ k) Hk2). rewrite HW.
      apply Z.le_trans with (rs * 2 ^ Zpos np); [|exact HU]. rewrite <- Hrs, <- HEk.
      destruct E as [|p|p].
      * rewrite Z.shiftl_0_r. cbn [Z.add]. lia.
      * rewrite Z.shiftl_mul_pow2 by lia. rewrite Z.pow_add_r by lia. lia.
      * rewrite Z.shiftr_div_pow2 by lia.
        assert (Hp : 0 < 2 ^ Zpos p) by (apply Z.pow_pos_nonneg; lia).
        assert (Hkp : k = Zpos p + (Zneg p + k)) by lia.
        rewrite Hkp at 1. rewrite Z.pow_add_r by lia.
        pose proof (Z.mul_div_le (Zpos m2) (2 ^ Zpos p) Hp) as Hq.
        assert (Hz : 0 <= 2 ^ (Zneg p + k)) by (apply Z.pow_nonneg; lia).
        nia.
Qed.

Lemma min_bid_within_base_witness :
  0 <= 1099511628377 <= Z.max 0 (if 1253076105051 >? 0 then 1253076105051 else 0).
Proof.
  apply (min_bid_within_base 1253076105051 0 1099511628377).
  - right. exists 1253076105051%positive, 0. split; [reflexivity|]. split; [reflexivity | lia].
  - now left.
  - vm_compute. reflexivity.
Defined.

End MinBidRange.
